(** * The question-answering agent: extractor, dispatcher and loop

    A shallow embedding of the agent core of this repository:

    - [app/agent/graph.py]: [_parse_tool_calls], [_process_tool_calls],
      [_should_use_tools], [_generate_response] and the graph wired by
      [create_agent_executor];
    - [app/tools/base.py]: [BaseTool.run];
    - [app/tools/__init__.py]: the registry [TOOLS];
    - [app/tools/search.py]: [SearchTool._run];
    - [app/tools/zhihu.py]: [ZhihuHotTool._run] and [_fallback_method];
    - [app/main.py]: the [/chat] handler.

    Python [str] values are modelled as [string], holding the UTF-8
    encoding of the text.  Substring search, [split] on a fixed separator
    and the brace scan of the regular expression agree on code points and
    on UTF-8 bytes, since an encoded character never starts inside
    another one; [strip] removes the encodings of the whitespace
    characters.

    The model and the tools are the environment: they are functions over
    an abstract world that is threaded through the loop, and each either
    returns or raises.  An exception stands for an instance of
    [Exception], which is what the handlers of the code catch; it carries
    the text [str(e)] gives.  The library functions the code calls
    ([re.findall], [json.loads], [json.dumps], the run of the compiled
    graph) are written out as functions of this file.  The decoder
    raises as the interpreter does, for a text that is no JSON and for
    an integer of more than 4300 digits, the default limit of the
    conversion.  The run of the graph counts its steps as the runtime
    does, and raises when the steps allowed are used up, also when the
    last of them reached the end.  A request carries a list as its chat
    history, and texts stay within the nesting depth the interpreter
    allows the decoder.  A float is kept, and written back by the
    encoder, as the text of its literal; the outputs of the two tools of
    the registry hold texts and [None] only.

    The two tools are modelled for an input model, as their signatures
    declare, and for the values that are no model which [run] hands
    over unchecked.  The sites they read are part of the world: a request
    returns a response or raises.  A response of the search site is
    given by its status and by the elements the selectors of the code
    find in its text; a response of a hot-list site by its status and by
    what [response.json()] gives.  The models of the tools validate
    their fields as the release of the validation library that has
    [model_dump] does: a field declared [str] takes a text only. *)

From Stdlib Require Import String Ascii List ZArith Bool Lia DecimalString.
From stdpp Require Import gmap strings list.

#[local] Set Warnings "-register-all".

Local Open Scope string_scope.

(** ** Python string primitives *)

Module PyStr.

(** [sub in s]. *)
Fixpoint contains (sub s : string) : bool :=
  String.prefix sub s ||
  match s with
  | EmptyString => false
  | String _ rest => contains sub rest
  end.

(** [s.split(sep)] for a non-empty [sep]: the text is cut at each
    occurrence of [sep], found from left to right without overlap.
    [skip] counts the bytes of a separator that are still to be passed
    over, [cur] is the piece being collected. *)
Fixpoint split_from (sep : string) (skip : nat) (cur s : string) : list string :=
  match s with
  | EmptyString => [cur]
  | String c rest =>
      match skip with
      | S k => split_from sep k cur rest
      | O =>
          if String.prefix sep s
          then cur :: split_from sep (String.length sep - 1) "" rest
          else split_from sep 0 (cur +:+ String c "") rest
      end
  end.

Definition split (sep s : string) : list string := split_from sep 0 "" s.

(** The characters for which [str.isspace] holds, by their UTF-8 bytes:
    U+0009..U+000D, U+001C..U+0020; U+0085, U+00A0; U+1680,
    U+2000..U+200A, U+2028, U+2029, U+202F, U+205F, U+3000. *)
Definition is_space1 (c : ascii) : bool :=
  let n := nat_of_ascii c in
  (Nat.leb 9 n && Nat.leb n 13) || (Nat.leb 28 n && Nat.leb n 32).

Definition is_space2 (c d : ascii) : bool :=
  Nat.eqb (nat_of_ascii c) 194
  && (Nat.eqb (nat_of_ascii d) 133 || Nat.eqb (nat_of_ascii d) 160).

Definition is_space3 (c d e : ascii) : bool :=
  let x := nat_of_ascii c in
  let y := nat_of_ascii d in
  let z := nat_of_ascii e in
  (Nat.eqb x 225 && Nat.eqb y 154 && Nat.eqb z 128)
  || (Nat.eqb x 226 && Nat.eqb y 128
      && ((Nat.leb 128 z && Nat.leb z 138)
          || Nat.eqb z 168 || Nat.eqb z 169 || Nat.eqb z 175))
  || (Nat.eqb x 226 && Nat.eqb y 129 && Nat.eqb z 159)
  || (Nat.eqb x 227 && Nat.eqb y 128 && Nat.eqb z 128).

(** Width in bytes of the whitespace character [s] starts with, 0 when it
    starts with none. *)
Definition space_width (s : string) : nat :=
  match s with
  | String c r =>
      if is_space1 c then 1
      else match r with
           | String d r' =>
               if is_space2 c d then 2
               else match r' with
                    | String e _ => if is_space3 c d e then 3 else 0
                    | EmptyString => 0
                    end
           | EmptyString => 0
           end
  | EmptyString => 0
  end.

(** The same on the reversed text: the width of the whitespace character
    the text ends with. *)
Definition space_width_rev (r : string) : nat :=
  match r with
  | String e r1 =>
      if is_space1 e then 1
      else match r1 with
           | String d r2 =>
               if is_space2 d e then 2
               else match r2 with
                    | String c _ => if is_space3 c d e then 3 else 0
                    | EmptyString => 0
                    end
           | EmptyString => 0
           end
  | EmptyString => 0
  end.

Fixpoint drop (n : nat) (s : string) : string :=
  match n, s with
  | S k, String _ rest => drop k rest
  | _, _ => s
  end.

Fixpoint strip_with (width : string -> nat) (fuel : nat) (s : string) : string :=
  match fuel with
  | O => s
  | S k =>
      match width s with
      | O => s
      | S w => strip_with width k (drop (S w) s)
      end
  end.

Fixpoint rev_onto (s acc : string) : string :=
  match s with
  | EmptyString => acc
  | String c rest => rev_onto rest (String c acc)
  end.

Definition rev (s : string) : string := rev_onto s "".

Definition lstrip (s : string) : string :=
  strip_with space_width (String.length s) s.

Definition rstrip (s : string) : string :=
  rev (strip_with space_width_rev (String.length s) (rev s)).

(** [s.strip()]. *)
Definition strip (s : string) : string := rstrip (lstrip s).

End PyStr.

(** ** The regular expression of the extractor *)

Definition is_brace (c : ascii) : bool :=
  Ascii.eqb c "{" || Ascii.eqb c "}".

(** The longest run of characters other than braces at the start of [s],
    and the text after it: what the greedy class [[^{}]*] takes. *)
Fixpoint span_not_brace (s : string) : string * string :=
  match s with
  | EmptyString => (EmptyString, EmptyString)
  | String c rest =>
      if is_brace c then (EmptyString, s)
      else let (run, tl) := span_not_brace rest in (String c run, tl)
  end.

(** One attempt of the pattern [{[^{}]*}] at the start of [s]: the
    matched text and the text after it.  Giving back characters of the
    run cannot help, since none of them is a closing brace. *)
Definition match_here (s : string) : option (string * string) :=
  match s with
  | EmptyString => None
  | String c rest =>
      if Ascii.eqb c "{" then
        match span_not_brace rest with
        | (body, String d rest') =>
            if Ascii.eqb d "}" then Some ("{" +:+ body +:+ "}", rest') else None
        | (_, EmptyString) => None
        end
      else None
  end.

(** The scan of [re.findall]: at each position the pattern is tried; a
    match is recorded and the scan resumes after it, otherwise the scan
    moves on by one character. *)
Fixpoint findall_from (fuel : nat) (text : string) : list string :=
  match fuel with
  | O => []
  | S k =>
      match text with
      | EmptyString => []
      | String _ rest =>
          match match_here text with
          | Some (m, rest') => m :: findall_from k rest'
          | None => findall_from k rest
          end
      end
  end.

(** [re.findall(r'({[^{}]*})', text)]. *)
Definition re_findall (text : string) : list string :=
  findall_from (String.length text) text.

(** ** JSON values *)

(** What [json.loads] builds: [None], [bool], [int], [float], [str],
    [list] and [dict].  A float is kept as the text of its literal; a
    dict keeps its keys in insertion order. *)
Inductive json : Type :=
| JNull
| JBool (b : bool)
| JInt (z : Z)
| JFloat (literal : string)
| JStr (s : string)
| JArr (items : list json)
| JObj (members : list (string * json)).

Module Dict.

Section Ops.
Context {V : Type}.

(** [d.get(k)]. *)
Fixpoint get (k : string) (d : list (string * V)) : option V :=
  match d with
  | [] => None
  | (k', v) :: rest => if String.eqb k k' then Some v else get k rest
  end.

(** [k in d]. *)
Definition mem (k : string) (d : list (string * V)) : bool :=
  match get k d with Some _ => true | None => false end.

(** [d[k] = v]: a present key keeps its place and takes the new value, a
    new key goes last. *)
Fixpoint set (k : string) (v : V) (d : list (string * V)) : list (string * V) :=
  match d with
  | [] => [(k, v)]
  | (k', v') :: rest =>
      if String.eqb k k' then (k', v) :: rest else (k', v') :: set k v rest
  end.

End Ops.

End Dict.

(** ** The JSON decoder *)

(** [json.loads] on a [str], after the scanner of the standard library:
    [scan_once] dispatches on the first character; objects and arrays
    skip the whitespace [ \t\n\r] around their items; strings are
    scanned in strict mode.  [None] stands for [JSONDecodeError]. *)
Module Json.

Definition quote : ascii := "034".
Definition backslash : ascii := "092".

Definition is_ws (c : ascii) : bool :=
  Ascii.eqb c " " || Ascii.eqb c "009" || Ascii.eqb c "010" || Ascii.eqb c "013".

Fixpoint skip_ws (s : string) : string :=
  match s with
  | String c rest => if is_ws c then skip_ws rest else s
  | EmptyString => s
  end.

Definition is_digit (c : ascii) : bool :=
  let n := nat_of_ascii c in Nat.leb 48 n && Nat.leb n 57.

Definition hex_value (c : ascii) : option N :=
  let n := N_of_ascii c in
  if (N.leb 48 n && N.leb n 57)%bool then Some (n - 48)%N
  else if (N.leb 97 n && N.leb n 102)%bool then Some (n - 87)%N
  else if (N.leb 65 n && N.leb n 70)%bool then Some (n - 55)%N
  else None.

Definition hex4 (a b c d : ascii) : option N :=
  match hex_value a, hex_value b, hex_value c, hex_value d with
  | Some x, Some y, Some z, Some w => Some (((x * 16 + y) * 16 + z) * 16 + w)%N
  | _, _, _, _ => None
  end.

Definition byte (n : N) : string := String (ascii_of_N n) EmptyString.

(** The UTF-8 bytes of a code point; a lone surrogate takes the three
    bytes of its range. *)
Definition utf8 (cp : N) : string :=
  if (cp <? 128)%N then byte cp
  else if (cp <? 2048)%N then
    byte (192 + cp / 64) +:+ byte (128 + cp mod 64)
  else if (cp <? 65536)%N then
    byte (224 + cp / 4096) +:+ byte (128 + (cp / 64) mod 64)
    +:+ byte (128 + cp mod 64)
  else
    byte (240 + cp / 262144) +:+ byte (128 + (cp / 4096) mod 64)
    +:+ byte (128 + (cp / 64) mod 64) +:+ byte (128 + cp mod 64).

Definition is_high_surrogate (cp : N) : bool := (N.leb 55296 cp && N.leb cp 56319)%bool.
Definition is_low_surrogate (cp : N) : bool := (N.leb 56320 cp && N.leb cp 57343)%bool.

(** The low surrogate escape [\uXXXX] at the start of [s], if there is
    one, and the text after it. *)
Definition low_surrogate_escape (s : string) : option (N * string) :=
  match s with
  | String b (String u (String h1 (String h2 (String h3 (String h4 rest))))) =>
      if (Ascii.eqb b backslash && Ascii.eqb u "u")%bool then
        match hex4 h1 h2 h3 h4 with
        | Some lo => if is_low_surrogate lo then Some (lo, rest) else None
        | None => None
        end
      else None
  | _ => None
  end.

Definition simple_escape (c : ascii) : option ascii :=
  if Ascii.eqb c quote then Some quote
  else if Ascii.eqb c backslash then Some backslash
  else if Ascii.eqb c "/" then Some "/"%char
  else if Ascii.eqb c "b" then Some "008"%char
  else if Ascii.eqb c "f" then Some "012"%char
  else if Ascii.eqb c "n" then Some "010"%char
  else if Ascii.eqb c "r" then Some "013"%char
  else if Ascii.eqb c "t" then Some "009"%char
  else None.

(** [scanstring]: the text after an opening quote, up to the closing one.
    [skip] counts the bytes of an escape that was decoded already and
    that are still to be passed over. *)
Fixpoint scanstring (skip : nat) (s : string) : option (string * string) :=
  match s with
  | EmptyString => None
  | String c rest =>
      match skip with
      | S k => scanstring k rest
      | O =>
          if Ascii.eqb c quote then Some (EmptyString, rest)
          else if Ascii.eqb c backslash then
            match rest with
            | EmptyString => None
            | String e rest1 =>
                if Ascii.eqb e "u" then
                  match rest1 with
                  | String h1 (String h2 (String h3 (String h4 rest2))) =>
                      match hex4 h1 h2 h3 h4 with
                      | None => None
                      | Some hi =>
                          match (if is_high_surrogate hi
                                 then low_surrogate_escape rest2 else None) with
                          | Some (lo, _) =>
                              let cp := (65536 + (hi - 55296) * 1024 + (lo - 56320))%N in
                              match scanstring 11 rest with
                              | Some (str, tl) => Some (utf8 cp +:+ str, tl)
                              | None => None
                              end
                          | None =>
                              match scanstring 5 rest with
                              | Some (str, tl) => Some (utf8 hi +:+ str, tl)
                              | None => None
                              end
                          end
                      end
                  | _ => None
                  end
                else
                  match simple_escape e with
                  | Some d =>
                      match scanstring 1 rest with
                      | Some (str, tl) => Some (String d str, tl)
                      | None => None
                      end
                  | None => None
                  end
            end
          else if Nat.leb (nat_of_ascii c) 31 then None
          else
            match scanstring 0 rest with
            | Some (str, tl) => Some (String c str, tl)
            | None => None
            end
      end
  end.

Fixpoint span_digits (s : string) : string * string :=
  match s with
  | EmptyString => (EmptyString, EmptyString)
  | String c rest =>
      if is_digit c then let (ds, tl) := span_digits rest in (String c ds, tl)
      else (EmptyString, s)
  end.

Fixpoint digits_value (acc : Z) (ds : string) : Z :=
  match ds with
  | EmptyString => acc
  | String c rest => digits_value (acc * 10 + Z.of_nat (nat_of_ascii c - 48)) rest
  end.

(** The optional parts of a number: a dot and digits; an [e] or [E], an
    optional sign and digits. *)
Definition fraction_part (s : string) : string * string :=
  match s with
  | String c rest =>
      if Ascii.eqb c "." then
        match span_digits rest with
        | (EmptyString, _) => (EmptyString, s)
        | (ds, tl) => (String c ds, tl)
        end
      else (EmptyString, s)
  | EmptyString => (EmptyString, s)
  end.

Definition exponent_part (s : string) : string * string :=
  match s with
  | String c rest =>
      if (Ascii.eqb c "e" || Ascii.eqb c "E")%bool then
        let (sign, rest1) :=
          match rest with
          | String d rest' =>
              if (Ascii.eqb d "+" || Ascii.eqb d "-")%bool
              then (String d EmptyString, rest') else (EmptyString, rest)
          | EmptyString => (EmptyString, rest)
          end in
        match span_digits rest1 with
        | (EmptyString, _) => (EmptyString, s)
        | (ds, tl) => (String c sign +:+ ds, tl)
        end
      else (EmptyString, s)
  | EmptyString => (EmptyString, s)
  end.

(** How a scan ends without a value.  [NoJSON] is the
    [JSONDecodeError] of a text that is no JSON.  [IntTooLong] is the
    [ValueError] of the interpreter, which is no [JSONDecodeError], for
    an integer of more digits than it converts. *)
Inductive stop : Type :=
| NoJSON
| IntTooLong.

Inductive scan (A : Type) : Type :=
| Found (a : A)
| Stop (why : stop).

Arguments Found {A} a.
Arguments Stop {A} why.

(** The default of [sys.get_int_max_str_digits()]. *)
Definition int_max_str_digits : nat := 4300.

(** A number: an optional minus sign, then a zero or a digit run that
    does not start with zero; then the optional fraction and exponent.
    It is an [int] when neither of these is there, a [float] otherwise.
    The conversion of the digits of an [int] is the one that is
    limited. *)
Definition match_number (s : string) : scan (json * string) :=
  let (neg, s1) :=
    match s with
    | String c rest => if Ascii.eqb c "-" then (true, rest) else (false, s)
    | EmptyString => (false, s)
    end in
  match s1 with
  | EmptyString => Stop NoJSON
  | String c rest =>
      if is_digit c then
        let (int_digits, after) :=
          if Ascii.eqb c "0" then (String c EmptyString, rest) else span_digits s1 in
        let (frac, after1) := fraction_part after in
        let (exp, after2) := exponent_part after1 in
        match frac, exp with
        | EmptyString, EmptyString =>
            if Nat.ltb int_max_str_digits (String.length int_digits)
            then Stop IntTooLong
            else
              let v := digits_value 0 int_digits in
              Found (JInt (if neg then (- v)%Z else v), after)
        | _, _ =>
            Found (JFloat ((if neg then "-" else EmptyString) +:+ int_digits +:+ frac +:+ exp),
                   after2)
        end
      else Stop NoJSON
  end.

(** A fixed word at the start of [s]. *)
Fixpoint literal (word s : string) : option string :=
  match word, s with
  | EmptyString, _ => Some s
  | String a word', String b s' => if Ascii.eqb a b then literal word' s' else None
  | String _ _, EmptyString => None
  end.

Definition scan_literal (s : string) : scan (json * string) :=
  match literal "null" s with
  | Some tl => Found (JNull, tl)
  | None =>
  match literal "true" s with
  | Some tl => Found (JBool true, tl)
  | None =>
  match literal "false" s with
  | Some tl => Found (JBool false, tl)
  | None =>
  match match_number s with
  | Found r => Found r
  | Stop IntTooLong => Stop IntTooLong
  | Stop NoJSON =>
  match literal "NaN" s with
  | Some tl => Found (JFloat "NaN", tl)
  | None =>
  match literal "Infinity" s with
  | Some tl => Found (JFloat "Infinity", tl)
  | None =>
  match literal "-Infinity" s with
  | Some tl => Found (JFloat "-Infinity", tl)
  | None => Stop NoJSON
  end end end end end end end.

(** The members of an object, from where a key must start: a quoted
    key, a colon, a value, then a comma or the closing brace.  A repeated
    key keeps its place and takes the later value. *)
Fixpoint object_members (fuel : nat) (value : string -> scan (json * string))
    (acc : list (string * json)) (s : string) : scan (list (string * json) * string) :=
  match fuel with
  | O => Stop NoJSON
  | S k =>
      match s with
      | EmptyString => Stop NoJSON
      | String c rest =>
          if Ascii.eqb c quote then
            match scanstring 0 rest with
            | None => Stop NoJSON
            | Some (key, after_key) =>
                match skip_ws after_key with
                | EmptyString => Stop NoJSON
                | String colon after_colon =>
                    if Ascii.eqb colon ":" then
                      match value (skip_ws after_colon) with
                      | Stop why => Stop why
                      | Found (v, after_value) =>
                          let acc' := Dict.set key v acc in
                          match skip_ws after_value with
                          | EmptyString => Stop NoJSON
                          | String d after_d =>
                              if Ascii.eqb d "}" then Found (acc', after_d)
                              else if Ascii.eqb d ","
                              then object_members k value acc' (skip_ws after_d)
                              else Stop NoJSON
                          end
                      end
                    else Stop NoJSON
                end
            end
          else Stop NoJSON
      end
  end.

(** The items of an array, from where a value must start. *)
Fixpoint array_items (fuel : nat) (value : string -> scan (json * string))
    (acc : list json) (s : string) : scan (list json * string) :=
  match fuel with
  | O => Stop NoJSON
  | S k =>
      match value s with
      | Stop why => Stop why
      | Found (v, after_value) =>
          match skip_ws after_value with
          | EmptyString => Stop NoJSON
          | String d after_d =>
              if Ascii.eqb d "]" then Found ((acc ++ [v])%list, after_d)
              else if Ascii.eqb d ","
              then array_items k value (acc ++ [v])%list (skip_ws after_d)
              else Stop NoJSON
          end
      end
  end.

Fixpoint scan_once (fuel : nat) (s : string) : scan (json * string) :=
  match fuel with
  | O => Stop NoJSON
  | S k =>
      match s with
      | EmptyString => Stop NoJSON
      | String c rest =>
          if Ascii.eqb c quote then
            match scanstring 0 rest with
            | Some (str, tl) => Found (JStr str, tl)
            | None => Stop NoJSON
            end
          else if Ascii.eqb c "{" then
            match skip_ws rest with
            | EmptyString => Stop NoJSON
            | String d after_d as body =>
                if Ascii.eqb d "}" then Found (JObj [], after_d)
                else
                  match object_members k (scan_once k) [] body with
                  | Found (ms, tl) => Found (JObj ms, tl)
                  | Stop why => Stop why
                  end
            end
          else if Ascii.eqb c "[" then
            match skip_ws rest with
            | EmptyString => Stop NoJSON
            | String d after_d as body =>
                if Ascii.eqb d "]" then Found (JArr [], after_d)
                else
                  match array_items k (scan_once k) [] body with
                  | Found (xs, tl) => Found (JArr xs, tl)
                  | Stop why => Stop why
                  end
            end
          else scan_literal s
      end
  end.

(** [json.loads(s)]: one value, with nothing but whitespace around it,
    or the way it raises. *)
Definition decode (s : string) : scan json :=
  match scan_once (S (String.length s)) (skip_ws s) with
  | Found (v, tl) =>
      match skip_ws tl with
      | EmptyString => Found v
      | String _ _ => Stop NoJSON
      end
  | Stop why => Stop why
  end.

(** The value [json.loads(s)] returns, when it returns. *)
Definition loads (s : string) : option json :=
  match decode s with
  | Found v => Some v
  | Stop _ => None
  end.

(** *** The encoder *)

Definition hex_digit (n : N) : ascii :=
  if (n <? 10)%N then ascii_of_N (48 + n) else ascii_of_N (87 + n).

(** The escape of one character of a string, as [json.dumps] writes it
    with [ensure_ascii=False]: the quote, the backslash and the control
    characters are escaped, everything else is kept. *)
Definition escape_char (c : ascii) : string :=
  if Ascii.eqb c quote then String backslash (String quote EmptyString)
  else if Ascii.eqb c backslash then String backslash (String backslash EmptyString)
  else if Ascii.eqb c "010" then String backslash "n"
  else if Ascii.eqb c "013" then String backslash "r"
  else if Ascii.eqb c "009" then String backslash "t"
  else if Ascii.eqb c "008" then String backslash "b"
  else if Ascii.eqb c "012" then String backslash "f"
  else if Nat.leb (nat_of_ascii c) 31 then
    String backslash "u00"
    +:+ String (hex_digit (N_of_ascii c / 16)) (String (hex_digit (N_of_ascii c mod 16)) EmptyString)
  else String c EmptyString.

Fixpoint escape (s : string) : string :=
  match s with
  | EmptyString => EmptyString
  | String c rest => escape_char c +:+ escape rest
  end.

Definition encode_string (s : string) : string :=
  String quote (escape s) +:+ String quote EmptyString.

Definition show_Z (z : Z) : string := NilZero.string_of_int (Z.to_int z).

(** [", ".join(parts)]. *)
Fixpoint join (parts : list string) : string :=
  match parts with
  | [] => EmptyString
  | [p] => p
  | p :: rest => p +:+ ", " +:+ join rest
  end.

(** [json.dumps(v, ensure_ascii=False)], with the default separators.  A
    float is written as the text it is kept as. *)
Fixpoint dumps (v : json) : string :=
  match v with
  | JNull => "null"
  | JBool true => "true"
  | JBool false => "false"
  | JInt z => show_Z z
  | JFloat literal => literal
  | JStr s => encode_string s
  | JArr items => "[" +:+ join (List.map dumps items) +:+ "]"
  | JObj members =>
      "{" +:+ join (List.map (fun kv => encode_string (fst kv) +:+ ": " +:+ dumps (snd kv))
                             members) +:+ "}"
  end.

End Json.

(** ** Messages, tool results and the state of the agent *)

Abbreviation dict := (list (string * json)).

(** The elements of [messages].  [_generate_response] builds
    [HumanMessage] and [AIMessage] objects; [AgentState] declares the
    elements as dicts, and a dict has no [content] attribute, which is
    what [chat] tests with [hasattr]. *)
Inductive message : Type :=
| HumanMessage (content : string)
| AIMessage (content : string)
| PlainDict (d : dict).

(** [hasattr(m, "content")] and [m.content]. *)
Definition content (m : message) : option string :=
  match m with
  | HumanMessage c => Some c
  | AIMessage c => Some c
  | PlainDict _ => None
  end.

(** An entry of [tool_results]: the dict with keys [tool_name] and
    [result] of a call that returned, or the dict with keys [tool_name]
    and [error] of a call that raised. *)
Inductive tool_result : Type :=
| ToolOutput (tool_name : string) (result : json)
| ToolError (tool_name : string) (error : string).

Definition tool_name_of (r : tool_result) : string :=
  match r with
  | ToolOutput n _ => n
  | ToolError n _ => n
  end.

(** [AgentState]: a dict in which every key may be absent. *)
Module AgentState.

Record t : Type := mk {
  question : option string;
  chat_history : option (list (list (string * string)));
  messages : option (list message);
  tool_calls : option (list dict);
  tool_results : option (list tool_result)
}.

Definition empty : t := mk None None None None None.

(** One key of a dict display [{**a, **b}]: the entry of [b] replaces
    the entry of [a]. *)
Definition later {A : Type} (a b : option A) : option A :=
  match b with
  | Some v => Some v
  | None => a
  end.

(** [{**a, **b}]: the keys of both, with the value of [b] where both
    have the key. *)
Definition update (a b : t) : t :=
  mk (later (question a) (question b))
     (later (chat_history a) (chat_history b))
     (later (messages a) (messages b))
     (later (tool_calls a) (tool_calls b))
     (later (tool_results a) (tool_results b)).

End AgentState.

(** The request and the response of [/chat]. *)
Module QuestionRequest.
Record t : Type := mk {
  question : string;
  chat_history : list (list (string * string))
}.
End QuestionRequest.

Module AgentResponse.
Record t : Type := mk {
  answer : string;
  tool_calls : list dict;
  tool_results : list tool_result
}.
End AgentResponse.

(** The state [chat] starts the graph from. *)
Definition initial_state (request : QuestionRequest.t) : AgentState.t :=
  AgentState.mk (Some (QuestionRequest.question request))
                (Some (QuestionRequest.chat_history request))
                (Some []) (Some []) None.

(** What [chat] gives back: the response, or the [HTTPException] it
    raises. *)
Inductive http_result : Type :=
| Response (r : AgentResponse.t)
| HTTPException (status_code : nat) (detail : string).

(** An exception, with the text [str(e)] gives. *)
Inductive exn : Type :=
| Exception (str : string).

Definition str_of (e : exn) : string :=
  match e with Exception s => s end.

Definition newline : string := String "010" EmptyString.

(** ** The extractor *)

(** The loop over the candidates, the list [tool_calls] growing: a
    candidate that decodes to a dict with both keys is appended, one
    that is no JSON is passed over.  The error of an integer that is too
    long is not the one the handler in the loop names: it reaches the
    outer handler, which ends the loop, and the function returns the
    list as it is.  A candidate starts with an opening brace, so the
    decoder yields a dict or raises ([candidate_decodes_to_dict] below);
    the branch for other values is never taken. *)
Fixpoint keep_calls (tool_calls : list dict) (json_patterns : list string) : list dict :=
  match json_patterns with
  | [] => tool_calls
  | pattern :: rest =>
      match Json.decode pattern with
      | Json.Found (JObj tool_call) =>
          if Dict.mem "name" tool_call && Dict.mem "input" tool_call
          then keep_calls (tool_calls ++ [tool_call])%list rest
          else keep_calls tool_calls rest
      | Json.Found _ => keep_calls tool_calls rest
      | Json.Stop Json.NoJSON => keep_calls tool_calls rest
      | Json.Stop Json.IntTooLong => tool_calls
      end
  end.

(** [_parse_tool_calls]. *)
Definition _parse_tool_calls (output : string) : list dict :=
  if PyStr.contains "工具调用" output then
    let parts := PyStr.split "工具调用" output in
    if Nat.ltb 1 (List.length parts) then
      let tool_part :=
        List.hd EmptyString (PyStr.split "行动后思考" (List.nth 1 parts EmptyString)) in
      let json_patterns := re_findall tool_part in
      keep_calls [] json_patterns
    else []
  else [].

(** ** The environment, the dispatcher and the loop *)

Section Agent.

(** The world outside: the model service and the sites the tools read. *)
Variable World : Type.

(** A computation that reads and changes the world and either returns or
    raises. *)
Definition M (A : Type) : Type := World -> (exn + A) * World.

Definition ret {A : Type} (a : A) : M A := fun w => (inr a, w).

Definition raise {A : Type} (e : exn) : M A := fun w => (inl e, w).

Definition bind {A B : Type} (m : M A) (k : A -> M B) : M B :=
  fun w =>
    match m w with
    | (inr a, w') => k a w'
    | (inl e, w') => (inl e, w')
    end.

(** [try: m except Exception as e: handler(e)]. *)
Definition try_except {A : Type} (m : M A) (handler : exn -> M A) : M A :=
  fun w =>
    match m w with
    | (inr a, w') => (inr a, w')
    | (inl e, w') => handler e w'
    end.

Notation "x <- m ;; k" := (bind m (fun x => k))
  (at level 100, m at next level, right associativity).

(** A tool ([BaseTool]).  [input_schema] builds the input model from the
    keyword arguments or raises a validation error; [_run] is the
    subclass's logic, its output given as [model_dump()] shows it. *)
Record BaseTool : Type := {
  name : string;
  description : string;
  input_schema : dict -> exn + json;
  _run : json -> M json
}.

(** [BaseTool.run]: a dict is turned into the input model first, any
    other value is handed to [_run] as it is. *)
Definition run (tool : BaseTool) (input_data : json) : M json :=
  match input_data with
  | JObj fields =>
      match input_schema tool fields with
      | inr input_obj => _run tool input_obj
      | inl e => raise e
      end
  | _ => _run tool input_data
  end.

Variable SearchTool ZhihuHotTool : BaseTool.

(** [llm.invoke(messages).content]. *)
Variable llm_invoke : list message -> M string.

(** The registry [TOOLS]. *)
Definition TOOLS : gmap string BaseTool :=
  {[ "search" := SearchTool; "zhihu_hot" := ZhihuHotTool ]}.

(** [TOOLS.get(tool_name)], for the value [call.get("name")] gives: a
    list or a dict cannot be hashed, any other value that is not a
    registered string is not found. *)
Definition TOOLS_get (tool_name : option json) : exn + option (string * BaseTool) :=
  match tool_name with
  | Some (JStr s) =>
      match TOOLS !! s with
      | Some tool => inr (Some (s, tool))
      | None => inr None
      end
  | Some (JArr _) => inl (Exception "unhashable type: 'list'")
  | Some (JObj _) => inl (Exception "unhashable type: 'dict'")
  | _ => inr None
  end.

(** The body of the loop of [_process_tool_calls], for one call. *)
Definition process_call (tool_results : list tool_result) (call : dict)
  : M (list tool_result) :=
  let tool_name := Dict.get "name" call in
  let tool_input := default (JObj []) (Dict.get "input" call) in
  match TOOLS_get tool_name with
  | inl e => raise e
  | inr (Some (tool_name, tool)) =>
      try_except
        (result <- run tool tool_input ;;
         ret (tool_results ++ [ToolOutput tool_name result])%list)
        (fun e => ret (tool_results ++ [ToolError tool_name (str_of e)])%list)
  | inr None => ret tool_results
  end.

(** [for call in tool_calls: ...], the list [tool_results] growing. *)
Fixpoint process_calls (tool_results : list tool_result) (tool_calls : list dict)
  : M (list tool_result) :=
  match tool_calls with
  | [] => ret tool_results
  | call :: rest =>
      tool_results' <- process_call tool_results call ;;
      process_calls tool_results' rest
  end.

(** [_process_tool_calls]: the dict it returns is
    [{"tool_results": tool_results, **state}]. *)
Definition _process_tool_calls (state : AgentState.t) : M AgentState.t :=
  let tool_calls := default [] (AgentState.tool_calls state) in
  tool_results <- process_calls [] tool_calls ;;
  ret (AgentState.update
         (AgentState.mk None None None None (Some tool_results))
         state).

(** [_should_use_tools]. *)
Definition _should_use_tools (state : AgentState.t) : string :=
  match default [] (AgentState.tool_calls state) with
  | _ :: _ => "use_tools"
  | [] => "finish"
  end.

(** The messages built from the chat history. *)
Fixpoint history_messages (chat_history : list (list (string * string))) : list message :=
  match chat_history with
  | [] => []
  | msg :: rest =>
      let role := Dict.get "role" msg in
      let content := default EmptyString (Dict.get "content" msg) in
      match role with
      | Some r =>
          if String.eqb r "user" then HumanMessage content :: history_messages rest
          else if String.eqb r "assistant" then AIMessage content :: history_messages rest
          else history_messages rest
      | None => history_messages rest
      end
  end.

(** The lines of the prompt that show the tool results. *)
Definition render_result (result : tool_result) : string :=
  match result with
  | ToolError tool_name error =>
      tool_name +:+ " 执行失败: " +:+ error +:+ newline
  | ToolOutput tool_name result_data =>
      tool_name +:+ " 执行结果: " +:+ Json.dumps result_data +:+ newline
  end.

Definition current_prompt (question : string) (tool_results : list tool_result) : string :=
  "用户问题: " +:+ question +:+ newline +:+
  match tool_results with
  | [] => EmptyString
  | _ :: _ => "工具执行结果:" +:+ newline +:+ String.concat EmptyString (List.map render_result tool_results)
  end.

(** The messages [_generate_response] builds: the chat history, then the
    question with the tool results of the state. *)
Definition prompt_messages (question : string) (state : AgentState.t) : list message :=
  let chat_history := default [] (AgentState.chat_history state) in
  let tool_results := default [] (AgentState.tool_results state) in
  (history_messages chat_history
     ++ [HumanMessage (current_prompt question tool_results)])%list.

(** [_generate_response].  The system prompt it formats is not put into
    [messages], and the reply of the model is not appended to them: the
    new state holds the messages that were sent and the calls found in
    the reply. *)
Definition _generate_response (state : AgentState.t) : M AgentState.t :=
  match AgentState.question state with
  | None => raise (Exception "'question'")
  | Some question =>
      let messages := prompt_messages question state in
      output <- llm_invoke messages ;;
      let tool_calls := _parse_tool_calls output in
      ret (AgentState.update state
             (AgentState.mk None None (Some messages) (Some tool_calls) None))
  end.

(** *** The graph of [create_agent_executor] *)

Inductive node : Type :=
| generate_response
| process_tool_calls.

Inductive target : Type :=
| Node (n : node)
| END.

(** The map of the conditional edges after [generate_response]. *)
Definition path_map (label : string) : option target :=
  if String.eqb label "use_tools" then Some (Node process_tool_calls)
  else if String.eqb label "finish" then Some END
  else None.

(** The error of the runtime when the steps are used up.  Its text is
    abbreviated: the runtime also names the limit and the key that
    raises it. *)
Definition GraphRecursionError : exn :=
  Exception "Recursion limit reached without hitting a stop condition".

(** A run of the compiled graph from [at_node].  Each step runs one node
    and writes the keys of the dict it returns over the state; after
    [generate_response] the conditional edge picks the next node or the
    end; after [process_tool_calls] the edge leads back.  The runtime
    allows [recursion_limit] steps.  It tests the limit after each step,
    before it looks whether a node is left to run: it raises when the
    steps are used up, also when the last of them reached the end. *)
Fixpoint run_graph (recursion_limit : nat) (at_node : node) (state : AgentState.t)
  : M AgentState.t :=
  match recursion_limit with
  | O => raise GraphRecursionError
  | S k =>
      match at_node with
      | generate_response =>
          out <- _generate_response state ;;
          let state' := AgentState.update state out in
          match path_map (_should_use_tools state') with
          | Some (Node n) => run_graph k n state'
          | Some END =>
              match k with
              | O => raise GraphRecursionError
              | S _ => ret state'
              end
          | None => raise (Exception "unknown branch")
          end
      | process_tool_calls =>
          out <- _process_tool_calls state ;;
          run_graph k generate_response (AgentState.update state out)
      end
  end.

(** [agent_executor.ainvoke(initial_state)]: no configuration is passed,
    so the limit is the default of the runtime. *)
Definition default_recursion_limit : nat := 25.

Definition ainvoke (initial_state : AgentState.t) : M AgentState.t :=
  run_graph default_recursion_limit generate_response initial_state.

(** *** The [/chat] handler *)

Definition fallback_answer : string := "抱歉，我无法处理您的请求。".

(** The final answer cut out of the content of a message: what follows
    the last answer marker, stripped, when the marker is there. *)
Definition final_answer (output : string) : string :=
  if PyStr.contains "回答：" output then
    let answer_parts := PyStr.split "回答：" output in
    if Nat.ltb 1 (List.length answer_parts)
    then PyStr.strip (List.last answer_parts EmptyString)
    else output
  else output.

(** The [output] that [chat] reads off the final state: [None] when
    there is no message or the last one has no content. *)
Definition extract_output (result : AgentState.t) : option string :=
  let messages := default [] (AgentState.messages result) in
  match List.last (List.map Some messages) None with
  | Some last_message => option_map final_answer (content last_message)
  | None => None
  end.

(** [output or fallback]. *)
Definition or_fallback (output : option string) : string :=
  match output with
  | Some (String c rest) => String c rest
  | Some EmptyString => fallback_answer
  | None => fallback_answer
  end.

(** The response built from the final state. *)
Definition respond (result : AgentState.t) : AgentResponse.t :=
  AgentResponse.mk
    (or_fallback (extract_output result))
    (default [] (AgentState.tool_calls result))
    (default [] (AgentState.tool_results result)).

(** [chat]: any exception of the run becomes an HTTP 500. *)
Definition chat (request : QuestionRequest.t) : World -> http_result * World :=
  fun w =>
    match ainvoke (initial_state request) w with
    | (inr result, w') => (Response (respond result), w')
    | (inl e, w') => (HTTPException 500 ("处理请求时出错: " +:+ str_of e), w')
    end.

End Agent.

Arguments ret {World A} a _.
Arguments raise {World A} e _.
Arguments bind {World A B} m k _.
Arguments try_except {World A} m handler _.
Arguments name {World} _.
Arguments description {World} _.
Arguments input_schema {World} _ _.
Arguments _run {World} _ _ _.
Arguments run {World} tool input_data _.
Arguments TOOLS {World} SearchTool ZhihuHotTool.
Arguments TOOLS_get {World} SearchTool ZhihuHotTool tool_name.
Arguments process_call {World} SearchTool ZhihuHotTool tool_results call _.
Arguments process_calls {World} SearchTool ZhihuHotTool tool_results tool_calls _.
Arguments _process_tool_calls {World} SearchTool ZhihuHotTool state _.
Arguments _generate_response {World} llm_invoke state _.
Arguments run_graph {World} SearchTool ZhihuHotTool llm_invoke recursion_limit at_node state _.
Arguments ainvoke {World} SearchTool ZhihuHotTool llm_invoke initial_state _.
Arguments chat {World} SearchTool ZhihuHotTool llm_invoke request _.

(** ** Views used by the statements *)

(** The name of a call when it is a string. *)
Definition call_name (call : dict) : option string :=
  match Dict.get "name" call with
  | Some (JStr s) => Some s
  | _ => None
  end.

(** A call whose name can be looked up in a dict: any value but a list
    or a dict. *)
Definition hashable_name (call : dict) : bool :=
  match Dict.get "name" call with
  | Some (JArr _) => false
  | Some (JObj _) => false
  | _ => true
  end.

(** The keys of the registry. *)
Definition registered (s : string) : bool :=
  String.eqb s "search" || String.eqb s "zhihu_hot".

(** The name of a call that names a registered tool. *)
Definition registered_name (call : dict) : option string :=
  match call_name call with
  | Some s => if registered s then Some s else None
  | None => None
  end.

(** The candidates [_parse_tool_calls] hands to the decoder. *)
Definition json_patterns (output : string) : list string :=
  re_findall
    (List.hd EmptyString
       (PyStr.split "行动后思考"
          (List.nth 1 (PyStr.split "工具调用" output) EmptyString))).

(** A text without an opening brace. *)
Fixpoint no_open (s : string) : bool :=
  match s with
  | EmptyString => true
  | String c rest => negb (Ascii.eqb c "{") && no_open rest
  end.

(** [tl] is what is left of [s] after some of its first characters. *)
Inductive suffix : string -> string -> Prop :=
| suffix_refl s : suffix s s
| suffix_skip c tl s : suffix tl s -> suffix tl (String c s).

Definition is_object (v : json) : bool :=
  match v with
  | JObj _ => true
  | _ => false
  end.

(** No answer text can be recovered from a final state: it has no
    message, or the last one has no content or an empty one. *)
Definition no_answer_text (result : AgentState.t) : Prop :=
  match List.last (List.map Some (default [] (AgentState.messages result))) None with
  | None => True
  | Some last_message =>
      content last_message = None \/ content last_message = Some EmptyString
  end.

(** A run that raises. *)
Definition raises {World A : Type} (r : (exn + A) * World) : Prop :=
  match fst r with
  | inl _ => True
  | inr _ => False
  end.

(** What holds of the state in which a run ends. *)
Definition run_ends_in (state final : AgentState.t) : Prop :=
  default [] (AgentState.tool_calls final) = []
  /\ AgentState.question final = AgentState.question state
  /\ AgentState.chat_history final = AgentState.chat_history state
  /\ (forall rs, AgentState.tool_results state = Some rs ->
                 AgentState.tool_results final = Some rs)
  /\ exists question,
       AgentState.question final = Some question /\
       AgentState.messages final = Some (prompt_messages question final).

(** The section of a reply that [_parse_tool_calls] scans: what stands
    between the first start marker and the next start or end marker. *)
Definition tool_part (output : string) : string :=
  List.hd EmptyString
    (PyStr.split "行动后思考" (List.nth 1 (PyStr.split "工具调用" output) EmptyString)).


(** The calls found in a text: the loop of [_parse_tool_calls] over the
    candidates of that text. *)
Definition calls_in (text : string) : list dict :=
  keep_calls [] (re_findall text).

(** The dispatcher as the specification words it: every call gives one
    result, in order; a call that returns gives its output, a call that
    raises gives the failure with the text of the exception, and the
    calls after it are dispatched in the world it left. *)
Inductive dispatched {World : Type} (tools : gmap string (BaseTool World))
  : World -> list dict -> list tool_result -> World -> Prop :=
| dispatched_nil w :
    dispatched tools w [] [] w
| dispatched_output w w1 w2 call s tool result rest rs :
    call_name call = Some s ->
    tools !! s = Some tool ->
    run tool (default (JObj []) (Dict.get "input" call)) w = (inr result, w1) ->
    dispatched tools w1 rest rs w2 ->
    dispatched tools w (call :: rest) (ToolOutput s result :: rs) w2
| dispatched_error w w1 w2 call s tool e rest rs :
    call_name call = Some s ->
    tools !! s = Some tool ->
    run tool (default (JObj []) (Dict.get "input" call)) w = (inl e, w1) ->
    dispatched tools w1 rest rs w2 ->
    dispatched tools w (call :: rest) (ToolError s (str_of e) :: rs) w2.

(** ** The tools *)

(** *** Decoded JSON as the code of the tools reads it *)

Module Py.

(** [type(v).__name__]. *)
Definition type_name (v : json) : string :=
  match v with
  | JNull => "NoneType"
  | JBool _ => "bool"
  | JInt _ => "int"
  | JFloat _ => "float"
  | JStr _ => "str"
  | JArr _ => "list"
  | JObj _ => "dict"
  end.

(** The [AttributeError] of [v.attribute] on a value that lacks it. *)
Definition no_attribute (v : json) (attribute : string) : exn :=
  Exception ("'" +:+ type_name v +:+ "' object has no attribute '" +:+ attribute +:+ "'").

(** [v.get(key, dflt)]: only a dict has the method. *)
Definition get (v : json) (key : string) (dflt : json) : exn + json :=
  match v with
  | JObj d => inr (default dflt (Dict.get key d))
  | _ => inl (no_attribute v "get")
  end.

(** A byte that continues an encoded character. *)
Definition is_continuation (c : ascii) : bool :=
  (N.leb 128 (N_of_ascii c) && N.ltb (N_of_ascii c) 192)%bool.

Definition flush (cur : string) : list json :=
  match cur with
  | EmptyString => []
  | _ => [JStr cur]
  end.

(** The characters of a text, [cur] being the character under way. *)
Fixpoint chars_from (cur s : string) : list json :=
  match s with
  | EmptyString => flush cur
  | String c rest =>
      if is_continuation c
      then chars_from (cur +:+ String c EmptyString) rest
      else (flush cur ++ chars_from (String c EmptyString) rest)%list
  end.

(** [iter(v)], as a [for] loop or [enumerate] runs over it: the items
    of a list, the keys of a dict, the characters of a text; no other
    value can be iterated. *)
Definition iter (v : json) : exn + list json :=
  match v with
  | JArr items => inr items
  | JObj members => inr (List.map (fun member => JStr (fst member)) members)
  | JStr s => inr (chars_from EmptyString s)
  | _ => inl (Exception ("'" +:+ type_name v +:+ "' object is not iterable"))
  end.

(** [str(v)], as an f-string formats a value.  The text of a float, a
    list or a dict is left to [repr]. *)
Definition str (repr : json -> string) (v : json) : string :=
  match v with
  | JNull => "None"
  | JBool true => "True"
  | JBool false => "False"
  | JInt z => Json.show_Z z
  | JStr s => s
  | _ => repr v
  end.

(** A field declared [str] of a model: the validation takes a text and
    refuses any other decoded value.  The text of the error is
    abbreviated; no handler of the tools reads it. *)
Definition str_field (model : string) (v : json) : exn + string :=
  match v with
  | JStr s => inr s
  | _ => inl (Exception ("1 validation error for " +:+ model))
  end.

(** A field declared [Optional[str]]. *)
Definition optional_str_field (model : string) (v : json) : exn + option string :=
  match v with
  | JNull => inr None
  | JStr s => inr (Some s)
  | _ => inl (Exception ("1 validation error for " +:+ model))
  end.

(** Sequencing of steps that return or raise. *)
Definition and_then {A B : Type} (r : exn + A) (k : A -> exn + B) : exn + B :=
  match r with
  | inr a => k a
  | inl e => inl e
  end.

End Py.

(** *** The search tool ([app/tools/search.py]) *)

Module Search.

Record SearchInput : Type := {
  query : string;
  num_results : Z
}.

Record SearchResultItem : Type := {
  title : string;
  link : string;
  snippet : string
}.

(** [SearchOutput], by its field [results]. *)
Abbreviation SearchOutput := (list SearchResultItem).

(** The element [select_one('h2 > a')] finds: its text and its [href]
    attribute, if it has one. *)
Record anchor : Type := {
  text : string;
  href : option string
}.

(** One element of [soup.select('.b_algo')], by what the two
    [select_one] calls of the loop find in it: the link of the title and
    the text of the snippet paragraph, each [None] when missing. *)
Record result_block : Type := {
  title_elem : option anchor;
  snippet_elem : option string
}.

(** The response to the request: its status and the result blocks its
    text holds once parsed. *)
Record response : Type := {
  status_code : Z;
  b_algo : list result_block
}.

(** [model_dump()] of the output. *)
Definition item_dump (item : SearchResultItem) : json :=
  JObj [("title", JStr (title item)); ("link", JStr (link item));
        ("snippet", JStr (snippet item))].

Definition model_dump (output : SearchOutput) : json :=
  JObj [("results", JArr (List.map item_dump output))].

(** An input model among the values a tool is run on, and back. *)
Definition input_model (input_data : SearchInput) : json :=
  JObj [("query", JStr (query input_data));
        ("num_results", JInt (num_results input_data))].

Definition as_input (v : json) : option SearchInput :=
  match v with
  | JObj fields =>
      match Dict.get "query" fields, Dict.get "num_results" fields with
      | Some (JStr q), Some (JInt n) => Some {| query := q; num_results := n |}
      | _, _ => None
      end
  | _ => None
  end.

(** The body of the loop after the test of the index: an element with
    both parts gives an item, any other gives none. *)
Definition item_of (result : result_block) : option SearchResultItem :=
  match title_elem result, snippet_elem result with
  | Some a, Some p =>
      Some {| title := text a; link := default EmptyString (href a); snippet := p |}
  | _, _ => None
  end.

(** [for i, result in enumerate(search_results): ...], from index [i]
    on, the list [results] growing. *)
Fixpoint collect (num_results i : Z) (search_results : list result_block)
    (results : list SearchResultItem) : list SearchResultItem :=
  match search_results with
  | [] => results
  | result :: rest =>
      if (i >=? num_results)%Z then results
      else
        match item_of result with
        | Some item => collect num_results (i + 1) rest (results ++ [item])%list
        | None => collect num_results (i + 1) rest results
        end
  end.

Section Tool.

Variable World : Type.

(** [client.get("https://www.bing.com/search", params={"q": q}, ...)]. *)
Variable client_get : string -> M World response.

(** [SearchTool._run], for an input model. *)
Definition _run (input_data : SearchInput) : M World SearchOutput :=
  bind (client_get (query input_data)) (fun response =>
  ret (if (status_code response =? 200)%Z
       then collect (num_results input_data) 0 (b_algo response) []
       else [])).

(** The validation of the input model [SearchInput], given the fields. *)
Variable validate : dict -> exn + SearchInput.

(** The tool as the registry holds it.  A value that is no input model
    reaches the logic when [run] was given no dict; the logic reads
    [input_data.query] while it builds the request, so it raises before
    anything is sent. *)
Definition tool : BaseTool World :=
  Build_BaseTool World
    "search"
    "使用搜索引擎查找问题的答案"
    (fun fields =>
       match validate fields with
       | inr input_data => inr (input_model input_data)
       | inl e => inl e
       end)
    (fun input_obj =>
       match as_input input_obj with
       | Some input_data => bind (_run input_data) (fun output => ret (model_dump output))
       | None => raise (Py.no_attribute input_obj "query")
       end).

End Tool.

Arguments _run {World} client_get input_data _.
Arguments tool {World} client_get validate.

End Search.

(** *** The hot-list tool ([app/tools/zhihu.py]) *)

Module Zhihu.

Record ZhihuHotInput : Type := {
  limit : Z
}.

Record ZhihuHotItem : Type := {
  title : string;
  url : string;
  hot_value : option string
}.

(** [ZhihuHotOutput], by its field [items]. *)
Abbreviation ZhihuHotOutput := (list ZhihuHotItem).

(** [model_dump()] of the output. *)
Definition item_dump (item : ZhihuHotItem) : json :=
  JObj [("title", JStr (title item)); ("url", JStr (url item));
        ("hot_value", match hot_value item with
                      | Some heat => JStr heat
                      | None => JNull
                      end)].

Definition model_dump (output : ZhihuHotOutput) : json :=
  JObj [("items", JArr (List.map item_dump output))].

(** An input model among the values a tool is run on, and back. *)
Definition input_model (input_data : ZhihuHotInput) : json :=
  JObj [("limit", JInt (limit input_data))].

Definition as_input (v : json) : option ZhihuHotInput :=
  match v with
  | JObj fields =>
      match Dict.get "limit" fields with
      | Some (JInt n) => Some {| limit := n |}
      | _ => None
      end
  | _ => None
  end.

(** [ZhihuHotItem(title=..., url=..., hot_value=...)]: the model is
    built when the fields validate. *)
Definition ZhihuHotItem_new (title url hot_value : json) : exn + ZhihuHotItem :=
  Py.and_then (Py.str_field "ZhihuHotItem" title) (fun title =>
  Py.and_then (Py.str_field "ZhihuHotItem" url) (fun url =>
  Py.and_then (Py.optional_str_field "ZhihuHotItem" hot_value) (fun hot_value =>
  inr {| title := title; url := url; hot_value := hot_value |}))).

(** The response to a request: its status, and what [response.json()]
    gives, a decoded value or an exception. *)
Record response : Type := {
  status_code : Z;
  json_ : exn + json
}.

Definition primary_url : string :=
  "https://www.zhihu.com/api/v3/feed/topstory/hot-lists/total".
Definition tophub_url : string :=
  "https://api.tophub.fun/v2/GetAllInfoGzip?id=1&page=0".
Definition tenapi_url : string := "https://tenapi.cn/zhihuresou/".

(** The item appended when the last source raises. *)
Definition error_item : ZhihuHotItem := {|
  title := "无法获取知乎热榜，可能是API限制或网络问题";
  url := "https://www.zhihu.com/hot";
  hot_value := None
|}.

(** [for i, item in enumerate(hot_items): if i >= limit: break ...],
    from index [i] on.  The list [items] is the one the loop appends to;
    it is given back as the loop leaves it, with the exception when the
    building of an item raised. *)
Fixpoint collect (build : json -> exn + ZhihuHotItem) (limit i : Z)
    (hot_items : list json) (items : list ZhihuHotItem)
  : list ZhihuHotItem * option exn :=
  match hot_items with
  | [] => (items, None)
  | item :: rest =>
      if (i >=? limit)%Z then (items, None)
      else
        match build item with
        | inr new_item => collect build limit (i + 1) rest (items ++ [new_item])%list
        | inl e => (items, Some e)
        end
  end.

(** The statements under [if response.status_code == 200:], from the
    evaluation of [hot_items] to the end of the loop. *)
Definition fill (hot_items : exn + json) (build : json -> exn + ZhihuHotItem)
    (limit : Z) (items : list ZhihuHotItem) : list ZhihuHotItem * option exn :=
  match Py.and_then hot_items Py.iter with
  | inr entries => collect build limit 0 entries items
  | inl e => (items, Some e)
  end.

Section Tool.

Variable World : Type.

(** [client.get(url, ...)], for the three addresses. *)
Variable client_get : string -> M World response.

(** The text Python gives for a float, a list or a dict. *)
Variable repr : json -> string.

(** The first source: [data.get("data", [])] and the body of its loop. *)
Definition primary_hot_items (response : response) : exn + json :=
  Py.and_then (json_ response) (fun data => Py.get data "data" (JArr [])).

Definition primary_item (item : json) : exn + ZhihuHotItem :=
  Py.and_then (Py.get item "target" (JObj [])) (fun target =>
  Py.and_then (Py.get target "title" (JStr EmptyString)) (fun title =>
  Py.and_then (Py.get target "id" JNull) (fun id =>
  let url := "https://www.zhihu.com/question/" +:+ Py.str repr id in
  Py.and_then (Py.get item "detail_text" (JStr EmptyString)) (fun metrics =>
  ZhihuHotItem_new title (JStr url) metrics)))).

(** The second source: [data.get("Data", {}).get("data", [])]. *)
Definition tophub_hot_items (response : response) : exn + json :=
  Py.and_then (json_ response) (fun data =>
  Py.and_then (Py.get data "Data" (JObj [])) (fun inner =>
  Py.get inner "data" (JArr []))).

Definition tophub_item (item : json) : exn + ZhihuHotItem :=
  Py.and_then (Py.get item "Title" (JStr EmptyString)) (fun title =>
  Py.and_then (Py.get item "Url" (JStr EmptyString)) (fun url =>
  Py.and_then (Py.get item "hotValue" (JStr EmptyString)) (fun hot_value =>
  ZhihuHotItem_new title url hot_value))).

(** The third source: [data.get("list", [])]. *)
Definition tenapi_hot_items (response : response) : exn + json :=
  Py.and_then (json_ response) (fun data => Py.get data "list" (JArr [])).

Definition tenapi_item (item : json) : exn + ZhihuHotItem :=
  Py.and_then (Py.get item "name" (JStr EmptyString)) (fun title =>
  Py.and_then (Py.get item "url" (JStr EmptyString)) (fun url =>
  ZhihuHotItem_new title url JNull)).

(** The first [try] of [_fallback_method], entered with the list
    [items]: the list as the block leaves it, and whether the block
    reached [return items].  Its handler is [pass], so what was
    appended before an exception stays in the list. *)
Definition tophub_try (limit : Z) (items : list ZhihuHotItem)
  : World -> (list ZhihuHotItem * bool) * World :=
  fun w =>
    match client_get tophub_url w with
    | (inr response, w') =>
        if (status_code response =? 200)%Z then
          match fill (tophub_hot_items response) tophub_item limit items with
          | (items', None) => ((items', true), w')
          | (items', Some _) => ((items', false), w')
          end
        else ((items, false), w')
    | (inl _, w') => ((items, false), w')
    end.

(** The second [try] of [_fallback_method], on the same list: its
    handler appends the error item. *)
Definition tenapi_try (limit : Z) (items : list ZhihuHotItem)
  : World -> list ZhihuHotItem * World :=
  fun w =>
    match client_get tenapi_url w with
    | (inr response, w') =>
        if (status_code response =? 200)%Z then
          match fill (tenapi_hot_items response) tenapi_item limit items with
          | (items', None) => (items', w')
          | (items', Some _) => ((items' ++ [error_item])%list, w')
          end
        else (items, w')
    | (inl _, w') => ((items ++ [error_item])%list, w')
    end.

(** [_fallback_method]. *)
Definition _fallback_method (limit : Z) : M World (list ZhihuHotItem) :=
  fun w =>
    match tophub_try limit [] w with
    | ((items, true), w') => (inr items, w')
    | ((items, false), w') =>
        let '(items', w'') := tenapi_try limit items w' in
        (inr items', w'')
    end.

(** [ZhihuHotTool._run], for an input model.  The list the first source
    fills is dropped when the fallback is taken: [items] is assigned the
    list the fallback returns. *)
Definition _run (input_data : ZhihuHotInput) : M World ZhihuHotOutput :=
  fun w =>
    match client_get primary_url w with
    | (inr response, w') =>
        if (status_code response =? 200)%Z then
          match fill (primary_hot_items response) primary_item (limit input_data) [] with
          | (items, None) => (inr items, w')
          | (_, Some _) => _fallback_method (limit input_data) w'
          end
        else _fallback_method (limit input_data) w'
    | (inl _, w') => _fallback_method (limit input_data) w'
    end.

(** [_run] on a value that is no input model, which reaches the logic
    when [run] was given no dict.  The first request is sent as for a
    model.  The value is asked for its [limit] at the first entry of the
    loop and in the call of the fallback; that call stands in the
    handler and after the [else], so its exception leaves the tool.
    Only an answer with status 200 and nothing to iterate over lets the
    tool return. *)
Definition _run_raw (input_data : json) : M World ZhihuHotOutput :=
  fun w =>
    match client_get primary_url w with
    | (inr response, w') =>
        if (status_code response =? 200)%Z then
          match Py.and_then (primary_hot_items response) Py.iter with
          | inr [] => (inr [], w')
          | inr (_ :: _) => (inl (Py.no_attribute input_data "limit"), w')
          | inl _ => (inl (Py.no_attribute input_data "limit"), w')
          end
        else (inl (Py.no_attribute input_data "limit"), w')
    | (inl _, w') => (inl (Py.no_attribute input_data "limit"), w')
    end.

(** The validation of the input model [ZhihuHotInput], given the fields. *)
Variable validate : dict -> exn + ZhihuHotInput.

(** The tool as the registry holds it. *)
Definition tool : BaseTool World :=
  Build_BaseTool World
    "zhihu_hot"
    "获取知乎当前热榜信息"
    (fun fields =>
       match validate fields with
       | inr input_data => inr (input_model input_data)
       | inl e => inl e
       end)
    (fun input_obj =>
       bind (match as_input input_obj with
             | Some input_data => _run input_data
             | None => _run_raw input_obj
             end)
            (fun output => ret (model_dump output))).

End Tool.

Arguments tophub_try {World} client_get limit items _.
Arguments tenapi_try {World} client_get limit items _.
Arguments _fallback_method {World} client_get limit _.
Arguments _run {World} client_get repr input_data _.
Arguments _run_raw {World} client_get input_data _.
Arguments tool {World} client_get repr validate.

End Zhihu.

(** ** A scripted environment *)

(** Stand-ins for the model service and for the sites, to run the agent
    on concrete requests. *)
Module Script.

Definition dq : string := String "034" EmptyString.

(** The text of a JSON string. *)
Definition quoted (s : string) : string := dq +:+ s +:+ dq.

(** The world is the list of replies the model has yet to give. *)
Definition World : Type := list string.

Definition llm_invoke : list message -> M World string :=
  fun _ w =>
    match w with
    | reply :: later => (inr reply, later)
    | [] => (inl (Exception "Connection error."), [])
    end.

(** A model that gives the same reply at every call. *)
Definition constant_llm (reply : string) : list message -> M World string :=
  fun _ w => (inr reply, w).

(** A site that cannot be reached, and a search site that answers
    every query with a page without result. *)
Definition offline {R : Type} : string -> M World R :=
  fun _ w => (inl (Exception "All connection attempts failed"), w).

Definition empty_page : string -> M World Search.response :=
  fun _ w => (inr {| Search.status_code := 200; Search.b_algo := [] |}, w).

(** The validation of the input models, for the fields of the examples:
    a query that is a text, a number that is an integer or left out.
    The text of a validation error is cut to its first line. *)
Definition SearchInput (fields : dict) : exn + Search.SearchInput :=
  match Dict.get "query" fields, Dict.get "num_results" fields with
  | Some (JStr q), None => inr {| Search.query := q; Search.num_results := 5 |}
  | Some (JStr q), Some (JInt n) => inr {| Search.query := q; Search.num_results := n |}
  | Some (JStr _), Some _ => inl (Exception "1 validation error for SearchInput")
  | _, None => inl (Exception "1 validation error for SearchInput")
  | _, Some (JInt _) => inl (Exception "1 validation error for SearchInput")
  | _, Some _ => inl (Exception "2 validation errors for SearchInput")
  end.

Definition ZhihuHotInput (fields : dict) : exn + Zhihu.ZhihuHotInput :=
  match Dict.get "limit" fields with
  | None => inr {| Zhihu.limit := 10 |}
  | Some (JInt n) => inr {| Zhihu.limit := n |}
  | Some _ => inl (Exception "1 validation error for ZhihuHotInput")
  end.

(** No float, list or dict is formatted in the examples. *)
Definition repr : json -> string := fun _ => EmptyString.

(** The search tool against the site without result, and against a site
    that cannot be reached. *)
Definition SearchTool : BaseTool World := Search.tool empty_page SearchInput.

Definition OfflineSearchTool : BaseTool World := Search.tool offline SearchInput.

(** The hot-list tool with none of its sites in reach. *)
Definition ZhihuHotTool : BaseTool World := Zhihu.tool offline repr ZhihuHotInput.

(** The reply of the scenario of the specification: a call of [search]
    whose input is the object with the key [query]. *)
Definition search_reply : string :=
  "工具调用 {" +:+ quoted "name" +:+ ":" +:+ quoted "search" +:+ ","
  +:+ quoted "input" +:+ ":{" +:+ quoted "query" +:+ ":" +:+ quoted "x" +:+ "}} 行动后思考".

(** Replies whose objects have no object inside: a call with a text as
    input, a call of the other tool, a call of a tool that is not
    registered, an object with a name and no input. *)
Definition flat_call (tool_name input_text : string) : string :=
  "{" +:+ quoted "name" +:+ ":" +:+ quoted tool_name +:+ ","
  +:+ quoted "input" +:+ ":" +:+ input_text +:+ "}".

Definition flat_reply (tool_name input_text : string) : string :=
  "工具调用 " +:+ flat_call tool_name input_text +:+ " 行动后思考".

Definition name_only_reply : string :=
  "工具调用 {" +:+ quoted "name" +:+ ":" +:+ quoted "search" +:+ "} 行动后思考".

(** An integer of 4301 digits. *)
Definition long_integer : string :=
  string_of_list_ascii (List.repeat "1"%char 4301).

(** Calls as the extractor returns them. *)
Definition search_call : dict := [("name", JStr "search"); ("input", JStr "x")].
Definition zhihu_call : dict := [("name", JStr "zhihu_hot"); ("input", JInt 1)].
Definition calculator_call : dict := [("name", JStr "calculator"); ("input", JStr "1+1")].

Definition weather_request : QuestionRequest.t :=
  QuestionRequest.mk "weather today" [].

(** A model that requests [search], then [zhihu_hot], then answers. *)
Definition two_requests : World :=
  [flat_reply "search" (quoted "x"); flat_reply "zhihu_hot" "1"; "回答：done"].

(** What the calls above give: their inputs are no input models. *)
Definition search_failure : tool_result :=
  ToolError "search" "'str' object has no attribute 'query'".

Definition zhihu_failure : tool_result :=
  ToolError "zhihu_hot" "'int' object has no attribute 'limit'".

(** The state in which the dispatcher is entered for the second time on
    [two_requests]. *)
Definition second_dispatch_state : AgentState.t :=
  AgentState.mk (Some "weather today") (Some [])
    (Some [HumanMessage (current_prompt "weather today" [search_failure])])
    (Some [zhihu_call]) (Some [search_failure]).

End Script.

(** Stand-ins for the sites of the tools, answering in turn. *)
Module Sites.

(** A search site that serves one page to every query. *)
Definition serve (page : Search.response) : string -> M unit Search.response :=
  fun _ w => (inr page, w).

Definition block (title : string) (href : option string) (snippet : string)
  : Search.result_block :=
  {| Search.title_elem := Some {| Search.text := title; Search.href := href |};
     Search.snippet_elem := Some snippet |}.

Definition no_snippet (title : string) : Search.result_block :=
  {| Search.title_elem := Some {| Search.text := title; Search.href := None |};
     Search.snippet_elem := None |}.

(** A page of three blocks, the second without snippet. *)
Definition three_blocks : Search.response :=
  {| Search.status_code := 200;
     Search.b_algo :=
       [block "a" (Some "https://a.example") "first";
        no_snippet "b";
        block "c" None "third"] |}.

(** The world of the hot-list tool: what the requests yet to come are
    answered with, in the order the tool sends them. *)
Definition World : Type := list (exn + Zhihu.response).

Definition unreachable : exn := Exception "All connection attempts failed".

Definition client_get : string -> M World Zhihu.response :=
  fun _ w =>
    match w with
    | answer :: later => (answer, later)
    | [] => (inl unreachable, [])
    end.

Definition repr : json -> string := Script.repr.

Definition ok (data : json) : exn + Zhihu.response :=
  inr {| Zhihu.status_code := 200; Zhihu.json_ := inr data |}.

Definition refused : exn + Zhihu.response :=
  inr {| Zhihu.status_code := 403; Zhihu.json_ := inl (Exception "Expecting value") |}.

Definition question (id : Z) (title heat : string) : json :=
  JObj [("target", JObj [("id", JInt id); ("title", JStr title)]);
        ("detail_text", JStr heat)].

(** The first site: two questions, then an entry that is not an
    object. *)
Definition primary_data : json :=
  JObj [("data", JArr [question 1 "q1" "10"; question 2 "q2" "9"; JInt 7])].

(** The second site: one entry, then one whose title is a number. *)
Definition tophub_data : json :=
  JObj [("Data", JObj [("data",
    JArr [JObj [("Title", JStr "t1"); ("Url", JStr "u1"); ("hotValue", JStr "5")];
          JObj [("Title", JInt 2); ("Url", JStr "u2")]])])].

(** The third site: two entries. *)
Definition tenapi_data : json :=
  JObj [("list", JArr [JObj [("name", JStr "n1"); ("url", JStr "v1")];
                       JObj [("name", JStr "n2"); ("url", JStr "v2")]])].

End Sites.

(** The first source of the hot-list tool fails, leaving the world [w1]:
    the request raises, or is answered with another status than 200, or
    the reading of the answer raises. *)
Definition primary_fails {World : Type} (client_get : string -> M World Zhihu.response)
    (repr : json -> string) (limit : Z) (w w1 : World) : Prop :=
  match client_get Zhihu.primary_url w with
  | (inl _, w') => w' = w1
  | (inr response, w') =>
      w' = w1 /\
      ((Zhihu.status_code response =? 200)%Z = false \/
       exists dropped e,
         Zhihu.fill (Zhihu.primary_hot_items response) (Zhihu.primary_item repr) limit []
         = (dropped, Some e))
  end.

(** * Properties *)

(** ** The strings and the regular expression *)

Lemma span_not_brace_no_brace (s run tl : string) :
  span_not_brace s = (run, tl) ->
  forall c, In c (list_ascii_of_string run) -> is_brace c = false.
Proof.
  revert run tl. induction s as [|a s IH]; intros run tl H c Hc.
  - inversion H; subst. destruct Hc.
  - simpl in H. destruct (is_brace a) eqn:Ha.
    + inversion H; subst. destruct Hc.
    + destruct (span_not_brace s) as [run' tl'] eqn:Hs.
      inversion H; subst. simpl in Hc. destruct Hc as [<-|Hc]; [exact Ha|].
      eapply IH; eauto.
Qed.

Lemma span_not_brace_length (s run tl : string) :
  span_not_brace s = (run, tl) -> String.length tl <= String.length s.
Proof.
  revert run tl. induction s as [|a s IH]; intros run tl H.
  - inversion H; subst. simpl. lia.
  - simpl in H. destruct (is_brace a).
    + inversion H; subst. simpl. lia.
    + destruct (span_not_brace s) as [run' tl'] eqn:Hs.
      inversion H; subst. simpl. specialize (IH _ _ eq_refl). lia.
Qed.

(** Every match of the pattern is an opening brace, a run without
    braces, and a closing brace. *)
Lemma match_here_shape (s m rest : string) :
  match_here s = Some (m, rest) ->
  exists body,
    m = "{" +:+ body +:+ "}" /\
    (forall c, In c (list_ascii_of_string body) -> is_brace c = false).
Proof.
  unfold match_here. destruct s as [|c s]; [discriminate|].
  destruct (Ascii.eqb c "{"); [|discriminate].
  destruct (span_not_brace s) as [body tl] eqn:Hs.
  destruct tl as [|d tl]; [discriminate|].
  destruct (Ascii.eqb d "}"); [|discriminate].
  intros H. inversion H; subst. exists body. split; [reflexivity|].
  eapply span_not_brace_no_brace; eauto.
Qed.

Lemma findall_from_shape (fuel : nat) (text m : string) :
  In m (findall_from fuel text) ->
  exists body,
    m = "{" +:+ body +:+ "}" /\
    (forall c, In c (list_ascii_of_string body) -> is_brace c = false).
Proof.
  revert text. induction fuel as [|k IH]; intros text H; [destruct H|].
  simpl in H. destruct text as [|c rest]; [destruct H|].
  destruct (match_here (String c rest)) as [[m' rest']|] eqn:Hm.
  - destruct H as [<-|H]; [eapply match_here_shape; eauto | eapply IH; eauto].
  - eapply IH; eauto.
Qed.

(** No candidate of the extractor has a brace inside: the text of an
    object that holds another object is never a candidate. *)
Lemma re_findall_flat (text m : string) :
  In m (re_findall text) ->
  exists body,
    m = "{" +:+ body +:+ "}" /\
    (forall c, In c (list_ascii_of_string body) -> is_brace c = false).
Proof. apply findall_from_shape. Qed.

(** ** The extractor *)

Lemma parse_tool_calls_unfold (output : string) :
  _parse_tool_calls output =
  if PyStr.contains "工具调用" output then
    if Nat.ltb 1 (List.length (PyStr.split "工具调用" output))
    then keep_calls [] (json_patterns output)
    else []
  else [].
Proof. reflexivity. Qed.

Lemma loads_decode (s : string) (v : json) :
  Json.loads s = Some v <-> Json.decode s = Json.Found v.
Proof.
  unfold Json.loads. destruct (Json.decode s) as [v'|why]; split; intros H;
    inversion H; reflexivity.
Qed.

Lemma keep_calls_In (patterns : list string) (acc : list dict) (call : dict) :
  In call (keep_calls acc patterns) ->
  In call acc \/
  exists pattern,
    In pattern patterns /\ Json.loads pattern = Some (JObj call) /\
    Dict.mem "name" call = true /\ Dict.mem "input" call = true.
Proof.
  revert acc. induction patterns as [|p ps IH]; intros acc H; cbn [keep_calls] in H.
  - left. exact H.
  - assert (Hrest : In call (keep_calls acc ps) ->
                    In call acc \/
                    exists pattern,
                      In pattern (p :: ps) /\ Json.loads pattern = Some (JObj call) /\
                      Dict.mem "name" call = true /\ Dict.mem "input" call = true).
    { intros H'. apply IH in H'. destruct H' as [H'|(p' & Hp' & Hl & Hn & Hi)];
        [left; exact H'|].
      right. exists p'. repeat split; simpl; auto. }
    destruct (Json.decode p) as [[| | | | | |d]|[|]] eqn:Hp; try (apply Hrest; exact H);
      try (left; exact H).
    destruct (Dict.mem "name" d && Dict.mem "input" d) eqn:Hb; [|apply Hrest; exact H].
    apply IH in H. destruct H as [H|(p' & Hp' & Hl & Hn & Hi)].
    + apply in_app_or in H. destruct H as [H|[<-|[]]]; [left; exact H|].
      right. exists p. apply andb_prop in Hb. destruct Hb.
      repeat split; simpl; auto. apply loads_decode. exact Hp.
    + right. exists p'. repeat split; simpl; auto.
Qed.

(** Every call the extractor returns is the dict decoded from one of the
    candidates, as it was decoded, and has both keys. *)
Lemma parse_tool_calls_In (output : string) (call : dict) :
  In call (_parse_tool_calls output) ->
  exists pattern,
    In pattern (json_patterns output) /\ Json.loads pattern = Some (JObj call) /\
    Dict.mem "name" call = true /\ Dict.mem "input" call = true.
Proof.
  rewrite parse_tool_calls_unfold.
  destruct (PyStr.contains "工具调用" output); [|intros []].
  destruct (Nat.ltb 1 _); [|intros []].
  intros H. apply keep_calls_In in H. destruct H as [[]|H]. exact H.
Qed.

Lemma span_not_brace_suffix (s : string) : suffix (snd (span_not_brace s)) s.
Proof.
  induction s as [|c s IH]; simpl; [constructor|].
  destruct (is_brace c); [apply suffix_refl|].
  destruct (span_not_brace s); simpl in *. apply suffix_skip. exact IH.
Qed.

Lemma match_here_shorter (s m rest : string) :
  match_here s = Some (m, rest) -> String.length rest < String.length s.
Proof.
  unfold match_here. destruct s as [|c s]; [discriminate|].
  destruct (Ascii.eqb c "{"); [|discriminate].
  pose proof (span_not_brace_length s) as Hl.
  destruct (span_not_brace s) as [body tl]. specialize (Hl _ _ eq_refl).
  destruct tl as [|d tl]; [discriminate|].
  destruct (Ascii.eqb d "}"); [|discriminate].
  intros H. inversion H; subst. simpl in *. lia.
Qed.

(** The scan never runs out of steps: with any number of steps that is
    at least the length of the text it gives the same matches. *)
Lemma findall_from_enough (n : nat) :
  forall (m : nat) (text : string),
    String.length text <= n -> String.length text <= m ->
    findall_from n text = findall_from m text.
Proof.
  induction n as [|n IH]; intros m text Hn Hm.
  - destruct text; simpl in Hn; [|lia]. destruct m; reflexivity.
  - destruct text as [|c rest]; [destruct m; reflexivity|].
    destruct m as [|m]; [simpl in Hm; lia|].
    cbn [findall_from]. simpl in Hn, Hm.
    destruct (match_here (String c rest)) as [[x rest']|] eqn:Hx.
    + apply match_here_shorter in Hx. simpl in Hx.
      f_equal. apply IH; lia.
    + apply IH; lia.
Qed.

(** ** The decoder *)

Ltac break_match_hyp H :=
  match type of H with
  | context [match ?x with _ => _ end] => destruct x eqn:?
  end.

Ltac invert H := inversion H; subst; clear H.

Lemma suffix_trans (a b c : string) : suffix a b -> suffix b c -> suffix a c.
Proof. intros Hab Hbc. induction Hbc; [exact Hab|]. constructor. auto. Qed.

Lemma suffix_tail (c : ascii) (tl s : string) : suffix (String c tl) s -> suffix tl s.
Proof.
  intros H. eapply suffix_trans; [|exact H]. constructor. constructor.
Qed.

Lemma suffix_length (tl s : string) :
  suffix tl s -> String.length tl <= String.length s.
Proof. induction 1; simpl; lia. Qed.

Lemma suffix_no_open (tl s : string) : suffix tl s -> no_open s = true -> no_open tl = true.
Proof.
  induction 1; intros Hn; [exact Hn|].
  simpl in Hn. apply andb_prop in Hn. destruct Hn. auto.
Qed.

Lemma skip_ws_suffix (s : string) : suffix (Json.skip_ws s) s.
Proof.
  induction s as [|c s IH]; simpl; [constructor|].
  destruct (Json.is_ws c); [constructor; exact IH | constructor].
Qed.

Lemma scanstring_suffix (s : string) :
  forall (skip : nat) (str tl : string),
    Json.scanstring skip s = Some (str, tl) -> suffix tl s.
Proof.
  induction s as [|c rest IH]; intros skip str tl H; [discriminate|].
  cbn [Json.scanstring] in H. destruct skip as [|k].
  - repeat (break_match_hyp H; try discriminate);
      try (invert H; apply suffix_skip; first [apply suffix_refl | eapply IH; eassumption]).
  - constructor. eapply IH; eassumption.
Qed.

Lemma span_digits_suffix (s : string) : suffix (snd (Json.span_digits s)) s.
Proof.
  induction s as [|c s IH]; simpl; [constructor|].
  destruct (Json.is_digit c); [|constructor].
  destruct (Json.span_digits s); simpl in *. constructor. exact IH.
Qed.

Lemma fraction_part_suffix (s : string) : suffix (snd (Json.fraction_part s)) s.
Proof.
  unfold Json.fraction_part. destruct s as [|c rest]; [constructor|].
  destruct (Ascii.eqb c "."); [|constructor].
  pose proof (span_digits_suffix rest) as H.
  destruct (Json.span_digits rest) as [[|d ds] tl]; simpl in *; constructor; exact H.
Qed.

Lemma exponent_part_suffix (s : string) : suffix (snd (Json.exponent_part s)) s.
Proof.
  unfold Json.exponent_part. destruct s as [|c rest]; [constructor|].
  destruct (Ascii.eqb c "e" || Ascii.eqb c "E"); [|constructor].
  destruct rest as [|d rest'].
  - simpl. constructor.
  - destruct (Ascii.eqb d "+" || Ascii.eqb d "-").
    + pose proof (span_digits_suffix rest') as H.
      destruct (Json.span_digits rest') as [[|x ds] tl]; simpl in *;
        [constructor | do 2 constructor; exact H].
    + pose proof (span_digits_suffix (String d rest')) as H.
      destruct (Json.span_digits (String d rest')) as [[|x ds] tl]; simpl in *;
        [constructor | constructor; exact H].
Qed.

Lemma suffix_one (c : ascii) (s : string) : suffix s (String c s).
Proof. apply suffix_skip, suffix_refl. Qed.

Lemma match_number_result (s : string) (v : json) (tl : string) :
  Json.match_number s = Json.Found (v, tl) -> suffix tl s /\ is_object v = false.
Proof.
  unfold Json.match_number.
  set (sign := match s with
               | String c rest => if Ascii.eqb c "-" then (true, rest) else (false, s)
               | EmptyString => (false, s)
               end).
  assert (Hs1 : suffix (snd sign) s).
  { unfold sign. destruct s as [|c0 rest0]; [apply suffix_refl|].
    destruct (Ascii.eqb c0 "-"); simpl; [apply suffix_one | apply suffix_refl]. }
  destruct sign as [neg s1]. simpl in Hs1.
  destruct s1 as [|c rest]; [discriminate|].
  destruct (Json.is_digit c); [|discriminate].
  set (ints := if Ascii.eqb c "0" then (String c EmptyString, rest)
               else Json.span_digits (String c rest)).
  assert (Hafter : suffix (snd ints) (String c rest)).
  { unfold ints. destruct (Ascii.eqb c "0");
      [apply suffix_one | apply span_digits_suffix]. }
  destruct ints as [int_digits after]. simpl in Hafter.
  pose proof (fraction_part_suffix after) as Hf.
  destruct (Json.fraction_part after) as [frac after1]. simpl in Hf.
  pose proof (exponent_part_suffix after1) as He.
  destruct (Json.exponent_part after1) as [exp after2]. simpl in He.
  assert (H1 : suffix after s) by (eapply suffix_trans; eauto).
  assert (H2 : suffix after2 s).
  { eapply suffix_trans; [exact He|]. eapply suffix_trans; eauto. }
  destruct frac, exp; [destruct (Nat.ltb _ _); [discriminate|]|..];
    intros H; invert H; split; auto.
Qed.

Lemma literal_suffix (word s tl : string) : Json.literal word s = Some tl -> suffix tl s.
Proof.
  revert s. induction word as [|a word IH]; intros s H; simpl in H.
  - invert H. constructor.
  - destruct s as [|b s]; [discriminate|].
    destruct (Ascii.eqb a b); [|discriminate]. constructor. auto.
Qed.

Lemma scan_literal_result (s : string) (v : json) (tl : string) :
  Json.scan_literal s = Json.Found (v, tl) -> suffix tl s /\ is_object v = false.
Proof.
  unfold Json.scan_literal. intros H.
  repeat (break_match_hyp H;
          try match goal with
              | E : Json.literal _ _ = Some _ |- _ => apply literal_suffix in E
              end);
    try discriminate; try (invert H; split; [assumption|reflexivity]).
  invert H. eapply match_number_result; eauto.
Qed.

(** What the scanner of a value is relied on for: it leaves a suffix of
    its text, and gives a dict only for a text that starts with an
    opening brace. *)
Definition sound_value (value : string -> Json.scan (json * string)) : Prop :=
  forall (s : string) (v : json) (tl : string),
    value s = Json.Found (v, tl) ->
    suffix tl s /\ (is_object v = true -> exists rest, s = String "{" rest).

Lemma skip_ws_cons_suffix (a b : string) (d : ascii) :
  Json.skip_ws a = String d b -> suffix b a.
Proof.
  intros H. eapply suffix_trans; [apply (suffix_one d)|].
  rewrite <- H. apply skip_ws_suffix.
Qed.

Lemma array_items_suffix (value : string -> Json.scan (json * string)) :
  sound_value value ->
  forall (fuel : nat) (acc : list json) (s : string) (xs : list json) (tl : string),
    Json.array_items fuel value acc s = Json.Found (xs, tl) -> suffix tl s.
Proof.
  intros Hv fuel. induction fuel as [|k IH]; intros acc s xs tl H; [discriminate|].
  cbn [Json.array_items] in H.
  destruct (value s) as [[v after_value]|] eqn:Hval; [|discriminate].
  apply Hv in Hval. destruct Hval as [Hs _].
  destruct (Json.skip_ws after_value) as [|d after_d] eqn:Hws; [discriminate|].
  apply skip_ws_cons_suffix in Hws.
  assert (Hd : suffix after_d s) by (eapply suffix_trans; eauto).
  destruct (Ascii.eqb d "]"); [invert H; exact Hd|].
  destruct (Ascii.eqb d ","); [|discriminate].
  apply IH in H. eapply suffix_trans; [exact H|].
  eapply suffix_trans; [apply skip_ws_suffix | exact Hd].
Qed.

Lemma dict_set_flat (k : string) (v : json) (d : list (string * json)) :
  is_object v = false ->
  Forall (fun kv => is_object (snd kv) = false) d ->
  Forall (fun kv => is_object (snd kv) = false) (Dict.set k v d).
Proof.
  intros Hv Hd. induction Hd as [|[k' v'] rest Hx Hrest IH]; simpl.
  - constructor; [exact Hv|constructor].
  - destruct (String.eqb k k'); constructor; auto.
Qed.

(** The members of an object: what is left is a suffix, and in a text
    without an opening brace no value is a dict. *)
Lemma object_members_result (value : string -> Json.scan (json * string)) :
  sound_value value ->
  forall (fuel : nat) (acc : list (string * json)) (s : string)
         (ms : list (string * json)) (tl : string),
    Json.object_members fuel value acc s = Json.Found (ms, tl) ->
    suffix tl s /\
    (no_open s = true ->
     Forall (fun kv => is_object (snd kv) = false) acc ->
     Forall (fun kv => is_object (snd kv) = false) ms).
Proof.
  intros Hv fuel. induction fuel as [|k IH]; intros acc s ms tl H; [discriminate|].
  cbn [Json.object_members] in H.
  destruct s as [|c rest]; [discriminate|].
  destruct (Ascii.eqb c Json.quote); [|discriminate].
  destruct (Json.scanstring 0 rest) as [[key after_key]|] eqn:Hkey; [|discriminate].
  apply scanstring_suffix in Hkey.
  destruct (Json.skip_ws after_key) as [|colon after_colon] eqn:Hws1; [discriminate|].
  apply skip_ws_cons_suffix in Hws1.
  destruct (Ascii.eqb colon ":"); [|discriminate].
  destruct (value (Json.skip_ws after_colon)) as [[v after_value]|] eqn:Hval; [|discriminate].
  apply Hv in Hval. destruct Hval as [Hs Hobj].
  assert (Hvs : suffix (Json.skip_ws after_colon) (String c rest)).
  { eapply suffix_trans; [apply skip_ws_suffix|].
    eapply suffix_trans; [exact Hws1|].
    eapply suffix_trans; [exact Hkey | apply suffix_one]. }
  destruct (Json.skip_ws after_value) as [|d after_d] eqn:Hws2; [discriminate|].
  apply skip_ws_cons_suffix in Hws2.
  assert (Hd : suffix after_d (String c rest)).
  { eapply suffix_trans; [exact Hws2|]. eapply suffix_trans; eauto. }
  assert (Hflat : no_open (String c rest) = true -> is_object v = false).
  { intros Hn. destruct (is_object v) eqn:Ho; [|reflexivity].
    destruct (Hobj eq_refl) as [r Hr].
    pose proof (suffix_no_open _ _ Hvs Hn) as Hn'. rewrite Hr in Hn'.
    simpl in Hn'. discriminate. }
  destruct (Ascii.eqb d "}").
  - invert H. split; [exact Hd|]. intros Hn Hacc. apply dict_set_flat; auto.
  - destruct (Ascii.eqb d ","); [|discriminate].
    apply IH in H. destruct H as [Htl Hms].
    assert (Hnext : suffix (Json.skip_ws after_d) (String c rest)).
    { eapply suffix_trans; [apply skip_ws_suffix | exact Hd]. }
    split; [eapply suffix_trans; eauto|].
    intros Hn Hacc. apply Hms.
    + eapply suffix_no_open; eauto.
    + apply dict_set_flat; auto.
Qed.

Lemma scan_once_sound (fuel : nat) : sound_value (Json.scan_once fuel).
Proof.
  induction fuel as [|k IH]; intros s v tl H; [discriminate|].
  cbn [Json.scan_once] in H.
  destruct s as [|c rest]; [discriminate|].
  destruct (Ascii.eqb c Json.quote).
  { destruct (Json.scanstring 0 rest) as [[str tl']|] eqn:Hs; [|discriminate].
    invert H. apply scanstring_suffix in Hs.
    split; [apply suffix_skip; exact Hs | discriminate]. }
  destruct (Ascii.eqb_spec c "{") as [->|Hc].
  { split; [|eauto].
    destruct (Json.skip_ws rest) as [|d after_d] eqn:Hws; [discriminate|].
    pose proof (skip_ws_suffix rest) as Hsk. rewrite Hws in Hsk.
    destruct (Ascii.eqb d "}").
    - invert H. apply suffix_skip. eapply suffix_tail; eauto.
    - destruct (Json.object_members _ _ _ _) as [[ms tl']|] eqn:Hm; [|discriminate].
      invert H. apply (object_members_result _ IH) in Hm. destruct Hm as [Hm _].
      apply suffix_skip. eapply suffix_trans; eauto. }
  destruct (Ascii.eqb c "[").
  { split; [|destruct (Json.skip_ws rest) as [|d after_d];
              [discriminate|];
              destruct (Ascii.eqb d "]"); [invert H; discriminate|];
              destruct (Json.array_items _ _ _ _) as [[xs tl']|]; [|discriminate];
              invert H; discriminate].
    destruct (Json.skip_ws rest) as [|d after_d] eqn:Hws; [discriminate|].
    pose proof (skip_ws_suffix rest) as Hsk. rewrite Hws in Hsk.
    destruct (Ascii.eqb d "]").
    - invert H. apply suffix_skip. eapply suffix_tail; eauto.
    - destruct (Json.array_items _ _ _ _) as [[xs tl']|] eqn:Hm; [|discriminate].
      invert H. apply (array_items_suffix _ IH) in Hm.
      apply suffix_skip. eapply suffix_trans; eauto. }
  apply scan_literal_result in H. destruct H as [Hs Ho].
  split; [exact Hs|]. rewrite Ho. discriminate.
Qed.

(** *** The decoder never runs out of steps *)

Lemma skip_ws_cons_shorter (a b : string) (d : ascii) :
  Json.skip_ws a = String d b -> String.length b < String.length a.
Proof.
  intros H. pose proof (suffix_length _ _ (skip_ws_suffix a)) as Hl.
  rewrite H in Hl. simpl in Hl. lia.
Qed.

Lemma array_items_enough (value1 value2 : string -> Json.scan (json * string)) (bound : nat) :
  (forall s, String.length s <= bound -> value1 s = value2 s) ->
  sound_value value1 ->
  forall (n m : nat) (acc : list json) (s : string),
    String.length s <= bound -> String.length s < n -> String.length s < m ->
    Json.array_items n value1 acc s = Json.array_items m value2 acc s.
Proof.
  intros Hagree Hsound n. induction n as [|n IH]; intros m acc s Hb Hn Hm; [lia|].
  destruct m as [|m]; [lia|].
  cbn [Json.array_items]. rewrite <- (Hagree s Hb).
  destruct (value1 s) as [[v after_value]|] eqn:Hval; [|reflexivity].
  apply Hsound in Hval. destruct Hval as [Hs _]. apply suffix_length in Hs.
  destruct (Json.skip_ws after_value) as [|d after_d] eqn:Hws; [reflexivity|].
  apply skip_ws_cons_shorter in Hws.
  pose proof (suffix_length _ _ (skip_ws_suffix after_d)) as H2.
  destruct (Ascii.eqb d "]"); [reflexivity|].
  destruct (Ascii.eqb d ","); [|reflexivity].
  apply IH; lia.
Qed.

Lemma object_members_enough (value1 value2 : string -> Json.scan (json * string)) (bound : nat) :
  (forall s, String.length s <= bound -> value1 s = value2 s) ->
  sound_value value1 ->
  forall (n m : nat) (acc : list (string * json)) (s : string),
    String.length s <= bound -> String.length s < n -> String.length s < m ->
    Json.object_members n value1 acc s = Json.object_members m value2 acc s.
Proof.
  intros Hagree Hsound n. induction n as [|n IH]; intros m acc s Hb Hn Hm; [lia|].
  destruct m as [|m]; [lia|].
  cbn [Json.object_members].
  destruct s as [|c rest]; [reflexivity|]. simpl in Hb, Hn, Hm.
  destruct (Ascii.eqb c Json.quote); [|reflexivity].
  destruct (Json.scanstring 0 rest) as [[key after_key]|] eqn:Hkey; [|reflexivity].
  apply scanstring_suffix, suffix_length in Hkey.
  destruct (Json.skip_ws after_key) as [|colon after_colon] eqn:Hws1; [reflexivity|].
  apply skip_ws_cons_shorter in Hws1.
  destruct (Ascii.eqb colon ":"); [|reflexivity].
  pose proof (suffix_length _ _ (skip_ws_suffix after_colon)) as H1.
  rewrite <- (Hagree (Json.skip_ws after_colon)) by lia.
  destruct (value1 (Json.skip_ws after_colon)) as [[v after_value]|] eqn:Hval; [|reflexivity].
  apply Hsound in Hval. destruct Hval as [Hs _]. apply suffix_length in Hs.
  destruct (Json.skip_ws after_value) as [|d after_d] eqn:Hws2; [reflexivity|].
  apply skip_ws_cons_shorter in Hws2.
  pose proof (suffix_length _ _ (skip_ws_suffix after_d)) as H2.
  destruct (Ascii.eqb d "}"); [reflexivity|].
  destruct (Ascii.eqb d ","); [|reflexivity].
  apply IH; lia.
Qed.

(** With any number of steps above the length of the text, [scan_once]
    gives the same result. *)
Lemma scan_once_enough (n : nat) :
  forall (m : nat) (s : string),
    String.length s < n -> String.length s < m ->
    Json.scan_once n s = Json.scan_once m s.
Proof.
  induction n as [|n IH]; intros m s Hn Hm; [lia|].
  destruct m as [|m]; [lia|].
  cbn [Json.scan_once].
  destruct s as [|c rest]; [reflexivity|]. simpl in Hn, Hm.
  destruct (Ascii.eqb c Json.quote); [reflexivity|].
  pose proof (suffix_length _ _ (skip_ws_suffix rest)) as Hws.
  destruct (Ascii.eqb c "{").
  { destruct (Json.skip_ws rest) as [|d after_d] eqn:Hbody; [reflexivity|].
    destruct (Ascii.eqb d "}"); [reflexivity|].
    assert (Hagree : forall s', String.length s' <= String.length (String d after_d) ->
                              Json.scan_once n s' = Json.scan_once m s')
      by (intros s' Hs'; apply IH; lia).
    rewrite (object_members_enough _ _ _ Hagree (scan_once_sound n) n m []
               (String d after_d)) by lia.
    reflexivity. }
  destruct (Ascii.eqb c "[").
  { destruct (Json.skip_ws rest) as [|d after_d] eqn:Hbody; [reflexivity|].
    destruct (Ascii.eqb d "]"); [reflexivity|].
    assert (Hagree : forall s', String.length s' <= String.length (String d after_d) ->
                              Json.scan_once n s' = Json.scan_once m s')
      by (intros s' Hs'; apply IH; lia).
    rewrite (array_items_enough _ _ _ Hagree (scan_once_sound n) n m []
               (String d after_d)) by lia.
    reflexivity. }
  reflexivity.
Qed.

(** [decode] does not depend on the number of steps it allows. *)
Lemma decode_enough (n : nat) (s : string) :
  String.length s < n ->
  Json.decode s =
  match Json.scan_once n (Json.skip_ws s) with
  | Json.Found (v, tl) =>
      match Json.skip_ws tl with
      | EmptyString => Json.Found v
      | String _ _ => Json.Stop Json.NoJSON
      end
  | Json.Stop why => Json.Stop why
  end.
Proof.
  intros Hn. unfold Json.decode.
  pose proof (suffix_length _ _ (skip_ws_suffix s)) as Hws.
  rewrite (scan_once_enough (S (String.length s)) n (Json.skip_ws s)) by lia.
  reflexivity.
Qed.

(** The text of an object without a brace inside decodes to a dict none
    of whose values is a dict. *)
Lemma loads_flat_object (rest : string) (ms : list (string * json)) :
  no_open rest = true ->
  Json.loads (String "{" rest) = Some (JObj ms) ->
  Forall (fun kv => is_object (snd kv) = false) ms.
Proof.
  intros Hn. rewrite loads_decode. unfold Json.decode.
  change (Json.skip_ws (String "{" rest)) with (String "{" rest).
  cbn [Json.scan_once].
  change (Ascii.eqb "{" Json.quote) with false.
  change (Ascii.eqb "{" "{") with true. cbv iota.
  destruct (Json.skip_ws rest) as [|d after_d] eqn:Hws; [discriminate|].
  destruct (Ascii.eqb d "}").
  - destruct (Json.skip_ws after_d); intros H; invert H. constructor.
  - destruct (Json.object_members _ _ _ _) as [[ms' tl]|] eqn:Hm; [|discriminate].
    destruct (Json.skip_ws tl); intros H; invert H.
    apply (object_members_result _ (scan_once_sound _)) in Hm.
    destruct Hm as [_ Hm]. apply Hm; [|constructor].
    rewrite <- Hws. eapply suffix_no_open; [apply skip_ws_suffix | exact Hn].
Qed.

(** The text of a candidate decodes to a dict or not at all. *)
Lemma loads_brace_object (body : string) (v : json) :
  Json.loads ("{" +:+ body) = Some v -> exists members, v = JObj members.
Proof.
  change ("{" +:+ body) with (String "{" body).
  rewrite loads_decode. unfold Json.decode.
  change (Json.skip_ws (String "{" body)) with (String "{" body).
  cbn [Json.scan_once].
  change (Ascii.eqb "{" Json.quote) with false.
  change (Ascii.eqb "{" "{") with true. cbv iota.
  destruct (Json.skip_ws body) as [|d after_d]; [discriminate|].
  destruct (Ascii.eqb d "}").
  - destruct (Json.skip_ws after_d); intros H; inversion H; eauto.
  - destruct (Json.object_members _ _ _ _) as [[ms tl]|]; [|discriminate].
    destruct (Json.skip_ws tl); intros H; inversion H; eauto.
Qed.

(** Every candidate of the extractor decodes to a dict or not at all. *)
Lemma candidate_decodes_to_dict (text pattern : string) (v : json) :
  In pattern (re_findall text) ->
  Json.loads pattern = Some v ->
  exists members, v = JObj members.
Proof.
  intros Hp Hl. apply re_findall_flat in Hp. destruct Hp as (body & -> & _).
  eapply (loads_brace_object (body +:+ "}")). exact Hl.
Qed.

Lemma no_brace_no_open (body : string) :
  (forall c, In c (list_ascii_of_string body) -> is_brace c = false) ->
  no_open (body +:+ "}") = true.
Proof.
  induction body as [|a body IH]; intros H; [reflexivity|].
  change (String a body +:+ "}") with (String a (body +:+ "}")). simpl.
  rewrite IH by (intros c Hc; apply H; right; exact Hc).
  specialize (H a (or_introl eq_refl)). unfold is_brace in H.
  apply orb_false_elim in H. destruct H as [-> _]. reflexivity.
Qed.

Lemma dict_get_In {V : Type} (k : string) (v : V) (d : list (string * V)) :
  Dict.get k d = Some v -> exists k', In (k', v) d.
Proof.
  induction d as [|[k' v'] rest IH]; simpl; [discriminate|].
  destruct (String.eqb k k').
  - intros H. inversion H; subst. exists k'. left. reflexivity.
  - intros H. destruct (IH H) as [k'' Hin]. exists k''. right. exact Hin.
Qed.

(** No value of a call the extractor returns is a dict: the candidates
    have no brace inside, so the text of a mapping is never part of
    one. *)
Lemma parse_tool_calls_values_flat (output : string) (call : dict) :
  In call (_parse_tool_calls output) ->
  Forall (fun kv => is_object (snd kv) = false) call.
Proof.
  intros H. apply parse_tool_calls_In in H.
  destruct H as (pattern & Hp & Hl & _).
  apply re_findall_flat in Hp. destruct Hp as (body & -> & Hb).
  apply (loads_flat_object (body +:+ "}")); [|exact Hl].
  apply no_brace_no_open. exact Hb.
Qed.

Lemma parse_tool_calls_no_marker (output : string) :
  PyStr.contains "工具调用" output = false -> _parse_tool_calls output = [].
Proof. intros H. rewrite parse_tool_calls_unfold, H. reflexivity. Qed.

(** ** The registry and the dispatcher *)

Ltac unfold_monad := unfold bind, try_except, ret, raise in *.

Section Dispatcher.

Context {World : Type}.
Variable SearchTool ZhihuHotTool : BaseTool World.

Local Abbreviation tools := (TOOLS SearchTool ZhihuHotTool).
Local Abbreviation one_call := (process_call SearchTool ZhihuHotTool).
Local Abbreviation batch := (process_calls SearchTool ZhihuHotTool).

Lemma TOOLS_lookup (s : string) :
  tools !! s =
  if String.eqb s "search" then Some SearchTool
  else if String.eqb s "zhihu_hot" then Some ZhihuHotTool
  else None.
Proof.
  unfold TOOLS.
  destruct (String.eqb_spec s "search") as [->|H1].
  - apply lookup_insert_eq.
  - rewrite lookup_insert_ne by congruence.
    destruct (String.eqb_spec s "zhihu_hot") as [->|H2].
    + apply lookup_singleton_eq.
    + apply lookup_singleton_ne. congruence.
Qed.

Lemma TOOLS_lookup_registered (s : string) :
  registered s = true -> exists tool, tools !! s = Some tool.
Proof.
  unfold registered. rewrite TOOLS_lookup.
  destruct (String.eqb s "search"); [eauto|].
  destruct (String.eqb s "zhihu_hot"); [eauto|discriminate].
Qed.

Lemma TOOLS_lookup_unregistered (s : string) :
  registered s = false -> tools !! s = None.
Proof.
  unfold registered. rewrite TOOLS_lookup.
  destruct (String.eqb s "search"); [discriminate|].
  destruct (String.eqb s "zhihu_hot"); [discriminate|reflexivity].
Qed.

Lemma TOOLS_lookup_Some_registered (s : string) (tool : BaseTool World) :
  tools !! s = Some tool -> registered s = true.
Proof.
  destruct (registered s) eqn:H; [reflexivity|].
  rewrite (TOOLS_lookup_unregistered _ H). discriminate.
Qed.

(** A call whose name is looked up and not found leaves the list and
    the world as they are. *)
Lemma process_call_skip (acc : list tool_result) (call : dict) (w : World) :
  hashable_name call = true ->
  registered_name call = None ->
  one_call acc call w = (inr acc, w).
Proof.
  unfold hashable_name, registered_name, call_name, process_call, TOOLS_get.
  intros Hh Hr.
  destruct (Dict.get "name" call) as [[| | | |s| |]|]; try discriminate; try reflexivity.
  destruct (registered s) eqn:Hs; [discriminate|].
  rewrite (TOOLS_lookup_unregistered _ Hs). reflexivity.
Qed.

Lemma process_call_found (acc : list tool_result) (call : dict) (s : string)
    (tool : BaseTool World) (w : World) :
  call_name call = Some s ->
  tools !! s = Some tool ->
  one_call acc call w =
  match run tool (default (JObj []) (Dict.get "input" call)) w with
  | (inr result, w') => (inr (acc ++ [ToolOutput s result])%list, w')
  | (inl e, w') => (inr (acc ++ [ToolError s (str_of e)])%list, w')
  end.
Proof.
  unfold call_name, process_call, TOOLS_get. intros Hn Ht.
  destruct (Dict.get "name" call) as [[| | | |s'| |]|]; try discriminate.
  inversion Hn; subst s'. rewrite Ht. unfold_monad.
  destruct (run tool _ w) as [[e|r] w']; reflexivity.
Qed.

(** The results of a batch are appended to the list the loop started
    with. *)
Lemma process_calls_acc (calls : list dict) (acc : list tool_result) (w : World) :
  batch acc calls w =
  match batch [] calls w with
  | (inr rs, w') => (inr (acc ++ rs)%list, w')
  | (inl e, w') => (inl e, w')
  end.
Proof.
  revert acc w. induction calls as [|call rest IH]; intros acc w; simpl.
  - unfold_monad. rewrite app_nil_r. reflexivity.
  - unfold bind.
    assert (Hc : one_call acc call w =
                 match one_call [] call w with
                 | (inr r1, w1) => (inr (acc ++ r1)%list, w1)
                 | (inl e, w1) => (inl e, w1)
                 end).
    { unfold process_call.
      destruct (TOOLS_get _ _ _) as [e|[[s tool]|]]; unfold_monad; try reflexivity.
      - destruct (run tool _ w) as [[e|r] w1]; reflexivity.
      - rewrite app_nil_r. reflexivity. }
    rewrite Hc. destruct (one_call [] call w) as [[e|r1] w1]; [reflexivity|].
    rewrite (IH (acc ++ r1)%list), (IH r1).
    destruct (batch [] rest w1) as [[e|rs] w2]; [reflexivity|].
    rewrite app_assoc. reflexivity.
Qed.

(** A batch whose names can all be looked up never raises, and gives one
    result for each call that names a registered tool, in the order of
    the calls. *)
Lemma process_calls_hashable (calls : list dict) (w : World) :
  Forall (fun call => hashable_name call = true) calls ->
  exists rs w',
    batch [] calls w = (inr rs, w') /\
    List.map tool_name_of rs = omap registered_name calls.
Proof.
  intros H. revert w. induction H as [|call rest Hh _ IH]; intros w.
  - exists [], w. split; reflexivity.
  - simpl. unfold bind at 1.
    destruct (registered_name call) as [s|] eqn:Hr.
    + assert (Hn : call_name call = Some s /\ registered s = true).
      { unfold registered_name in Hr. destruct (call_name call) as [s'|]; [|discriminate].
        destruct (registered s') eqn:Hs; inversion Hr; subst; auto. }
      destruct Hn as [Hn Hs]. destruct (TOOLS_lookup_registered _ Hs) as [tool Ht].
      rewrite (process_call_found [] call s tool w Hn Ht).
      destruct (run tool _ w) as [[e|r] w1]; rewrite process_calls_acc;
        destruct (IH w1) as (rs & w' & -> & Hm); eexists _, w';
        (split; [reflexivity|]); simpl; rewrite Hm; reflexivity.
    + rewrite (process_call_skip [] call w Hh Hr).
      destruct (IH w) as (rs & w' & -> & Hm). exists rs, w'. split; [reflexivity|].
      exact Hm.
Qed.

(** A batch in which every call names a registered tool gives what the
    specification asks for. *)
Lemma process_calls_dispatched (calls : list dict) (w : World) :
  Forall (fun call => is_Some (registered_name call)) calls ->
  exists rs w',
    batch [] calls w = (inr rs, w') /\ dispatched tools w calls rs w'.
Proof.
  intros H. revert w. induction H as [|call rest [s Hr] _ IH]; intros w.
  - exists [], w. split; [reflexivity|constructor].
  - assert (Hn : call_name call = Some s /\ registered s = true).
    { unfold registered_name in Hr. destruct (call_name call) as [s'|]; [|discriminate].
      destruct (registered s') eqn:Hs; inversion Hr; subst; auto. }
    destruct Hn as [Hn Hs]. destruct (TOOLS_lookup_registered _ Hs) as [tool Ht].
    simpl. unfold bind at 1. rewrite (process_call_found [] call s tool w Hn Ht).
    destruct (run tool _ w) as [[e|r] w1] eqn:Hrun; rewrite process_calls_acc;
      destruct (IH w1) as (rs & w' & -> & Hd); eexists _, w';
      (split; [reflexivity|]); simpl.
    + eapply dispatched_error; eauto.
    + eapply dispatched_output; eauto.
Qed.

Lemma dispatched_length (w w' : World) (calls : list dict) (rs : list tool_result) :
  dispatched tools w calls rs w' ->
  List.length rs = List.length calls /\
  List.map (fun r => Some (tool_name_of r)) rs = List.map call_name calls.
Proof.
  induction 1; simpl; [split; reflexivity | |];
    destruct IHdispatched as [-> ->]; split; congruence.
Qed.

End Dispatcher.

(** ** Claims on the extractor *)

(** C1.  On the scenario of the specification, a reply whose tool-request
    section holds the object with the name [search] and the input
    object with the key [query], the only candidate the regular
    expression finds is the inner object, which has neither key: the
    extractor returns no call, where the claim asks for the call named
    [search] with that input.  For no reply at all does the extractor
    return a call whose input is a mapping. *)
Theorem parse_tool_calls_nested_input_lost :
  json_patterns Script.search_reply
    = ["{" +:+ Script.quoted "query" +:+ ":" +:+ Script.quoted "x" +:+ "}"]
  /\ _parse_tool_calls Script.search_reply = []
  /\ (forall (output : string) (call : dict) (input : json),
         In call (_parse_tool_calls output) ->
         Dict.get "input" call = Some input ->
         is_object input = false).
Proof.
  split; [vm_compute; reflexivity|]. split; [vm_compute; reflexivity|].
  intros output call input Hc Hi.
  pose proof (parse_tool_calls_values_flat output call Hc) as Hflat.
  destruct (dict_get_In _ _ _ Hi) as [k Hin].
  rewrite List.Forall_forall in Hflat. exact (Hflat (k, input) Hin).
Qed.

Lemma parse_tool_calls_nested_input_lost_witness :
  In Script.search_call
     (_parse_tool_calls (Script.flat_reply "search" (Script.quoted "x")))
  /\ Dict.get "input" Script.search_call = Some (JStr "x")
  /\ is_object (JStr "x") = false.
Proof.
  assert (H : In Script.search_call
                 (_parse_tool_calls (Script.flat_reply "search" (Script.quoted "x")))).
  { vm_compute. left. reflexivity. }
  split; [exact H|]. split; [reflexivity|].
  exact (proj2 (proj2 parse_tool_calls_nested_input_lost)
           (Script.flat_reply "search" (Script.quoted "x")) Script.search_call
           (JStr "x") H eq_refl).
Defined.

(** C8, as the claim states it, fails: an object with a name and no
    input gives no call. *)
Lemma parse_tool_calls_name_only_dropped :
  json_patterns Script.name_only_reply
    = ["{" +:+ Script.quoted "name" +:+ ":" +:+ Script.quoted "search" +:+ "}"]
  /\ Json.loads ("{" +:+ Script.quoted "name" +:+ ":" +:+ Script.quoted "search" +:+ "}")
     = Some (JObj [("name", JStr "search")])
  /\ _parse_tool_calls Script.name_only_reply = [].
Proof. repeat split; vm_compute; reflexivity. Qed.

(** C8 (amended).  The extractor keeps a decoded object only when it has
    both keys, and returns it as it was decoded: an object with a name
    and no input gives no call.  The empty mapping is the default the
    dispatcher takes for a call without an input. *)
Theorem parse_tool_calls_needs_both_keys (output : string) (call : dict) :
  In call (_parse_tool_calls output) ->
  (exists pattern,
      In pattern (json_patterns output) /\ Json.loads pattern = Some (JObj call))
  /\ Dict.mem "name" call = true
  /\ Dict.mem "input" call = true
  /\ (forall (World : Type) (SearchTool ZhihuHotTool : BaseTool World)
             (acc : list tool_result) (other : dict) (s : string)
             (tool : BaseTool World) (w : World),
         call_name other = Some s ->
         TOOLS SearchTool ZhihuHotTool !! s = Some tool ->
         Dict.get "input" other = None ->
         process_call SearchTool ZhihuHotTool acc other w =
         match run tool (JObj []) w with
         | (inr result, w') => (inr (acc ++ [ToolOutput s result])%list, w')
         | (inl e, w') => (inr (acc ++ [ToolError s (str_of e)])%list, w')
         end).
Proof.
  intros H. apply parse_tool_calls_In in H.
  destruct H as (pattern & Hp & Hl & Hn & Hi).
  split; [exists pattern; auto|]. split; [exact Hn|]. split; [exact Hi|].
  intros World SearchTool ZhihuHotTool acc other s tool w Hs Ht Hnone.
  rewrite (process_call_found SearchTool ZhihuHotTool acc other s tool w Hs Ht).
  rewrite Hnone. reflexivity.
Qed.

Lemma parse_tool_calls_needs_both_keys_witness :
  In Script.search_call
     (_parse_tool_calls (Script.flat_reply "search" (Script.quoted "x")))
  /\ Dict.mem "name" Script.search_call = true
  /\ Dict.mem "input" Script.search_call = true.
Proof.
  assert (H : In Script.search_call
                 (_parse_tool_calls (Script.flat_reply "search" (Script.quoted "x")))).
  { vm_compute. left. reflexivity. }
  split; [exact H|].
  pose proof (parse_tool_calls_needs_both_keys _ _ H) as (_ & Hn & Hi & _).
  split; [exact Hn | exact Hi].
Defined.

(** ** The state and the graph *)

Lemma update_later_None {A : Type} (a : option A) : AgentState.later a None = a.
Proof. reflexivity. Qed.

Lemma update_idempotent (a b : AgentState.t) :
  AgentState.update a (AgentState.update a b) = AgentState.update a b.
Proof.
  destruct a as [q h m c r], b as [q' h' m' c' r']. unfold AgentState.update. simpl.
  destruct q', h', m', c', r'; destruct q, h, m, c, r; reflexivity.
Qed.

Section Graph.

Context {World : Type}.
Variable SearchTool ZhihuHotTool : BaseTool World.
Variable llm_invoke : list message -> M World string.

Local Abbreviation generate := (_generate_response llm_invoke).
Local Abbreviation dispatch := (_process_tool_calls SearchTool ZhihuHotTool).
Local Abbreviation graph := (run_graph SearchTool ZhihuHotTool llm_invoke).

Lemma generate_response_returns (state : AgentState.t) (question output : string)
    (w w' : World) :
  AgentState.question state = Some question ->
  llm_invoke (prompt_messages question state) w = (inr output, w') ->
  generate state w =
  (inr (AgentState.mk (Some question) (AgentState.chat_history state)
          (Some (prompt_messages question state))
          (Some (_parse_tool_calls output))
          (AgentState.tool_results state)), w').
Proof.
  intros Hq Hl. unfold _generate_response. rewrite Hq. unfold bind.
  rewrite Hl. unfold ret.
  destruct state as [q h m c r]. simpl in *. subst q. reflexivity.
Qed.

Lemma generate_response_outcome (state out : AgentState.t) (w w' : World) :
  generate state w = (inr out, w') ->
  exists question output,
    AgentState.question state = Some question /\
    llm_invoke (prompt_messages question state) w = (inr output, w') /\
    AgentState.tool_calls out = Some (_parse_tool_calls output).
Proof.
  unfold _generate_response. destruct (AgentState.question state) as [q|] eqn:Hq;
    [|discriminate].
  unfold bind.
  destruct (llm_invoke (prompt_messages q state) w) as [[e|output] w1] eqn:Hl;
    [discriminate|].
  unfold ret. intros H. inversion H; subst. exists q, output.
  split; [reflexivity|]. split; [exact Hl|]. destruct state; reflexivity.
Qed.

(** The conditional edge after a generation step. *)
Lemma should_use_tools_cases (state : AgentState.t) :
  (default [] (AgentState.tool_calls state) <> [] /\
   path_map (_should_use_tools state) = Some (Node process_tool_calls))
  \/
  (default [] (AgentState.tool_calls state) = [] /\
   path_map (_should_use_tools state) = Some END).
Proof.
  unfold _should_use_tools.
  destruct (default [] (AgentState.tool_calls state)) as [|c cs].
  - right. split; reflexivity.
  - left. split; [discriminate|reflexivity].
Qed.

End Graph.

Section Loop.

Context {World : Type}.
Variable SearchTool ZhihuHotTool : BaseTool World.
Variable llm_invoke : list message -> M World string.

Local Abbreviation generate := (_generate_response llm_invoke).
Local Abbreviation dispatch := (_process_tool_calls SearchTool ZhihuHotTool).
Local Abbreviation batch := (process_calls SearchTool ZhihuHotTool).
Local Abbreviation graph := (run_graph SearchTool ZhihuHotTool llm_invoke).

(** One generation step of the graph: it ends the run when the new
    state has no pending call, and goes on to the dispatcher otherwise.
    The run that ends returns the new state, unless the step was the
    last one allowed. *)
Lemma run_graph_generate (k : nat) (state out : AgentState.t) (w w' : World) :
  generate state w = (inr out, w') ->
  (default [] (AgentState.tool_calls (AgentState.update state out)) <> [] /\
   graph (S k) generate_response state w
   = graph k process_tool_calls (AgentState.update state out) w')
  \/
  (default [] (AgentState.tool_calls (AgentState.update state out)) = [] /\
   graph (S k) generate_response state w
   = match k with
     | O => (inl GraphRecursionError, w')
     | S _ => (inr (AgentState.update state out), w')
     end).
Proof.
  intros Hg.
  assert (Hstep : graph (S k) generate_response state w =
                  match path_map (_should_use_tools (AgentState.update state out)) with
                  | Some (Node n) => graph k n (AgentState.update state out) w'
                  | Some END =>
                      match k with
                      | O => (inl GraphRecursionError, w')
                      | S _ => (inr (AgentState.update state out), w')
                      end
                  | None => (inl (Exception "unknown branch"), w')
                  end).
  { cbn [run_graph]. unfold bind at 1. rewrite Hg.
    destruct (path_map _) as [[n|]|]; [reflexivity | destruct k; reflexivity | reflexivity]. }
  rewrite Hstep.
  destruct (should_use_tools_cases (AgentState.update state out)) as [[Hc Hp]|[Hc Hp]];
    rewrite Hp; [left|right]; split; auto.
Qed.

(** A generation step whose reply holds no call, with a step to spare,
    ends the run in the state that step built. *)
Lemma run_graph_finish (k : nat) (state : AgentState.t) (question output : string)
    (w w' : World) :
  AgentState.question state = Some question ->
  llm_invoke (prompt_messages question state) w = (inr output, w') ->
  _parse_tool_calls output = [] ->
  graph (S (S k)) generate_response state w =
  (inr (AgentState.mk (Some question) (AgentState.chat_history state)
          (Some (prompt_messages question state)) (Some [])
          (AgentState.tool_results state)), w').
Proof.
  intros Hq Hl Hp.
  pose proof (generate_response_returns llm_invoke state question output w w' Hq Hl) as Hg.
  rewrite Hp in Hg.
  destruct (run_graph_generate (S k) _ _ _ _ Hg) as [[Hc _]|[_ Hr]].
  - exfalso. apply Hc. destruct state; reflexivity.
  - rewrite Hr. destruct state as [q h m c r]. simpl in Hq. subst q.
    unfold AgentState.update. simpl. destruct h, r; reflexivity.
Qed.

(** The state the dispatcher returns: every key of the state it was
    given keeps its value, so the list it built is stored only when the
    state had no results yet. *)
Lemma process_tool_calls_returns (state : AgentState.t) (rs : list tool_result)
    (w w' : World) :
  batch [] (default [] (AgentState.tool_calls state)) w = (inr rs, w') ->
  dispatch state w =
  (inr (AgentState.mk (AgentState.question state) (AgentState.chat_history state)
          (AgentState.messages state) (AgentState.tool_calls state)
          (match AgentState.tool_results state with
           | Some earlier => Some earlier
           | None => Some rs
           end)), w').
Proof.
  intros Hb. unfold _process_tool_calls, bind. rewrite Hb. unfold ret.
  destruct state as [q h m c r]. unfold AgentState.update. simpl.
  destruct q, h, m, c, r; reflexivity.
Qed.

Lemma process_tool_calls_raises (state : AgentState.t) (e : exn) (w w' : World) :
  batch [] (default [] (AgentState.tool_calls state)) w = (inl e, w') ->
  dispatch state w = (inl e, w').
Proof. intros Hb. unfold _process_tool_calls, bind. rewrite Hb. reflexivity. Qed.

Lemma last_map_Some_snoc {A : Type} (l : list A) (x : A) :
  List.last (List.map Some (l ++ [x])%list) None = Some x.
Proof.
  induction l as [|a l IH]; [reflexivity|].
  simpl. destruct (List.map Some (l ++ [x])%list) eqn:Hm; [|exact IH].
  destruct l; discriminate.
Qed.

(** What [chat] answers when the first reply of the model holds no call:
    the final answer is cut out of the prompt that was sent. *)
Lemma chat_single_step (request : QuestionRequest.t) (output : string) (w w' : World) :
  llm_invoke (prompt_messages (QuestionRequest.question request) (initial_state request)) w
  = (inr output, w') ->
  _parse_tool_calls output = [] ->
  chat SearchTool ZhihuHotTool llm_invoke request w =
  (Response
     (AgentResponse.mk
        (or_fallback
           (Some (final_answer (current_prompt (QuestionRequest.question request) []))))
        [] []), w').
Proof.
  intros Hl Hp. unfold chat, ainvoke, default_recursion_limit.
  rewrite (run_graph_finish 23 (initial_state request)
             (QuestionRequest.question request) output w w' eq_refl Hl Hp).
  unfold respond, extract_output. simpl AgentState.messages. simpl default.
  unfold prompt_messages. rewrite last_map_Some_snoc. reflexivity.
Qed.

End Loop.

(** ** Claims on the loop *)



(** C2.  With a reply that requests no tool the run ends after one
    generation step with no call and no result, but the answer is not
    the text of the model: the last of [messages] is the prompt that was
    sent, so whatever the model replies, the answer for the question
    [weather today] is that prompt. *)
Theorem chat_answer_is_the_prompt (reply : string) :
  PyStr.contains "工具调用" reply = false ->
  chat Script.SearchTool Script.ZhihuHotTool (Script.constant_llm reply)
       Script.weather_request []
  = (Response (AgentResponse.mk ("用户问题: weather today" +:+ newline) [] []), []).
Proof.
  intros Hm.
  rewrite (chat_single_step Script.SearchTool Script.ZhihuHotTool
             (Script.constant_llm reply) Script.weather_request reply [] []
             eq_refl (parse_tool_calls_no_marker reply Hm)).
  vm_compute. reflexivity.
Qed.

Lemma chat_answer_is_the_prompt_witness :
  chat Script.SearchTool Script.ZhihuHotTool
       (Script.constant_llm "It is sunny today.") Script.weather_request []
  = (Response (AgentResponse.mk ("用户问题: weather today" +:+ newline) [] []), []).
Proof.
  apply (chat_answer_is_the_prompt "It is sunny today.").
  vm_compute. reflexivity.
Defined.

(** C10.  When no answer text can be recovered from the final state, the
    response holds the fixed fallback answer with the tool calls and the
    tool results of that state; and whenever the run of the graph
    returns a final state, [chat] returns the response built from it. *)
Theorem respond_falls_back :
  (forall result : AgentState.t,
      no_answer_text result ->
      respond result
      = AgentResponse.mk "抱歉，我无法处理您的请求。"
          (default [] (AgentState.tool_calls result))
          (default [] (AgentState.tool_results result)))
  /\
  (forall (World : Type) (SearchTool ZhihuHotTool : BaseTool World)
          (llm_invoke : list message -> M World string)
          (request : QuestionRequest.t) (result : AgentState.t) (w w' : World),
      ainvoke SearchTool ZhihuHotTool llm_invoke (initial_state request) w
      = (inr result, w') ->
      chat SearchTool ZhihuHotTool llm_invoke request w
      = (Response (respond result), w')).
Proof.
  split.
  - intros result H. unfold respond, extract_output. unfold no_answer_text in H.
    destruct (List.last _ None) as [m|]; [|reflexivity].
    destruct H as [-> | ->]; reflexivity.
  - intros World SearchTool ZhihuHotTool llm_invoke request result w w' H.
    unfold chat. rewrite H. reflexivity.
Qed.

Lemma respond_falls_back_witness :
  respond (AgentState.mk (Some "weather today") (Some []) (Some [])
             (Some [Script.search_call])
             (Some [ToolError "search" "'str' object has no attribute 'query'"]))
  = AgentResponse.mk "抱歉，我无法处理您的请求。" [Script.search_call]
      [ToolError "search" "'str' object has no attribute 'query'"]
  /\
  respond (AgentState.mk (Some "weather today") None
             (Some [HumanMessage "hello"; PlainDict [("role", JStr "user")]])
             None None)
  = AgentResponse.mk "抱歉，我无法处理您的请求。" [] []
  /\
  respond (AgentState.mk (Some "weather today") None
             (Some [AIMessage EmptyString]) None None)
  = AgentResponse.mk "抱歉，我无法处理您的请求。" [] [].
Proof.
  split; [|split]; apply (proj1 respond_falls_back); vm_compute.
  - exact I.
  - left. reflexivity.
  - right. reflexivity.
Defined.

(** ** Claims on the dispatcher *)

(** C3, as the claim states it, fails: the call of a tool that is not
    registered gives no result at all, not one failure. *)
Lemma process_calls_unregistered_no_failure :
  _parse_tool_calls (Script.flat_reply "calculator" (Script.quoted "1+1"))
    = [Script.calculator_call]
  /\ process_calls Script.SearchTool Script.ZhihuHotTool [] [Script.calculator_call] []
     = (inr [], []).
Proof. split; vm_compute; reflexivity. Qed.

(** C3 (amended).  The call of a name that is not registered appends no
    result, raises nothing and leaves the world as it is; the calls
    after it are dispatched as if it were not there, and a batch made of
    it alone leads back to the generation step. *)
Theorem process_call_unregistered_skipped
    (World : Type) (SearchTool ZhihuHotTool : BaseTool World)
    (llm_invoke : list message -> M World string)
    (call : dict) (s : string) :
  call_name call = Some s ->
  registered s = false ->
  (forall (acc : list tool_result) (w : World),
      process_call SearchTool ZhihuHotTool acc call w = (inr acc, w))
  /\
  (forall (acc : list tool_result) (rest : list dict) (w : World),
      process_calls SearchTool ZhihuHotTool acc (call :: rest) w
      = process_calls SearchTool ZhihuHotTool acc rest w)
  /\
  (forall (k : nat) (state : AgentState.t) (w : World),
      AgentState.tool_calls state = Some [call] ->
      exists state',
        _process_tool_calls SearchTool ZhihuHotTool state w = (inr state', w) /\
        run_graph SearchTool ZhihuHotTool llm_invoke (S k) process_tool_calls state w
        = run_graph SearchTool ZhihuHotTool llm_invoke k generate_response
            (AgentState.update state state') w).
Proof.
  intros Hn Hr.
  assert (Hskip : forall acc w,
             process_call SearchTool ZhihuHotTool acc call w = (inr acc, w)).
  { intros acc w. apply process_call_skip.
    - unfold hashable_name. unfold call_name in Hn.
      destruct (Dict.get "name" call) as [[| | | |s'| |]|]; try discriminate; reflexivity.
    - unfold registered_name. rewrite Hn, Hr. reflexivity. }
  split; [exact Hskip|]. split.
  - intros acc rest w. simpl. unfold bind at 1. rewrite Hskip. reflexivity.
  - intros k state w Hc.
    assert (Hb : process_calls SearchTool ZhihuHotTool []
                   (default [] (AgentState.tool_calls state)) w = (inr [], w)).
    { rewrite Hc. simpl. unfold bind at 1. rewrite Hskip. reflexivity. }
    pose proof (process_tool_calls_returns SearchTool ZhihuHotTool state [] w w Hb) as Hd.
    eexists. split; [exact Hd|].
    cbn [run_graph]. unfold bind at 1. rewrite Hd. reflexivity.
Qed.

Lemma process_call_unregistered_skipped_witness :
  process_call Script.SearchTool Script.ZhihuHotTool
    [ToolError "search" "'str' object has no attribute 'query'"] Script.calculator_call []
  = (inr [ToolError "search" "'str' object has no attribute 'query'"], []).
Proof.
  apply (proj1 (process_call_unregistered_skipped
                  Script.World Script.SearchTool Script.ZhihuHotTool Script.llm_invoke
                  Script.calculator_call "calculator" eq_refl eq_refl)).
Defined.

(** C4, as the claim states it, fails: a batch of two calls, the first
    of a tool that is not registered, gives one result. *)
Lemma process_calls_fewer_results :
  process_calls Script.SearchTool Script.ZhihuHotTool []
    [Script.calculator_call; Script.search_call] []
  = (inr [ToolError "search" "'str' object has no attribute 'query'"], []).
Proof. vm_compute. reflexivity. Qed.

(** C4 (amended).  A batch whose names can be looked up never raises and
    gives one result for each call that names a registered tool, in the
    order of these calls, and none for the other calls; so it gives as
    many results as calls when every call names a registered tool, the
    same name twice included.  The list is what the returned state holds
    when the state had no results before. *)
Theorem process_calls_one_result_per_registered_call
    (World : Type) (SearchTool ZhihuHotTool : BaseTool World)
    (calls : list dict) (w : World) :
  Forall (fun call => hashable_name call = true) calls ->
  exists (rs : list tool_result) (w' : World),
    process_calls SearchTool ZhihuHotTool [] calls w = (inr rs, w')
    /\ List.map tool_name_of rs = omap registered_name calls
    /\ (Forall (fun call => is_Some (registered_name call)) calls ->
        List.length rs = List.length calls)
    /\ (forall state : AgentState.t,
           AgentState.tool_calls state = Some calls ->
           AgentState.tool_results state = None ->
           _process_tool_calls SearchTool ZhihuHotTool state w
           = (inr (AgentState.mk (AgentState.question state)
                     (AgentState.chat_history state) (AgentState.messages state)
                     (Some calls) (Some rs)), w')).
Proof.
  intros Hh.
  destruct (process_calls_hashable SearchTool ZhihuHotTool calls w Hh)
    as (rs & w' & Hb & Hm).
  exists rs, w'. split; [exact Hb|]. split; [exact Hm|]. split.
  - intros Hall.
    assert (Hlen : List.length (omap registered_name calls) = List.length calls).
    { clear -Hall. induction Hall as [|call rest [s Hs] _ IH]; [reflexivity|].
      cbn. rewrite Hs. cbn. f_equal. exact IH. }
    rewrite <- Hlen, <- Hm. rewrite length_map. reflexivity.
  - intros state Hc Hr.
    rewrite (process_tool_calls_returns SearchTool ZhihuHotTool state rs w w').
    + rewrite Hc, Hr. reflexivity.
    + rewrite Hc. exact Hb.
Qed.

Lemma process_calls_one_result_per_registered_call_witness :
  exists (rs : list tool_result) (w' : Script.World),
    process_calls Script.SearchTool Script.ZhihuHotTool []
      [Script.search_call; Script.calculator_call; Script.zhihu_call; Script.search_call] []
    = (inr rs, w')
    /\ List.map tool_name_of rs = ["search"; "zhihu_hot"; "search"].
Proof.
  destruct (process_calls_one_result_per_registered_call
              Script.World Script.SearchTool Script.ZhihuHotTool
              [Script.search_call; Script.calculator_call; Script.zhihu_call;
               Script.search_call] [])
    as (rs & w' & Hb & Hm & _).
  - repeat constructor.
  - exists rs, w'. split; [exact Hb | exact Hm].
Defined.

(** C7.  In a batch whose calls all name registered tools, a call that
    raises during validation or execution gives the failure with its
    name and the text of the exception, the calls after it are
    dispatched from the world it left, and nothing is raised by the
    dispatcher: there is one result for every call, in order.  The
    failure is built both when the input model rejects the input and
    when the logic of the tool raises. *)
Theorem process_calls_isolates_failures
    (World : Type) (SearchTool ZhihuHotTool : BaseTool World) :
  (forall (calls : list dict) (w : World),
      Forall (fun call => is_Some (registered_name call)) calls ->
      exists (rs : list tool_result) (w' : World),
        process_calls SearchTool ZhihuHotTool [] calls w = (inr rs, w')
        /\ dispatched (TOOLS SearchTool ZhihuHotTool) w calls rs w'
        /\ List.length rs = List.length calls
        /\ List.map (fun r => Some (tool_name_of r)) rs = List.map call_name calls)
  /\
  (forall (acc : list tool_result) (call : dict) (s : string) (tool : BaseTool World)
          (fields : dict) (e : exn) (w : World),
      call_name call = Some s ->
      TOOLS SearchTool ZhihuHotTool !! s = Some tool ->
      Dict.get "input" call = Some (JObj fields) ->
      input_schema tool fields = inl e ->
      process_call SearchTool ZhihuHotTool acc call w
      = (inr (acc ++ [ToolError s (str_of e)])%list, w))
  /\
  (forall (acc : list tool_result) (call : dict) (s : string) (tool : BaseTool World)
          (fields : dict) (input_obj : json) (e : exn) (w w' : World),
      call_name call = Some s ->
      TOOLS SearchTool ZhihuHotTool !! s = Some tool ->
      Dict.get "input" call = Some (JObj fields) ->
      input_schema tool fields = inr input_obj ->
      _run tool input_obj w = (inl e, w') ->
      process_call SearchTool ZhihuHotTool acc call w
      = (inr (acc ++ [ToolError s (str_of e)])%list, w')).
Proof.
  split; [|split].
  - intros calls w Hall.
    destruct (process_calls_dispatched SearchTool ZhihuHotTool calls w Hall)
      as (rs & w' & Hb & Hd).
    exists rs, w'. split; [exact Hb|]. split; [exact Hd|].
    exact (dispatched_length SearchTool ZhihuHotTool w w' calls rs Hd).
  - intros acc call s tool fields e w Hn Ht Hi Hv.
    rewrite (process_call_found SearchTool ZhihuHotTool acc call s tool w Hn Ht).
    rewrite Hi. simpl. rewrite Hv. reflexivity.
  - intros acc call s tool fields input_obj e w w' Hn Ht Hi Hv Hr.
    rewrite (process_call_found SearchTool ZhihuHotTool acc call s tool w Hn Ht).
    rewrite Hi. simpl. rewrite Hv, Hr. reflexivity.
Qed.

Lemma process_calls_isolates_failures_witness :
  (exists (rs : list tool_result) (w' : Script.World),
      process_calls Script.SearchTool Script.ZhihuHotTool []
        [Script.search_call;
         [("name", JStr "search"); ("input", JObj [("query", JStr "x")])];
         [("name", JStr "search"); ("input", JObj [("q", JStr "x")])];
         [("name", JStr "zhihu_hot"); ("input", JObj [])]] []
      = (inr rs, w')
      /\ List.length rs = 4)
  /\ process_call Script.SearchTool Script.ZhihuHotTool []
       [("name", JStr "search"); ("input", JObj [("q", JStr "x")])] []
     = (inr [ToolError "search" "1 validation error for SearchInput"], [])
  /\ process_call Script.OfflineSearchTool Script.ZhihuHotTool []
       [("name", JStr "search"); ("input", JObj [("query", JStr "x")])] []
     = (inr [ToolError "search" "All connection attempts failed"], []).
Proof.
  pose proof (process_calls_isolates_failures
                Script.World Script.SearchTool Script.ZhihuHotTool) as (Hbatch & Hval & _).
  pose proof (process_calls_isolates_failures
                Script.World Script.OfflineSearchTool Script.ZhihuHotTool) as (_ & _ & Hrun).
  split; [|split].
  - destruct (Hbatch
                [Script.search_call;
                 [("name", JStr "search"); ("input", JObj [("query", JStr "x")])];
                 [("name", JStr "search"); ("input", JObj [("q", JStr "x")])];
                 [("name", JStr "zhihu_hot"); ("input", JObj [])]] [])
      as (rs & w' & Hb & _ & Hl & _).
    + repeat constructor; vm_compute; eauto.
    + exists rs, w'. split; [exact Hb | exact Hl].
  - apply (Hval [] _ "search" Script.SearchTool [("q", JStr "x")]
             (Exception "1 validation error for SearchInput") []);
      vm_compute; reflexivity.
  - apply (Hrun [] _ "search" Script.OfflineSearchTool [("query", JStr "x")]
             (JObj [("query", JStr "x"); ("num_results", JInt 5)])
             (Exception "All connection attempts failed") [] []);
      vm_compute; reflexivity.
Defined.

(** C5.  On a request for which the model asks for [search] and then
    for [zhihu_hot], the dispatcher is entered a second time in a state
    that holds the result of the first batch; the batch it dispatches
    then gives the failure of [zhihu_hot], but the state it returns
    still holds the result of [search], and so does the response.  In
    general, a state that already has results keeps them through every
    later dispatch step.  The question and the chat history are
    unchanged. *)
Theorem process_tool_calls_keeps_first_results :
  bind (_generate_response Script.llm_invoke (initial_state Script.weather_request))
    (fun out1 =>
       let s1 := AgentState.update (initial_state Script.weather_request) out1 in
       bind (_process_tool_calls Script.SearchTool Script.ZhihuHotTool s1)
         (fun out2 =>
            let s2 := AgentState.update s1 out2 in
            bind (_generate_response Script.llm_invoke s2)
              (fun out3 => ret (AgentState.update s2 out3))))
    Script.two_requests
  = (inr Script.second_dispatch_state, ["回答：done"])
  /\ process_calls Script.SearchTool Script.ZhihuHotTool []
       (default [] (AgentState.tool_calls Script.second_dispatch_state)) ["回答：done"]
     = (inr [Script.zhihu_failure], ["回答：done"])
  /\ _process_tool_calls Script.SearchTool Script.ZhihuHotTool
       Script.second_dispatch_state ["回答：done"]
     = (inr (AgentState.mk (Some "weather today") (Some [])
               (Some [HumanMessage (current_prompt "weather today" [Script.search_failure])])
               (Some [Script.zhihu_call]) (Some [Script.search_failure])),
        ["回答：done"])
  /\ chat Script.SearchTool Script.ZhihuHotTool Script.llm_invoke
       Script.weather_request Script.two_requests
     = (Response
          (AgentResponse.mk (current_prompt "weather today" [Script.search_failure])
             [] [Script.search_failure]), [])
  /\ (forall (World : Type) (SearchTool ZhihuHotTool : BaseTool World)
             (state out : AgentState.t) (earlier : list tool_result) (w w' : World),
         AgentState.tool_results state = Some earlier ->
         _process_tool_calls SearchTool ZhihuHotTool state w = (inr out, w') ->
         AgentState.tool_results out = Some earlier
         /\ AgentState.question out = AgentState.question state
         /\ AgentState.chat_history out = AgentState.chat_history state).
Proof.
  split; [vm_compute; reflexivity|]. split; [vm_compute; reflexivity|].
  split; [vm_compute; reflexivity|]. split; [vm_compute; reflexivity|].
  intros World SearchTool ZhihuHotTool state out earlier w w' He Hd.
  destruct (process_calls SearchTool ZhihuHotTool []
              (default [] (AgentState.tool_calls state)) w) as [[e|rs] w1] eqn:Hb.
  - rewrite (process_tool_calls_raises SearchTool ZhihuHotTool state e w w1 Hb) in Hd.
    discriminate.
  - rewrite (process_tool_calls_returns SearchTool ZhihuHotTool state rs w w1 Hb) in Hd.
    inversion Hd; subst. simpl. rewrite He. auto.
Qed.

Lemma process_tool_calls_keeps_first_results_witness :
  AgentState.tool_results Script.second_dispatch_state = Some [Script.search_failure]
  /\ exists (out : AgentState.t),
       _process_tool_calls Script.SearchTool Script.ZhihuHotTool
         Script.second_dispatch_state ["回答：done"] = (inr out, ["回答：done"])
       /\ AgentState.tool_results out = Some [Script.search_failure].
Proof.
  split; [reflexivity|].
  destruct process_tool_calls_keeps_first_results as (_ & _ & Hd & _ & Hkeep).
  eexists. split; [exact Hd|].
  exact (proj1 (Hkeep Script.World Script.SearchTool Script.ZhihuHotTool
                  Script.second_dispatch_state _ [Script.search_failure]
                  ["回答：done"] ["回答：done"] eq_refl Hd)).
Defined.

(** C6, as the claim states it, fails: with a model that requests a tool
    in every reply the run does not end in a final state with a partial
    answer; it uses up the steps the runtime allows and raises, and the
    request fails. *)
Lemma chat_always_tools_fails :
  chat Script.SearchTool Script.ZhihuHotTool
    (Script.constant_llm (Script.flat_reply "search" (Script.quoted "x")))
    Script.weather_request []
  = (HTTPException 500
       "处理请求时出错: Recursion limit reached without hitting a stop condition", []).
Proof. vm_compute. reflexivity. Qed.

Section NoBudget.

Context {World : Type}.
Variable SearchTool ZhihuHotTool : BaseTool World.
Variable llm_invoke : list message -> M World string.

(** Every reply of the model holds a call. *)
Hypothesis always_requests :
  forall (messages : list message) (w w' : World) (output : string),
    llm_invoke messages w = (inr output, w') -> _parse_tool_calls output <> [].

Lemma run_graph_never_ends (limit : nat) :
  forall (at_node : node) (state : AgentState.t) (w : World),
    raises (run_graph SearchTool ZhihuHotTool llm_invoke limit at_node state w).
Proof.
  induction limit as [|k IH]; intros at_node state w; [exact I|].
  destruct at_node.
  - destruct (_generate_response llm_invoke state w) as [[e|out] w1] eqn:Hg.
    + cbn [run_graph]. unfold bind at 1. rewrite Hg. exact I.
    + destruct (run_graph_generate SearchTool ZhihuHotTool llm_invoke k _ _ _ _ Hg)
        as [[_ ->]|[Hc _]]; [apply IH|].
      exfalso.
      destruct (generate_response_outcome llm_invoke _ _ _ _ Hg)
        as (question & output & _ & Hl & Ho).
      apply (always_requests _ _ _ _ Hl).
      destruct state as [q h m c r], out as [q' h' m' c' r'].
      simpl in Ho. subst c'. exact Hc.
  - cbn [run_graph]. unfold bind at 1.
    destruct (_process_tool_calls SearchTool ZhihuHotTool state w) as [[e|out] w1];
      [exact I | apply IH].
Qed.

End NoBudget.

(** C6 (amended).  The graph has no budget of its own: when every reply
    of the model holds a call, no number of steps brings the run to its
    end, from any node and state; the run stops only by raising, and
    [chat] then fails with the status 500 and no answer. *)
Theorem run_graph_has_no_budget
    (World : Type) (SearchTool ZhihuHotTool : BaseTool World)
    (llm_invoke : list message -> M World string) :
  (forall (messages : list message) (w w' : World) (output : string),
      llm_invoke messages w = (inr output, w') -> _parse_tool_calls output <> []) ->
  (forall (limit : nat) (at_node : node) (state : AgentState.t) (w : World),
      raises (run_graph SearchTool ZhihuHotTool llm_invoke limit at_node state w))
  /\
  (forall (request : QuestionRequest.t) (w : World),
      exists detail : string,
        fst (chat SearchTool ZhihuHotTool llm_invoke request w)
        = HTTPException 500 detail).
Proof.
  intros Hall. split.
  - intros limit. apply run_graph_never_ends. exact Hall.
  - intros request w. unfold chat, ainvoke.
    pose proof (run_graph_never_ends SearchTool ZhihuHotTool llm_invoke Hall
                  default_recursion_limit generate_response (initial_state request) w) as Hr.
    unfold raises in Hr.
    destruct (run_graph _ _ _ _ _ _ w) as [[e|result] w']; [|destruct Hr].
    eexists. reflexivity.
Qed.

Lemma run_graph_has_no_budget_witness :
  raises (run_graph Script.SearchTool Script.ZhihuHotTool
            (Script.constant_llm (Script.flat_reply "search" (Script.quoted "x")))
            1000 generate_response (initial_state Script.weather_request) []).
Proof.
  assert (Hall : forall (messages : list message) (w w' : Script.World) (output : string),
             Script.constant_llm (Script.flat_reply "search" (Script.quoted "x")) messages w
             = (inr output, w') ->
             _parse_tool_calls output <> []).
  { intros messages w w' output H. inversion H; subst. vm_compute. discriminate. }
  exact (proj1 (run_graph_has_no_budget
                  Script.World Script.SearchTool Script.ZhihuHotTool
                  (Script.constant_llm (Script.flat_reply "search" (Script.quoted "x")))
                  Hall)
           1000 generate_response (initial_state Script.weather_request) []).
Defined.

(** ** Further properties of the loop *)

Lemma later_same {A : Type} (a : option A) : AgentState.later a a = a.
Proof. destruct a; reflexivity. Qed.

Section Run.

Context {World : Type}.
Variable SearchTool ZhihuHotTool : BaseTool World.
Variable llm_invoke : list message -> M World string.

Local Abbreviation generate := (_generate_response llm_invoke).
Local Abbreviation dispatch := (_process_tool_calls SearchTool ZhihuHotTool).
Local Abbreviation batch := (process_calls SearchTool ZhihuHotTool).
Local Abbreviation graph := (run_graph SearchTool ZhihuHotTool llm_invoke).

(** The state a generation step returns. *)
Lemma generate_response_state (state out : AgentState.t) (w w' : World) :
  generate state w = (inr out, w') ->
  exists question output,
    AgentState.question state = Some question /\
    llm_invoke (prompt_messages question state) w = (inr output, w') /\
    out = AgentState.mk (Some question) (AgentState.chat_history state)
            (Some (prompt_messages question state))
            (Some (_parse_tool_calls output)) (AgentState.tool_results state) /\
    AgentState.update state out = out.
Proof.
  intros Hg.
  destruct (generate_response_outcome llm_invoke _ _ _ _ Hg) as (q & output & Hq & Hl & _).
  exists q, output. split; [exact Hq|]. split; [exact Hl|].
  rewrite (generate_response_returns llm_invoke state q output w w' Hq Hl) in Hg.
  inversion Hg; subst. split; [reflexivity|].
  unfold AgentState.update. simpl. rewrite !later_same. reflexivity.
Qed.

(** The state a dispatch step returns. *)
Lemma process_tool_calls_state (state out : AgentState.t) (w w' : World) :
  dispatch state w = (inr out, w') ->
  exists rs,
    batch [] (default [] (AgentState.tool_calls state)) w = (inr rs, w') /\
    out = AgentState.mk (AgentState.question state) (AgentState.chat_history state)
            (AgentState.messages state) (AgentState.tool_calls state)
            (match AgentState.tool_results state with
             | Some earlier => Some earlier
             | None => Some rs
             end) /\
    AgentState.update state out = out.
Proof.
  intros Hd.
  destruct (batch [] (default [] (AgentState.tool_calls state)) w) as [[e|rs] w1] eqn:Hb.
  - rewrite (process_tool_calls_raises SearchTool ZhihuHotTool state e w w1 Hb) in Hd.
    discriminate.
  - rewrite (process_tool_calls_returns SearchTool ZhihuHotTool state rs w w1 Hb) in Hd.
    inversion Hd; subst. exists rs. split; [reflexivity|]. split; [reflexivity|].
    unfold AgentState.update. simpl. rewrite !later_same.
    destruct (AgentState.tool_results state); reflexivity.
Qed.

Lemma run_graph_dispatch (k : nat) (state : AgentState.t) (w : World) :
  graph (S k) process_tool_calls state w =
  match dispatch state w with
  | (inr out, w') => graph k generate_response (AgentState.update state out) w'
  | (inl e, w') => (inl e, w')
  end.
Proof. reflexivity. Qed.

Lemma run_graph_ends (limit : nat) :
  forall (at_node : node) (state final : AgentState.t) (w w' : World),
    graph limit at_node state w = (inr final, w') -> run_ends_in state final.
Proof.
  induction limit as [|k IH]; intros at_node state final w w' Hrun; [discriminate|].
  destruct at_node.
  - destruct (generate state w) as [[e|out] w1] eqn:Hg.
    + cbn [run_graph] in Hrun. unfold bind at 1 in Hrun. rewrite Hg in Hrun. discriminate.
    + destruct (generate_response_state _ _ _ _ Hg) as (q & output & Hq & Hl & Hout & Hup).
      destruct (run_graph_generate SearchTool ZhihuHotTool llm_invoke k _ _ _ _ Hg)
        as [[_ Hnext]|[Hc Hend]].
      * rewrite Hnext, Hup in Hrun. apply IH in Hrun.
        destruct Hrun as (H1 & H2 & H3 & H4 & H5). subst out. simpl in *.
        repeat split; auto; try congruence.
      * rewrite Hend, Hup in Hrun. destruct k; [discriminate|].
        inversion Hrun; subst final w'. clear Hrun.
        rewrite Hup in Hc. subst out. simpl in *.
        repeat split; auto. exists q. split; reflexivity.
  - rewrite run_graph_dispatch in Hrun.
    destruct (dispatch state w) as [[e|out] w1] eqn:Hd; [discriminate|].
    destruct (process_tool_calls_state _ _ _ _ Hd) as (rs & Hb & Hout & Hup).
    rewrite Hup in Hrun. apply IH in Hrun.
    destruct Hrun as (H1 & H2 & H3 & H4 & H5). subst out. simpl in *.
    repeat split; auto.
    intros rs' Hrs. apply H4. rewrite Hrs. reflexivity.
Qed.

Lemma run_graph_generate_raises (k : nat) (state : AgentState.t) (e : exn) (w w' : World) :
  generate state w = (inl e, w') ->
  graph (S k) generate_response state w = (inl e, w').
Proof.
  intros Hg. cbn [run_graph]. unfold bind at 1. rewrite Hg. reflexivity.
Qed.

(** A run entered at the dispatcher with no results in the state ends
    with the results of the batch that is dispatched first. *)
Lemma run_graph_first_batch (limit : nat) (state final : AgentState.t) (w w' : World) :
  graph limit process_tool_calls state w = (inr final, w') ->
  AgentState.tool_results state = None ->
  exists rs w1,
    batch [] (default [] (AgentState.tool_calls state)) w = (inr rs, w1)
    /\ AgentState.tool_results final = Some rs.
Proof.
  destruct limit as [|k]; [discriminate|].
  rewrite run_graph_dispatch. intros Hrun Hnone.
  destruct (dispatch state w) as [[e|out] w1] eqn:Hd; [discriminate|].
  destruct (process_tool_calls_state _ _ _ _ Hd) as (rs & Hb & Hout & Hup).
  rewrite Hup in Hrun. apply run_graph_ends in Hrun.
  destruct Hrun as (_ & _ & _ & Hkeep & _).
  exists rs, w1. split; [exact Hb|].
  apply Hkeep. subst out. cbn [AgentState.tool_results]. rewrite Hnone. reflexivity.
Qed.

End Run.

Lemma chat_response (World : Type) (SearchTool ZhihuHotTool : BaseTool World)
    (llm_invoke : list message -> M World string)
    (request : QuestionRequest.t) (r : AgentResponse.t) (w w' : World) :
  chat SearchTool ZhihuHotTool llm_invoke request w = (Response r, w') ->
  exists final,
    run_graph SearchTool ZhihuHotTool llm_invoke default_recursion_limit
      generate_response (initial_state request) w = (inr final, w')
    /\ r = respond final.
Proof.
  unfold chat, ainvoke.
  destruct (run_graph _ _ _ _ _ _ w) as [[e|final] w1]; intros H; inversion H; subst.
  exists final. split; reflexivity.
Qed.

Lemma current_prompt_not_empty (question : string) (rs : list tool_result) :
  or_fallback (Some (current_prompt question rs)) = current_prompt question rs.
Proof. reflexivity. Qed.

(** X1.  A response of [chat] never lists a tool call: the run ends only
    in a state whose pending calls are empty, and that is the list the
    response is given. *)
Theorem chat_response_has_no_tool_calls
    (World : Type) (SearchTool ZhihuHotTool : BaseTool World)
    (llm_invoke : list message -> M World string)
    (request : QuestionRequest.t) (r : AgentResponse.t) (w w' : World) :
  chat SearchTool ZhihuHotTool llm_invoke request w = (Response r, w') ->
  AgentResponse.tool_calls r = [].
Proof.
  intros H. apply chat_response in H. destruct H as (final & Hrun & ->).
  apply run_graph_ends in Hrun. destruct Hrun as (Hc & _). exact Hc.
Qed.

Lemma chat_response_has_no_tool_calls_witness :
  chat Script.SearchTool Script.ZhihuHotTool Script.llm_invoke
    Script.weather_request Script.two_requests
  = (Response
       (AgentResponse.mk (current_prompt "weather today" [Script.search_failure])
          [] [Script.search_failure]), [])
  /\ AgentResponse.tool_calls
       (AgentResponse.mk (current_prompt "weather today" [Script.search_failure])
          [] [Script.search_failure]) = [].
Proof.
  assert (H : chat Script.SearchTool Script.ZhihuHotTool Script.llm_invoke
                Script.weather_request Script.two_requests
              = (Response
                   (AgentResponse.mk (current_prompt "weather today" [Script.search_failure])
                      [] [Script.search_failure]), [])).
  { vm_compute. reflexivity. }
  split; [exact H|].
  exact (chat_response_has_no_tool_calls _ _ _ _ _ _ _ _ H).
Defined.

(** X2.  The answer of a response is read off the question and the tool
    results of that response alone: it is the final answer cut out of
    the prompt built from them, and the whole prompt when the prompt
    holds no answer marker.  The replies of the model decide which tools
    run, never the text of the answer. *)
Theorem chat_answer_from_question_and_results
    (World : Type) (SearchTool ZhihuHotTool : BaseTool World)
    (llm_invoke : list message -> M World string)
    (request : QuestionRequest.t) (r : AgentResponse.t) (w w' : World) :
  chat SearchTool ZhihuHotTool llm_invoke request w = (Response r, w') ->
  AgentResponse.answer r
  = or_fallback
      (Some (final_answer
               (current_prompt (QuestionRequest.question request)
                  (AgentResponse.tool_results r))))
  /\ (PyStr.contains "回答：" (current_prompt (QuestionRequest.question request)
                                  (AgentResponse.tool_results r)) = false ->
      AgentResponse.answer r
      = current_prompt (QuestionRequest.question request) (AgentResponse.tool_results r)).
Proof.
  intros H. apply chat_response in H. destruct H as (final & Hrun & ->).
  apply run_graph_ends in Hrun.
  destruct Hrun as (_ & Hq & _ & _ & (q & Hfq & Hm)).
  rewrite Hfq in Hq. simpl in Hq. inversion Hq; subst q. clear Hq.
  assert (Ha : AgentResponse.answer (respond final)
               = or_fallback
                   (Some (final_answer
                            (current_prompt (QuestionRequest.question request)
                               (default [] (AgentState.tool_results final)))))).
  { unfold respond, extract_output. simpl AgentResponse.answer.
    rewrite Hm. simpl default. unfold prompt_messages.
    rewrite last_map_Some_snoc. reflexivity. }
  split; [exact Ha|].
  intros Hno. rewrite Ha. unfold final_answer.
  simpl AgentResponse.tool_results in Hno. rewrite Hno.
  apply current_prompt_not_empty.
Qed.

Lemma chat_answer_from_question_and_results_witness :
  AgentResponse.answer
    (AgentResponse.mk (current_prompt "weather today" [Script.search_failure])
       [] [Script.search_failure])
  = or_fallback
      (Some (final_answer (current_prompt "weather today" [Script.search_failure]))).
Proof.
  assert (H : chat Script.SearchTool Script.ZhihuHotTool Script.llm_invoke
                Script.weather_request Script.two_requests
              = (Response
                   (AgentResponse.mk (current_prompt "weather today" [Script.search_failure])
                      [] [Script.search_failure]), [])).
  { vm_compute. reflexivity. }
  exact (proj1 (chat_answer_from_question_and_results _ _ _ _ _ _ _ _ H)).
Defined.

(** X3.  Through a whole run, whatever the number of generation and
    dispatch steps, the question and the chat history stay as they were
    and results that the state holds are never replaced.  So the results
    at the end are those of the first batch that was dispatched: a run
    entered at the dispatcher without results ends with the results of
    that batch, and the tool results of a response of [chat] are the
    results of the calls of the first reply of the model, none when that
    reply held no call.  What the calls of later replies gave is not in
    the response. *)
Theorem run_graph_keeps_question_and_results
    (World : Type) (SearchTool ZhihuHotTool : BaseTool World)
    (llm_invoke : list message -> M World string) :
  (forall (limit : nat) (at_node : node) (state final : AgentState.t) (w w' : World),
      run_graph SearchTool ZhihuHotTool llm_invoke limit at_node state w
      = (inr final, w') ->
      AgentState.question final = AgentState.question state
      /\ AgentState.chat_history final = AgentState.chat_history state
      /\ (forall rs, AgentState.tool_results state = Some rs ->
                     AgentState.tool_results final = Some rs))
  /\
  (forall (limit : nat) (state final : AgentState.t) (w w' : World),
      run_graph SearchTool ZhihuHotTool llm_invoke limit process_tool_calls state w
      = (inr final, w') ->
      AgentState.tool_results state = None ->
      exists (rs : list tool_result) (w1 : World),
        process_calls SearchTool ZhihuHotTool []
          (default [] (AgentState.tool_calls state)) w = (inr rs, w1)
        /\ AgentState.tool_results final = Some rs)
  /\
  (forall (request : QuestionRequest.t) (r : AgentResponse.t) (w w' : World),
      chat SearchTool ZhihuHotTool llm_invoke request w = (Response r, w') ->
      exists (output : string) (w1 : World),
        llm_invoke (prompt_messages (QuestionRequest.question request)
                      (initial_state request)) w = (inr output, w1)
        /\ ((_parse_tool_calls output = [] /\
             AgentResponse.tool_results r = [] /\ w' = w1)
            \/
            (_parse_tool_calls output <> [] /\
             exists w2 : World,
               process_calls SearchTool ZhihuHotTool [] (_parse_tool_calls output) w1
               = (inr (AgentResponse.tool_results r), w2)))).
Proof.
  split; [|split].
  - intros limit at_node state final w w' Hrun. apply run_graph_ends in Hrun.
    destruct Hrun as (_ & Hq & Hh & Hr & _). auto.
  - intros limit state final w w'.
    apply (run_graph_first_batch SearchTool ZhihuHotTool llm_invoke).
  - intros request r w w' H. apply chat_response in H.
    destruct H as (final & Hrun & ->). unfold default_recursion_limit in Hrun.
    destruct (_generate_response llm_invoke (initial_state request) w)
      as [[e|out] w1] eqn:Hg.
    + rewrite (run_graph_generate_raises SearchTool ZhihuHotTool llm_invoke 24 _ e w w1 Hg)
        in Hrun. discriminate.
    + destruct (generate_response_state llm_invoke _ _ _ _ Hg)
        as (q & output & Hq & Hl & Hout & Hup).
      cbn [initial_state AgentState.question] in Hq. inversion Hq; subst q. clear Hq.
      exists output, w1. split; [exact Hl|].
      destruct (run_graph_generate SearchTool ZhihuHotTool llm_invoke 24 _ _ _ _ Hg)
        as [[Hc Hnext]|[Hc Hend]]; rewrite Hup in *.
      * right. rewrite Hnext in Hrun.
        apply (run_graph_first_batch SearchTool ZhihuHotTool llm_invoke) in Hrun;
          [|subst out; reflexivity].
        destruct Hrun as (rs & w2 & Hb & Hr).
        subst out. cbn [AgentState.tool_calls default from_option id] in Hb, Hc.
        split; [exact Hc|]. exists w2.
        unfold respond. cbn [AgentResponse.tool_results]. rewrite Hr. exact Hb.
      * left. rewrite Hend in Hrun. inversion Hrun; subst final w'. clear Hrun.
        subst out. cbn [AgentState.tool_calls default from_option id] in Hc.
        split; [exact Hc|]. split; reflexivity.
Qed.

Lemma run_graph_keeps_question_and_results_witness :
  exists w2 : Script.World,
    process_calls Script.SearchTool Script.ZhihuHotTool []
      (_parse_tool_calls (Script.flat_reply "search" (Script.quoted "x")))
      [Script.flat_reply "zhihu_hot" "1"; "回答：done"]
    = (inr (AgentResponse.tool_results
              (AgentResponse.mk (current_prompt "weather today" [Script.search_failure])
                 [] [Script.search_failure])), w2).
Proof.
  destruct (proj2 (proj2 (run_graph_keeps_question_and_results
                            Script.World Script.SearchTool Script.ZhihuHotTool
                            Script.llm_invoke))
              Script.weather_request
              (AgentResponse.mk (current_prompt "weather today" [Script.search_failure])
                 [] [Script.search_failure])
              Script.two_requests []
              ltac:(vm_compute; reflexivity))
    as (output & w1 & Hl & [(_ & Hr & _)|(_ & w2 & Hb)]).
  - discriminate Hr.
  - inversion Hl; subst output w1. exists w2. exact Hb.
Defined.

(** X4.  An exception of the model at the first generation step ends the
    request: [chat] gives the status 500 with the text of the exception
    after a fixed prefix, no tool is run and no answer is built. *)
Theorem chat_model_error_is_fatal
    (World : Type) (SearchTool ZhihuHotTool : BaseTool World)
    (llm_invoke : list message -> M World string)
    (request : QuestionRequest.t) (e : exn) (w w' : World) :
  llm_invoke (prompt_messages (QuestionRequest.question request) (initial_state request)) w
  = (inl e, w') ->
  chat SearchTool ZhihuHotTool llm_invoke request w
  = (HTTPException 500 ("处理请求时出错: " +:+ str_of e), w').
Proof.
  intros Hl. unfold chat, ainvoke, default_recursion_limit.
  rewrite (run_graph_generate_raises SearchTool ZhihuHotTool llm_invoke 24
             (initial_state request) e w w').
  - reflexivity.
  - unfold _generate_response. cbn [initial_state AgentState.question].
    unfold bind. rewrite Hl. reflexivity.
Qed.

Lemma chat_model_error_is_fatal_witness :
  chat Script.SearchTool Script.ZhihuHotTool Script.llm_invoke Script.weather_request []
  = (HTTPException 500 "处理请求时出错: Connection error.", []).
Proof.
  apply (chat_model_error_is_fatal Script.World Script.SearchTool Script.ZhihuHotTool
           Script.llm_invoke Script.weather_request (Exception "Connection error.") [] []).
  reflexivity.
Defined.

(** ** Further properties of the dispatcher *)

Section Batches.

Context {World : Type}.
Variable SearchTool ZhihuHotTool : BaseTool World.

Local Abbreviation one_call := (process_call SearchTool ZhihuHotTool).
Local Abbreviation batch := (process_calls SearchTool ZhihuHotTool).

(** A batch is dispatched piece by piece: the calls of the second piece
    run in the world the first piece left, after its results; when the
    first piece raises, the second is not run. *)
Lemma process_calls_app (xs ys : list dict) (acc : list tool_result) (w : World) :
  batch acc (xs ++ ys)%list w =
  match batch acc xs w with
  | (inr rs, w') => batch rs ys w'
  | (inl e, w') => (inl e, w')
  end.
Proof.
  revert acc w. induction xs as [|call rest IH]; intros acc w; [reflexivity|].
  change ((call :: rest) ++ ys)%list with (call :: (rest ++ ys))%list.
  cbn [process_calls]. unfold bind.
  destruct (one_call acc call w) as [[e|rs] w1]; [reflexivity|].
  apply IH.
Qed.

Lemma process_call_unhashable (acc : list tool_result) (call : dict) (w : World) :
  hashable_name call = false ->
  exists e, one_call acc call w = (inl e, w).
Proof.
  unfold hashable_name, process_call, TOOLS_get. intros H.
  destruct (Dict.get "name" call) as [[| | | | | |]|]; try discriminate;
    eexists; reflexivity.
Qed.

End Batches.

(** X6.  A call whose name is a list or a dict cannot be looked up: the
    lookup raises outside the handler of the loop, so the batch raises
    there.  The results of the calls before it are lost, the calls after
    it are not dispatched, the dispatch node raises, and the run of the
    graph raises with it. *)
Theorem process_calls_unhashable_name_aborts
    (World : Type) (SearchTool ZhihuHotTool : BaseTool World)
    (llm_invoke : list message -> M World string)
    (before after : list dict) (call : dict)
    (rs : list tool_result) (w w' : World) :
  hashable_name call = false ->
  process_calls SearchTool ZhihuHotTool [] before w = (inr rs, w') ->
  exists e : exn,
    process_calls SearchTool ZhihuHotTool [] (before ++ call :: after)%list w = (inl e, w')
    /\ (forall state : AgentState.t,
           AgentState.tool_calls state = Some (before ++ call :: after)%list ->
           _process_tool_calls SearchTool ZhihuHotTool state w = (inl e, w')
           /\ forall k : nat,
               run_graph SearchTool ZhihuHotTool llm_invoke (S k)
                 process_tool_calls state w = (inl e, w')).
Proof.
  intros Hh Hb.
  destruct (process_call_unhashable SearchTool ZhihuHotTool rs call w' Hh) as [e He].
  exists e.
  assert (Hall : process_calls SearchTool ZhihuHotTool [] (before ++ call :: after)%list w
                 = (inl e, w')).
  { rewrite process_calls_app, Hb. cbn [process_calls]. unfold bind. rewrite He.
    reflexivity. }
  split; [exact Hall|].
  intros state Hc.
  assert (Hd : _process_tool_calls SearchTool ZhihuHotTool state w = (inl e, w')).
  { apply process_tool_calls_raises. rewrite Hc. exact Hall. }
  split; [exact Hd|].
  intros k. rewrite run_graph_dispatch, Hd. reflexivity.
Qed.

Lemma process_calls_unhashable_name_aborts_witness :
  exists e : exn,
    process_calls Script.SearchTool Script.ZhihuHotTool []
      ([Script.search_call] ++ [("name", JArr []); ("input", JInt 1)] :: [Script.zhihu_call])%list
      []
    = (inl e, []).
Proof.
  destruct (process_calls_unhashable_name_aborts
              Script.World Script.SearchTool Script.ZhihuHotTool Script.llm_invoke
              [Script.search_call] [Script.zhihu_call]
              [("name", JArr []); ("input", JInt 1)]
              [Script.search_failure] [] [] eq_refl eq_refl) as (e & He & _).
  exists e. exact He.
Defined.

(** X8.  A call that the extractor returned never has its input checked
    against the input model of the tool: its input is not a mapping, so
    [run] hands it to the logic of the tool as it is, and the result of
    the call is what that logic gives for the raw value. *)
Theorem extracted_call_skips_validation
    (World : Type) (SearchTool ZhihuHotTool : BaseTool World)
    (output : string) (call : dict) (s : string) (tool : BaseTool World)
    (acc : list tool_result) (w : World) :
  In call (_parse_tool_calls output) ->
  call_name call = Some s ->
  TOOLS SearchTool ZhihuHotTool !! s = Some tool ->
  exists input : json,
    Dict.get "input" call = Some input
    /\ is_object input = false
    /\ run tool input w = _run tool input w
    /\ process_call SearchTool ZhihuHotTool acc call w =
       match _run tool input w with
       | (inr result, w') => (inr (acc ++ [ToolOutput s result])%list, w')
       | (inl e, w') => (inr (acc ++ [ToolError s (str_of e)])%list, w')
       end.
Proof.
  intros Hin Hn Ht.
  pose proof (parse_tool_calls_In output call Hin) as (_ & _ & _ & _ & Hi).
  unfold Dict.mem in Hi.
  destruct (Dict.get "input" call) as [input|] eqn:Hget; [|discriminate].
  exists input. split; [reflexivity|].
  assert (Hflat : is_object input = false).
  { pose proof (parse_tool_calls_values_flat output call Hin) as Hf.
    destruct (dict_get_In _ _ _ Hget) as [k Hk].
    rewrite List.Forall_forall in Hf. exact (Hf (k, input) Hk). }
  split; [exact Hflat|].
  assert (Hrun : run tool input w = _run tool input w).
  { destruct input; try reflexivity. discriminate. }
  split; [exact Hrun|].
  rewrite (process_call_found SearchTool ZhihuHotTool acc call s tool w Hn Ht).
  rewrite Hget. simpl default. rewrite Hrun. reflexivity.
Qed.

Lemma extracted_call_skips_validation_witness :
  exists input : json,
    Dict.get "input" Script.search_call = Some input
    /\ is_object input = false
    /\ run Script.SearchTool input [] = _run Script.SearchTool input [].
Proof.
  destruct (extracted_call_skips_validation
              Script.World Script.SearchTool Script.ZhihuHotTool
              (Script.flat_reply "search" (Script.quoted "x")) Script.search_call
              "search" Script.SearchTool [] [])
    as (input & Hg & Hf & Hr & _).
  - vm_compute. left. reflexivity.
  - reflexivity.
  - vm_compute. reflexivity.
  - exists input. split; [exact Hg|]. split; [exact Hf | exact Hr].
Defined.

(** ** The messages sent to the model *)

Lemma history_messages_app (a b : list (list (string * string))) :
  history_messages (a ++ b)%list = (history_messages a ++ history_messages b)%list.
Proof.
  induction a as [|msg rest IH]; [reflexivity|].
  change ((msg :: rest) ++ b)%list with (msg :: (rest ++ b))%list.
  cbn [history_messages]. rewrite IH.
  destruct (Dict.get "role" msg) as [r|]; [|reflexivity].
  destruct (String.eqb r "user"); [reflexivity|].
  destruct (String.eqb r "assistant"); reflexivity.
Qed.

Lemma history_messages_length (h : list (list (string * string))) :
  List.length (history_messages h) <= List.length h.
Proof.
  induction h as [|msg rest IH]; [simpl; lia|].
  cbn [history_messages].
  destruct (Dict.get "role" msg) as [r|]; [|simpl; lia].
  destruct (String.eqb r "user"); [simpl; lia|].
  destruct (String.eqb r "assistant"); simpl; lia.
Qed.

(** X9.  The messages sent to the model are the entries of the chat
    history whose role is [user] or [assistant], in their order, followed
    by one human message with the prompt.  An entry with another role or
    with none is left out, wherever it stands; an entry without content
    is sent with an empty content. *)
Theorem prompt_messages_from_history
    (question : string) (state : AgentState.t)
    (before after : list (list (string * string))) (entry : list (string * string)) :
  AgentState.chat_history state = Some (before ++ entry :: after)%list ->
  let last_message :=
    HumanMessage (current_prompt question (default [] (AgentState.tool_results state))) in
  (Dict.get "role" entry = Some "user" ->
   prompt_messages question state
   = (history_messages before
        ++ HumanMessage (default EmptyString (Dict.get "content" entry))
        :: history_messages after ++ [last_message])%list)
  /\ (Dict.get "role" entry = Some "assistant" ->
      prompt_messages question state
      = (history_messages before
           ++ AIMessage (default EmptyString (Dict.get "content" entry))
           :: history_messages after ++ [last_message])%list)
  /\ (Dict.get "role" entry <> Some "user" ->
      Dict.get "role" entry <> Some "assistant" ->
      prompt_messages question state
      = (history_messages before ++ history_messages after ++ [last_message])%list)
  /\ List.length (prompt_messages question state)
     <= S (List.length (before ++ entry :: after)%list).
Proof.
  intros Hh last_message.
  assert (Hlen : List.length (prompt_messages question state)
                 <= S (List.length (before ++ entry :: after)%list)).
  { unfold prompt_messages. rewrite Hh. simpl default. rewrite length_app. simpl.
    pose proof (history_messages_length (before ++ entry :: after)%list). lia. }
  split; [|split; [|split; [|exact Hlen]]];
    unfold prompt_messages; rewrite Hh; simpl default;
    rewrite history_messages_app; cbn [history_messages].
  - intros Hr. rewrite Hr. simpl. rewrite <- app_assoc. reflexivity.
  - intros Hr. rewrite Hr. simpl. rewrite <- app_assoc. reflexivity.
  - intros Hu Ha.
    destruct (Dict.get "role" entry) as [r|]; [|rewrite <- app_assoc; reflexivity].
    destruct (String.eqb_spec r "user") as [->|_]; [congruence|].
    destruct (String.eqb_spec r "assistant") as [->|_]; [congruence|].
    rewrite <- app_assoc. reflexivity.
Qed.

Lemma prompt_messages_from_history_witness :
  prompt_messages "weather today"
    (AgentState.mk (Some "weather today")
       (Some [[("role", "user"); ("content", "hi")];
              [("role", "system"); ("content", "be brief")];
              [("role", "assistant")]])
       None None None)
  = [HumanMessage "hi"; AIMessage EmptyString;
     HumanMessage (current_prompt "weather today" [])].
Proof.
  apply (proj1 (proj2 (proj2
           (prompt_messages_from_history "weather today"
              (AgentState.mk (Some "weather today")
                 (Some [[("role", "user"); ("content", "hi")];
                        [("role", "system"); ("content", "be brief")];
                        [("role", "assistant")]])
                 None None None)
              [[("role", "user"); ("content", "hi")]] [[("role", "assistant")]]
              [("role", "system"); ("content", "be brief")] eq_refl))));
    discriminate.
Defined.

(** ** Further properties of the extractor *)

Lemma re_findall_cons (c : ascii) (rest : string) :
  re_findall (String c rest) =
  match match_here (String c rest) with
  | Some (m, rest') => m :: re_findall rest'
  | None => re_findall rest
  end.
Proof.
  unfold re_findall. cbn [String.length findall_from].
  destruct (match_here (String c rest)) as [[m rest']|] eqn:Hm; [|reflexivity].
  apply match_here_shorter in Hm. simpl in Hm.
  f_equal. apply findall_from_enough; lia.
Qed.

Lemma span_not_brace_app_stop (a b run tl : string) (d : ascii) :
  span_not_brace a = (run, String d tl) ->
  span_not_brace (a +:+ b) = (run, String d (tl +:+ b)).
Proof.
  revert run. induction a as [|c a IH]; intros run H; [discriminate|].
  change (String c a +:+ b) with (String c (a +:+ b)).
  cbn [span_not_brace] in *. destruct (is_brace c).
  - inversion H; subst. reflexivity.
  - destruct (span_not_brace a) as [run' tl'] eqn:Ha.
    inversion H; subst. rewrite (IH run' eq_refl). reflexivity.
Qed.

Lemma span_not_brace_app_end (a b run : string) :
  span_not_brace a = (run, EmptyString) ->
  span_not_brace (a +:+ b)
  = (a +:+ fst (span_not_brace b), snd (span_not_brace b)).
Proof.
  revert run. induction a as [|c a IH]; intros run H.
  - change (EmptyString +:+ b) with b.
    change (EmptyString +:+ fst (span_not_brace b)) with (fst (span_not_brace b)).
    destruct (span_not_brace b); reflexivity.
  - change (String c a +:+ b) with (String c (a +:+ b)).
    cbn [span_not_brace] in *. destruct (is_brace c); [discriminate|].
    destruct (span_not_brace a) as [run' tl'] eqn:Ha.
    inversion H; subst. rewrite (IH run' eq_refl). reflexivity.
Qed.

Lemma span_not_brace_flat (body post : string) :
  (forall c, In c (list_ascii_of_string body) -> is_brace c = false) ->
  span_not_brace (body +:+ String "}" post) = (body, String "}" post).
Proof.
  induction body as [|c body IH]; intros H; [reflexivity|].
  change (String c body +:+ String "}" post) with (String c (body +:+ String "}" post)).
  cbn [span_not_brace]. rewrite (H c (or_introl eq_refl)).
  rewrite IH by (intros c' Hc'; apply H; right; exact Hc'). reflexivity.
Qed.

Lemma match_here_flat (body post : string) :
  (forall c, In c (list_ascii_of_string body) -> is_brace c = false) ->
  match_here (String "{" (body +:+ String "}" post))
  = Some ("{" +:+ body +:+ "}", post).
Proof.
  intros H. unfold match_here. change (Ascii.eqb "{" "{") with true. cbv iota.
  rewrite (span_not_brace_flat body post H).
  change (Ascii.eqb "}" "}") with true. reflexivity.
Qed.

(** An attempt of the pattern in front of a text that starts with an
    opening brace gives what it gives without that text. *)
Lemma match_here_before_open (a b : string) :
  match_here (a +:+ String "{" b) =
  match a with
  | EmptyString => match_here (String "{" b)
  | String _ _ =>
      match match_here a with
      | Some (m, rest) => Some (m, rest +:+ String "{" b)
      | None => None
      end
  end.
Proof.
  destruct a as [|c a]; [reflexivity|].
  change (String c a +:+ String "{" b) with (String c (a +:+ String "{" b)).
  unfold match_here. destruct (Ascii.eqb c "{"); [|reflexivity].
  destruct (span_not_brace a) as [run tl] eqn:Ha. destruct tl as [|d tl].
  - rewrite (span_not_brace_app_end a (String "{" b) run Ha).
    cbn [span_not_brace is_brace]. change (Ascii.eqb "{" "{") with true.
    cbn [orb fst snd]. change (Ascii.eqb "{" "}") with false. reflexivity.
  - rewrite (span_not_brace_app_stop a (String "{" b) run tl d Ha).
    destruct (Ascii.eqb d "}"); reflexivity.
Qed.

(** A flat object is found whatever stands before and after it. *)
Lemma re_findall_around (n : nat) :
  forall (before body after : string),
    String.length before <= n ->
    (forall c, In c (list_ascii_of_string body) -> is_brace c = false) ->
    re_findall (before +:+ String "{" (body +:+ String "}" after))
    = (re_findall before ++ ("{" +:+ body +:+ "}") :: re_findall after)%list.
Proof.
  induction n as [|n IH]; intros before body after Hn Hb.
  - destruct before; [|simpl in Hn; lia].
    change (EmptyString +:+ String "{" (body +:+ String "}" after))
      with (String "{" (body +:+ String "}" after)).
    rewrite re_findall_cons, (match_here_flat body after Hb). reflexivity.
  - destruct before as [|c before].
    + change (EmptyString +:+ String "{" (body +:+ String "}" after))
        with (String "{" (body +:+ String "}" after)).
      rewrite re_findall_cons, (match_here_flat body after Hb). reflexivity.
    + pose proof (match_here_before_open (String c before)
                    (body +:+ String "}" after)) as Hm.
      cbv iota in Hm.
      change (String c before +:+ String "{" (body +:+ String "}" after))
        with (String c (before +:+ String "{" (body +:+ String "}" after))) in *.
      rewrite !re_findall_cons, Hm. simpl in Hn.
      destruct (match_here (String c before)) as [[m rest]|] eqn:Hc.
      * apply match_here_shorter in Hc. simpl in Hc.
        rewrite (IH rest body after) by (auto; lia). reflexivity.
      * apply IH; [lia | exact Hb].
Qed.



(** A candidate with an integer that is too long ends the loop: what
    follows it is not looked at. *)
Lemma keep_calls_stop (ps qs : list string) (p : string) (acc : list dict) :
  Json.decode p = Json.Stop Json.IntTooLong ->
  keep_calls acc (ps ++ p :: qs)%list = keep_calls acc ps.
Proof.
  intros Hp. revert acc. induction ps as [|p' ps IH]; intros acc.
  - cbn [app keep_calls]. rewrite Hp. reflexivity.
  - change ((p' :: ps) ++ p :: qs)%list with (p' :: (ps ++ p :: qs))%list.
    cbn [keep_calls].
    destruct (Json.decode p') as [[| | | | | |d]|[|]]; try (apply IH); [|reflexivity].
    destruct (Dict.mem "name" d && Dict.mem "input" d); apply IH.
Qed.

Lemma split_from_not_nil (sep : string) (skip : nat) (cur s : string) :
  PyStr.split_from sep skip cur s <> [].
Proof.
  revert skip cur.
  induction s as [|c s IH]; intros skip cur; cbn [PyStr.split_from]; [discriminate|].
  destruct skip; [|apply IH].
  destruct (String.prefix sep (String c s)); [discriminate | apply IH].
Qed.

(** Where the separator occurs, [split] gives at least two pieces. *)
Lemma split_contains (sep s : string) :
  sep <> EmptyString ->
  PyStr.contains sep s = true ->
  1 < List.length (PyStr.split sep s).
Proof.
  intros Hsep. unfold PyStr.split. generalize EmptyString as cur.
  induction s as [|c s IH]; intros cur H.
  - destruct sep; [congruence | cbv in H; discriminate].
  - cbn [PyStr.contains] in H. cbn [PyStr.split_from].
    destruct (String.prefix sep (String c s)) eqn:Hp.
    + simpl. pose proof (split_from_not_nil sep (String.length sep - 1) EmptyString s) as Hne.
      destruct (PyStr.split_from sep (String.length sep - 1) EmptyString s);
        [congruence | simpl; lia].
    + simpl in H. apply IH. exact H.
Qed.

(** X10.  The pattern finds a brace-delimited span that has no brace
    inside wherever it stands: the matches of a text around such a span
    are the matches of what is before it, the span, and the matches of
    what is after it.  An unclosed brace or a malformed object next to
    it changes nothing. *)
Theorem re_findall_finds_flat_object (before body after : string) :
  (forall c, In c (list_ascii_of_string body) -> is_brace c = false) ->
  re_findall (before +:+ "{" +:+ body +:+ "}" +:+ after)
  = (re_findall before ++ ("{" +:+ body +:+ "}") :: re_findall after)%list.
Proof.
  intros Hb.
  exact (re_findall_around (String.length before) before body after (le_n _) Hb).
Qed.

Lemma re_findall_finds_flat_object_witness :
  re_findall ("see {a {" +:+ "{" +:+ "b: 1" +:+ "}" +:+ " } {c}")
  = (re_findall "see {a {" ++ ("{" +:+ "b: 1" +:+ "}") :: re_findall " } {c}")%list.
Proof.
  apply (re_findall_finds_flat_object "see {a {" "b: 1" " } {c}").
  intros c H. vm_compute in H.
  repeat (destruct H as [<-|H]; [reflexivity|]). destruct H.
Defined.



(** X22.  A candidate that holds an integer of more digits than the
    interpreter converts ends the extraction: the error it raises is not
    the one the loop passes over, so the function returns the calls
    found before that candidate, and the calls that stand after it in
    the reply are lost. *)
Theorem parse_tool_calls_long_integer_stops
    (output before body after : string) :
  PyStr.contains "工具调用" output = true ->
  tool_part output = before +:+ "{" +:+ body +:+ "}" +:+ after ->
  (forall c, In c (list_ascii_of_string body) -> is_brace c = false) ->
  Json.decode ("{" +:+ body +:+ "}") = Json.Stop Json.IntTooLong ->
  _parse_tool_calls output = calls_in before.
Proof.
  intros Hc Htp Hb Hd.
  rewrite parse_tool_calls_unfold, Hc.
  assert (Hlen : Nat.ltb 1 (List.length (PyStr.split "工具调用" output)) = true).
  { apply Nat.ltb_lt. apply split_contains; [discriminate | exact Hc]. }
  rewrite Hlen.
  change (json_patterns output) with (re_findall (tool_part output)).
  rewrite Htp, (re_findall_finds_flat_object before body after Hb).
  apply keep_calls_stop. exact Hd.
Qed.

Lemma parse_tool_calls_long_integer_stops_witness :
  _parse_tool_calls
    ("工具调用 " +:+ Script.flat_call "search" (Script.quoted "x")
     +:+ " {" +:+ Script.quoted "n" +:+ ":" +:+ Script.long_integer +:+ "} "
     +:+ Script.flat_call "zhihu_hot" "1")
  = [Script.search_call].
Proof.
  change [Script.search_call]
    with (calls_in (" " +:+ Script.flat_call "search" (Script.quoted "x") +:+ " ")).
  apply (parse_tool_calls_long_integer_stops
           ("工具调用 " +:+ Script.flat_call "search" (Script.quoted "x")
            +:+ " {" +:+ Script.quoted "n" +:+ ":" +:+ Script.long_integer +:+ "} "
            +:+ Script.flat_call "zhihu_hot" "1")
           (" " +:+ Script.flat_call "search" (Script.quoted "x") +:+ " ")
           (Script.quoted "n" +:+ ":" +:+ Script.long_integer)
           (" " +:+ Script.flat_call "zhihu_hot" "1")).
  - vm_compute. reflexivity.
  - vm_compute. reflexivity.
  - intros c H.
    assert (Hall : forallb (fun c => negb (is_brace c))
                     (list_ascii_of_string
                        (Script.quoted "n" +:+ ":" +:+ Script.long_integer)) = true)
      by (vm_compute; reflexivity).
    rewrite List.forallb_forall in Hall. specialize (Hall c H).
    destruct (is_brace c); [discriminate | reflexivity].
  - vm_compute. reflexivity.
Defined.

(** ** The search tool *)

(** The loop reads the blocks up to the limit, whatever they give. *)
Lemma search_collect_take (n i : Z) (l : list Search.result_block)
    (results : list Search.SearchResultItem) :
  Search.collect n i l results
  = (results ++ omap Search.item_of (take (Z.to_nat (n - i)) l))%list.
Proof.
  revert i results.
  induction l as [|b l IH]; intros i results; cbn [Search.collect].
  - rewrite take_nil. cbn. rewrite app_nil_r. reflexivity.
  - rewrite Z.geb_leb. destruct (Z.leb_spec n i) as [Hle|Hlt].
    + replace (Z.to_nat (n - i)) with 0 by lia.
      cbn. rewrite app_nil_r. reflexivity.
    + replace (Z.to_nat (n - i)) with (S (Z.to_nat (n - (i + 1)))) by lia.
      cbn [take firstn omap list_omap].
      destruct (Search.item_of b); rewrite IH; [rewrite <- app_assoc|]; reflexivity.
Qed.

Lemma omap_length_le {A B : Type} (f : A -> option B) (l : list A) :
  List.length (omap f l) <= List.length l.
Proof.
  induction l as [|a l IH]; cbn; [lia|].
  destruct (f a); cbn; lia.
Qed.

(** X12.  On a page served with status 200 the search tool returns the
    items of the complete blocks among the first [num_results] blocks of
    the page, in order.  A block without title link or snippet gives no
    item and still counts towards the limit. *)
Theorem search_run_reads_first_blocks {World : Type}
    (client_get : string -> M World Search.response)
    (input_data : Search.SearchInput) (w w' : World) (response : Search.response) :
  client_get (Search.query input_data) w = (inr response, w') ->
  Search.status_code response = 200%Z ->
  Search._run client_get input_data w
  = (inr (omap Search.item_of
            (take (Z.to_nat (Search.num_results input_data)) (Search.b_algo response))),
     w').
Proof.
  intros Hget Hstatus.
  unfold Search._run, bind, ret. rewrite Hget, Hstatus. cbn [Z.eqb Pos.eqb].
  rewrite search_collect_take, Z.sub_0_r. reflexivity.
Qed.

Lemma search_run_reads_first_blocks_witness :
  Search._run (Sites.serve Sites.three_blocks)
    {| Search.query := "x"; Search.num_results := 2 |} tt
  = (inr [ {| Search.title := "a"; Search.link := "https://a.example";
              Search.snippet := "first" |} ], tt).
Proof.
  apply (search_run_reads_first_blocks (Sites.serve Sites.three_blocks)
           {| Search.query := "x"; Search.num_results := 2 |} tt tt Sites.three_blocks);
    reflexivity.
Defined.

(** X13.  Whatever the site answers, a run of the search tool that
    returns gives at most [num_results] items, and none when
    [num_results] is zero or negative. *)
Theorem search_run_at_most_num_results {World : Type}
    (client_get : string -> M World Search.response)
    (input_data : Search.SearchInput) (w w' : World)
    (results : Search.SearchOutput) :
  Search._run client_get input_data w = (inr results, w') ->
  List.length results <= Z.to_nat (Search.num_results input_data).
Proof.
  unfold Search._run, bind, ret.
  destruct (client_get (Search.query input_data) w) as [[e|response] w1];
    [discriminate|].
  intros H. injection H as <- _.
  destruct (Search.status_code response =? 200)%Z; [|cbn; lia].
  rewrite search_collect_take, Z.sub_0_r. cbn [app].
  etransitivity; [apply omap_length_le|].
  rewrite length_take. lia.
Qed.

Lemma search_run_at_most_num_results_witness :
  List.length
    [ {| Search.title := "a"; Search.link := "https://a.example";
         Search.snippet := "first" |} ]
  <= Z.to_nat 2.
Proof.
  apply (search_run_at_most_num_results (Sites.serve Sites.three_blocks)
           {| Search.query := "x"; Search.num_results := 2 |} tt tt).
  reflexivity.
Defined.

(** ** The hot-list tool *)

Lemma zhihu_collect_acc (build : json -> exn + Zhihu.ZhihuHotItem) (limit i : Z)
    (l : list json) (items : list Zhihu.ZhihuHotItem) :
  Zhihu.collect build limit i l items
  = ((items ++ fst (Zhihu.collect build limit i l []))%list,
     snd (Zhihu.collect build limit i l [])).
Proof.
  revert i items.
  induction l as [|a l IH]; intros i items; cbn [Zhihu.collect].
  - cbn. rewrite app_nil_r. reflexivity.
  - destruct (i >=? limit)%Z; [cbn; rewrite app_nil_r; reflexivity|].
    destruct (build a) as [e|x]; [cbn; rewrite app_nil_r; reflexivity|].
    rewrite (IH (i + 1)%Z (items ++ [x])%list), (IH (i + 1)%Z ([] ++ [x])%list).
    cbn [fst snd app]. rewrite <- app_assoc. reflexivity.
Qed.

Lemma zhihu_fill_acc (hot_items : exn + json) (build : json -> exn + Zhihu.ZhihuHotItem)
    (limit : Z) (items : list Zhihu.ZhihuHotItem) :
  Zhihu.fill hot_items build limit items
  = ((items ++ fst (Zhihu.fill hot_items build limit []))%list,
     snd (Zhihu.fill hot_items build limit [])).
Proof.
  unfold Zhihu.fill.
  destruct (Py.and_then hot_items Py.iter) as [e|entries].
  - cbn. rewrite app_nil_r. reflexivity.
  - apply zhihu_collect_acc.
Qed.

(** The loop appends at most as many items as the limit leaves room
    for, and fewer when it raises. *)
Lemma zhihu_collect_length (build : json -> exn + Zhihu.ZhihuHotItem) (limit i : Z)
    (l : list json) :
  List.length (fst (Zhihu.collect build limit i l [])) <= Z.to_nat (limit - i)
  /\ (snd (Zhihu.collect build limit i l []) <> None ->
      List.length (fst (Zhihu.collect build limit i l [])) < Z.to_nat (limit - i)).
Proof.
  revert i.
  induction l as [|a l IH]; intros i; cbn [Zhihu.collect].
  - cbn. split; [lia | congruence].
  - rewrite Z.geb_leb. destruct (Z.leb_spec limit i) as [Hle|Hlt].
    + cbn. split; [lia | congruence].
    + destruct (build a) as [e|x].
      * cbn. split; lia.
      * rewrite zhihu_collect_acc. cbn [fst snd app List.length].
        destruct (IH (i + 1)%Z) as [H1 H2].
        split; [lia|]. intros Hs. specialize (H2 Hs). lia.
Qed.

Lemma zhihu_fill_length (hot_items : exn + json) (build : json -> exn + Zhihu.ZhihuHotItem)
    (limit : Z) :
  List.length (fst (Zhihu.fill hot_items build limit [])) <= Z.to_nat limit
  /\ (snd (Zhihu.fill hot_items build limit []) <> None ->
      List.length (fst (Zhihu.fill hot_items build limit []))
      <= Nat.pred (Z.to_nat limit)).
Proof.
  unfold Zhihu.fill.
  destruct (Py.and_then hot_items Py.iter) as [e|entries].
  - cbn. split; lia.
  - destruct (zhihu_collect_length build limit 0 entries) as [H1 H2].
    rewrite Z.sub_0_r in H1, H2.
    split; [exact H1|]. intros Hs. specialize (H2 Hs). lia.
Qed.

(** The loop over entries of which those within the limit are built. *)
Lemma zhihu_collect_all (build : json -> exn + Zhihu.ZhihuHotItem) (limit i : Z)
    (l : list json) (xs : list Zhihu.ZhihuHotItem) :
  Forall2 (fun entry item => build entry = inr item)
          (take (Z.to_nat (limit - i)) l) xs ->
  Zhihu.collect build limit i l [] = (xs, None).
Proof.
  revert i xs.
  induction l as [|a l IH]; intros i xs H; cbn [Zhihu.collect].
  - rewrite take_nil in H. inversion H. reflexivity.
  - rewrite Z.geb_leb. destruct (Z.leb_spec limit i) as [Hle|Hlt].
    + replace (Z.to_nat (limit - i)) with 0 in H by lia.
      cbn in H. inversion H. reflexivity.
    + replace (Z.to_nat (limit - i)) with (S (Z.to_nat (limit - (i + 1)))) in H by lia.
      cbn [take firstn] in H. inversion H as [|? x ? xs' Hb Hrest]; subst.
      rewrite Hb, zhihu_collect_acc, (IH _ _ Hrest). reflexivity.
Qed.

Lemma zhihu_fallback_returns {World : Type}
    (client_get : string -> M World Zhihu.response) (limit : Z) (w : World) :
  exists items w', Zhihu._fallback_method client_get limit w = (inr items, w').
Proof.
  unfold Zhihu._fallback_method.
  destruct (Zhihu.tophub_try client_get limit [] w) as [[items [|]] w1].
  - eauto.
  - destruct (Zhihu.tenapi_try client_get limit items w1) as [items' w2]. eauto.
Qed.

(** When the first source fails, the tool gives what the fallback
    gives. *)
Lemma zhihu_run_falls_back {World : Type}
    (client_get : string -> M World Zhihu.response) (repr : json -> string)
    (input_data : Zhihu.ZhihuHotInput) (w w1 : World) :
  primary_fails client_get repr (Zhihu.limit input_data) w w1 ->
  Zhihu._run client_get repr input_data w
  = Zhihu._fallback_method client_get (Zhihu.limit input_data) w1.
Proof.
  unfold primary_fails, Zhihu._run.
  destruct (client_get Zhihu.primary_url w) as [[e|response] w'].
  - intros ->. reflexivity.
  - intros [-> [Hs|(dropped & e & Hf)]].
    + rewrite Hs. reflexivity.
    + rewrite Hf. destruct (Zhihu.status_code response =? 200)%Z; reflexivity.
Qed.

Lemma zhihu_tophub_try_length {World : Type}
    (client_get : string -> M World Zhihu.response) (limit : Z) (w w1 : World)
    (items : list Zhihu.ZhihuHotItem) (returned : bool) :
  Zhihu.tophub_try client_get limit [] w = ((items, returned), w1) ->
  List.length items
  <= (if returned then Z.to_nat limit else Nat.pred (Z.to_nat limit)).
Proof.
  unfold Zhihu.tophub_try.
  destruct (client_get Zhihu.tophub_url w) as [[e|response] w'].
  - intros H. injection H as <- <- _. cbn. lia.
  - destruct (Zhihu.status_code response =? 200)%Z.
    + destruct (zhihu_fill_length (Zhihu.tophub_hot_items response)
                  Zhihu.tophub_item limit) as [H1 H2].
      destruct (Zhihu.fill (Zhihu.tophub_hot_items response) Zhihu.tophub_item limit [])
        as [items' [e|]]; cbn [fst snd] in H1, H2;
        intros H; injection H as <- <- _.
      * apply H2. discriminate.
      * exact H1.
    + intros H. injection H as <- <- _. cbn. lia.
Qed.

Lemma zhihu_tenapi_try_length {World : Type}
    (client_get : string -> M World Zhihu.response) (limit : Z) (w w1 : World)
    (items items' : list Zhihu.ZhihuHotItem) :
  Zhihu.tenapi_try client_get limit items w = (items', w1) ->
  List.length items' <= List.length items + Nat.max 1 (Z.to_nat limit).
Proof.
  unfold Zhihu.tenapi_try.
  destruct (client_get Zhihu.tenapi_url w) as [[e|response] w'].
  - intros H. injection H as <- _. rewrite length_app. cbn. lia.
  - destruct (Zhihu.status_code response =? 200)%Z.
    + rewrite zhihu_fill_acc.
      destruct (zhihu_fill_length (Zhihu.tenapi_hot_items response)
                  Zhihu.tenapi_item limit) as [H1 H2].
      destruct (Zhihu.fill (Zhihu.tenapi_hot_items response) Zhihu.tenapi_item limit [])
        as [more [e|]]; cbn [fst snd] in *;
        intros H; injection H as <- _; rewrite !length_app.
      * assert (List.length more <= Nat.pred (Z.to_nat limit)) by (apply H2; discriminate).
        cbn. lia.
      * lia.
    + intros H. injection H as <- _. lia.
Qed.

(** X14.  The hot-list tool never raises: whatever the three sites do,
    a run on an input model returns a list of items. *)
Theorem zhihu_run_never_raises {World : Type}
    (client_get : string -> M World Zhihu.response) (repr : json -> string)
    (input_data : Zhihu.ZhihuHotInput) (w : World) :
  exists items w', Zhihu._run client_get repr input_data w = (inr items, w').
Proof.
  unfold Zhihu._run.
  destruct (client_get Zhihu.primary_url w) as [[e|response] w1];
    [apply zhihu_fallback_returns|].
  destruct (Zhihu.status_code response =? 200)%Z; [|apply zhihu_fallback_returns].
  destruct (Zhihu.fill _ _ _ _) as [items [e|]];
    [apply zhihu_fallback_returns | eauto].
Qed.

(** X15.  When the first site answers with status 200 and an object
    whose [data] is a list, and each of the first [limit] entries of
    that list can be built into an item, the tool returns exactly these
    items, in order, and sends no other request.  The entries past the
    limit are not read: they need not be well formed. *)
Theorem zhihu_run_primary_items {World : Type}
    (client_get : string -> M World Zhihu.response) (repr : json -> string)
    (input_data : Zhihu.ZhihuHotInput) (w w' : World)
    (response : Zhihu.response) (data : dict) (entries : list json)
    (items : list Zhihu.ZhihuHotItem) :
  client_get Zhihu.primary_url w = (inr response, w') ->
  Zhihu.status_code response = 200%Z ->
  Zhihu.json_ response = inr (JObj data) ->
  Dict.get "data" data = Some (JArr entries) ->
  Forall2 (fun entry item => Zhihu.primary_item repr entry = inr item)
          (take (Z.to_nat (Zhihu.limit input_data)) entries) items ->
  Zhihu._run client_get repr input_data w = (inr items, w').
Proof.
  intros Hget Hstatus Hjson Hdata Hall.
  unfold Zhihu._run. rewrite Hget, Hstatus. cbn [Z.eqb Pos.eqb].
  unfold Zhihu.fill, Zhihu.primary_hot_items. rewrite Hjson.
  cbn [Py.and_then Py.get]. rewrite Hdata. cbn [default from_option id Py.iter Py.and_then].
  rewrite (zhihu_collect_all _ _ 0 entries items); [reflexivity|].
  rewrite Z.sub_0_r. exact Hall.
Qed.

Lemma zhihu_run_primary_items_witness :
  Zhihu._run Sites.client_get Sites.repr {| Zhihu.limit := 2 |}
    [Sites.ok Sites.primary_data]
  = (inr [ {| Zhihu.title := "q1"; Zhihu.url := "https://www.zhihu.com/question/1";
              Zhihu.hot_value := Some "10" |};
           {| Zhihu.title := "q2"; Zhihu.url := "https://www.zhihu.com/question/2";
              Zhihu.hot_value := Some "9" |} ],
     []).
Proof.
  apply (zhihu_run_primary_items Sites.client_get Sites.repr {| Zhihu.limit := 2 |}
           [Sites.ok Sites.primary_data] []
           {| Zhihu.status_code := 200; Zhihu.json_ := inr Sites.primary_data |}
           [("data", JArr [Sites.question 1 "q1" "10"; Sites.question 2 "q2" "9"; JInt 7])]
           [Sites.question 1 "q1" "10"; Sites.question 2 "q2" "9"; JInt 7]).
  - reflexivity.
  - reflexivity.
  - reflexivity.
  - reflexivity.
  - repeat constructor.
Defined.

(** X16.  What the second source appended before it raised stays in the
    result: when the first source fails, the reading of the second
    raises after the items [partial], and the third source is read to
    its end giving [more], the tool returns [partial] followed by
    [more].  What the first source had appended before it failed is not
    in the result. *)
Theorem zhihu_run_keeps_partial_items {World : Type}
    (client_get : string -> M World Zhihu.response) (repr : json -> string)
    (input_data : Zhihu.ZhihuHotInput) (w w1 w2 w3 : World)
    (second third : Zhihu.response) (e : exn)
    (partial more : list Zhihu.ZhihuHotItem) :
  primary_fails client_get repr (Zhihu.limit input_data) w w1 ->
  client_get Zhihu.tophub_url w1 = (inr second, w2) ->
  Zhihu.status_code second = 200%Z ->
  Zhihu.fill (Zhihu.tophub_hot_items second) Zhihu.tophub_item
    (Zhihu.limit input_data) [] = (partial, Some e) ->
  client_get Zhihu.tenapi_url w2 = (inr third, w3) ->
  Zhihu.status_code third = 200%Z ->
  Zhihu.fill (Zhihu.tenapi_hot_items third) Zhihu.tenapi_item
    (Zhihu.limit input_data) [] = (more, None) ->
  Zhihu._run client_get repr input_data w = (inr (partial ++ more)%list, w3).
Proof.
  intros Hp Hg2 Hs2 Hf2 Hg3 Hs3 Hf3.
  rewrite (zhihu_run_falls_back _ _ _ _ _ Hp).
  unfold Zhihu._fallback_method, Zhihu.tophub_try.
  rewrite Hg2, Hs2. cbn [Z.eqb Pos.eqb]. rewrite Hf2.
  unfold Zhihu.tenapi_try. rewrite Hg3, Hs3. cbn [Z.eqb Pos.eqb].
  rewrite zhihu_fill_acc, Hf3. reflexivity.
Qed.

Lemma zhihu_run_keeps_partial_items_witness :
  Zhihu._run Sites.client_get Sites.repr {| Zhihu.limit := 2 |}
    [Sites.ok (JObj [("data", JArr [Sites.question 1 "q1" "10"; JInt 7])]);
     Sites.ok Sites.tophub_data; Sites.ok Sites.tenapi_data]
  = (inr ([ {| Zhihu.title := "t1"; Zhihu.url := "u1"; Zhihu.hot_value := Some "5" |} ]
          ++ [ {| Zhihu.title := "n1"; Zhihu.url := "v1"; Zhihu.hot_value := None |};
               {| Zhihu.title := "n2"; Zhihu.url := "v2"; Zhihu.hot_value := None |} ])%list,
     []).
Proof.
  apply (zhihu_run_keeps_partial_items Sites.client_get Sites.repr {| Zhihu.limit := 2 |}
           [Sites.ok (JObj [("data", JArr [Sites.question 1 "q1" "10"; JInt 7])]);
            Sites.ok Sites.tophub_data; Sites.ok Sites.tenapi_data]
           [Sites.ok Sites.tophub_data; Sites.ok Sites.tenapi_data]
           [Sites.ok Sites.tenapi_data] []
           {| Zhihu.status_code := 200; Zhihu.json_ := inr Sites.tophub_data |}
           {| Zhihu.status_code := 200; Zhihu.json_ := inr Sites.tenapi_data |}
           (Exception "1 validation error for ZhihuHotItem")).
  - cbn. split; [reflexivity|]. right.
    exists [ {| Zhihu.title := "q1"; Zhihu.url := "https://www.zhihu.com/question/1";
                Zhihu.hot_value := Some "10" |} ],
           (Exception "'int' object has no attribute 'get'").
    reflexivity.
  - reflexivity.
  - reflexivity.
  - reflexivity.
  - reflexivity.
  - reflexivity.
  - reflexivity.
Defined.

(** X17.  A run of the hot-list tool gives at most
    [max 1 (2 * limit - 1)] items: the limit bounds each source, not the
    result, which may hold the items of two sources and the error
    item. *)
Theorem zhihu_run_length_bound {World : Type}
    (client_get : string -> M World Zhihu.response) (repr : json -> string)
    (input_data : Zhihu.ZhihuHotInput) (w w' : World)
    (items : Zhihu.ZhihuHotOutput) :
  Zhihu._run client_get repr input_data w = (inr items, w') ->
  List.length items <= Z.to_nat (Z.max 1 (2 * Zhihu.limit input_data - 1)).
Proof.
  assert (Hfb : forall w0,
    Zhihu._fallback_method client_get (Zhihu.limit input_data) w0 = (inr items, w') ->
    List.length items <= Z.to_nat (Z.max 1 (2 * Zhihu.limit input_data - 1))).
  { intros w0. unfold Zhihu._fallback_method.
    destruct (Zhihu.tophub_try client_get (Zhihu.limit input_data) [] w0)
      as [[items1 returned] w1] eqn:H1.
    apply zhihu_tophub_try_length in H1.
    destruct returned.
    - intros H. injection H as <- _. lia.
    - destruct (Zhihu.tenapi_try client_get (Zhihu.limit input_data) items1 w1)
        as [items2 w2] eqn:H2.
      apply zhihu_tenapi_try_length in H2.
      intros H. injection H as <- _. lia. }
  unfold Zhihu._run.
  destruct (client_get Zhihu.primary_url w) as [[e|response] w1]; [apply Hfb|].
  destruct (Zhihu.status_code response =? 200)%Z; [|apply Hfb].
  destruct (zhihu_fill_length (Zhihu.primary_hot_items response)
              (Zhihu.primary_item repr) (Zhihu.limit input_data)) as [H1 _].
  destruct (Zhihu.fill _ _ _ _) as [items1 [e|]]; [apply Hfb|].
  cbn [fst] in H1. intros H. injection H as <- _. lia.
Qed.

Lemma zhihu_run_length_bound_witness :
  List.length
    [ {| Zhihu.title := "t1"; Zhihu.url := "u1"; Zhihu.hot_value := Some "5" |};
      {| Zhihu.title := "n1"; Zhihu.url := "v1"; Zhihu.hot_value := None |};
      {| Zhihu.title := "n2"; Zhihu.url := "v2"; Zhihu.hot_value := None |} ]
  <= Z.to_nat (Z.max 1 (2 * 2 - 1)).
Proof.
  apply (zhihu_run_length_bound Sites.client_get Sites.repr {| Zhihu.limit := 2 |}
           [Sites.refused; Sites.ok Sites.tophub_data; Sites.ok Sites.tenapi_data] []).
  reflexivity.
Defined.

(** X18.  When the first source fails and neither of the two other
    sites can be reached, the tool returns the single item that carries
    the error text: the failure is reported as data, not raised. *)
Theorem zhihu_run_unreachable_gives_error_item {World : Type}
    (client_get : string -> M World Zhihu.response) (repr : json -> string)
    (input_data : Zhihu.ZhihuHotInput) (w w1 w2 w3 : World) (e2 e3 : exn) :
  primary_fails client_get repr (Zhihu.limit input_data) w w1 ->
  client_get Zhihu.tophub_url w1 = (inl e2, w2) ->
  client_get Zhihu.tenapi_url w2 = (inl e3, w3) ->
  Zhihu._run client_get repr input_data w = (inr [Zhihu.error_item], w3).
Proof.
  intros Hp Hg2 Hg3.
  rewrite (zhihu_run_falls_back _ _ _ _ _ Hp).
  unfold Zhihu._fallback_method, Zhihu.tophub_try, Zhihu.tenapi_try.
  rewrite Hg2. cbn beta iota. rewrite Hg3. reflexivity.
Qed.

Lemma zhihu_run_unreachable_gives_error_item_witness :
  Zhihu._run Sites.client_get Sites.repr {| Zhihu.limit := 10 |} []
  = (inr [Zhihu.error_item], []).
Proof.
  apply (zhihu_run_unreachable_gives_error_item Sites.client_get Sites.repr
           {| Zhihu.limit := 10 |} [] [] [] [] Sites.unreachable Sites.unreachable);
    reflexivity.
Defined.

(** X19.  When the first source fails and the two other sites answer
    with a status other than 200, the tool returns an empty list: no
    item, no error item and no exception tell the failure apart from an
    empty hot list. *)
Theorem zhihu_run_refused_gives_nothing {World : Type}
    (client_get : string -> M World Zhihu.response) (repr : json -> string)
    (input_data : Zhihu.ZhihuHotInput) (w w1 w2 w3 : World)
    (second third : Zhihu.response) :
  primary_fails client_get repr (Zhihu.limit input_data) w w1 ->
  client_get Zhihu.tophub_url w1 = (inr second, w2) ->
  Zhihu.status_code second <> 200%Z ->
  client_get Zhihu.tenapi_url w2 = (inr third, w3) ->
  Zhihu.status_code third <> 200%Z ->
  Zhihu._run client_get repr input_data w = (inr [], w3).
Proof.
  intros Hp Hg2 Hs2 Hg3 Hs3.
  rewrite (zhihu_run_falls_back _ _ _ _ _ Hp).
  unfold Zhihu._fallback_method, Zhihu.tophub_try, Zhihu.tenapi_try.
  apply Z.eqb_neq in Hs2, Hs3.
  rewrite Hg2, Hs2. cbn beta iota. rewrite Hg3, Hs3. reflexivity.
Qed.

Lemma zhihu_run_refused_gives_nothing_witness :
  Zhihu._run Sites.client_get Sites.repr {| Zhihu.limit := 10 |}
    [Sites.refused; Sites.refused; Sites.refused]
  = (inr [], []).
Proof.
  apply (zhihu_run_refused_gives_nothing Sites.client_get Sites.repr
           {| Zhihu.limit := 10 |}
           [Sites.refused; Sites.refused; Sites.refused]
           [Sites.refused; Sites.refused] [Sites.refused] []
           {| Zhihu.status_code := 403; Zhihu.json_ := inl (Exception "Expecting value") |}
           {| Zhihu.status_code := 403; Zhihu.json_ := inl (Exception "Expecting value") |}).
  - cbn. split; [reflexivity | left; reflexivity].
  - reflexivity.
  - discriminate.
  - reflexivity.
  - discriminate.
Defined.

(** ** The tools under the dispatcher *)

(** The input of a call that the extractor returned is there and is no
    dict. *)
Lemma extracted_call_input (output : string) (call : dict) :
  In call (_parse_tool_calls output) ->
  exists input : json,
    Dict.get "input" call = Some input /\ is_object input = false.
Proof.
  intros Hin.
  pose proof (parse_tool_calls_In output call Hin) as (_ & _ & _ & _ & Hi).
  unfold Dict.mem in Hi.
  destruct (Dict.get "input" call) as [input|] eqn:Hget; [|discriminate].
  exists input. split; [reflexivity|].
  pose proof (parse_tool_calls_values_flat output call Hin) as Hf.
  destruct (dict_get_In _ _ _ Hget) as [k Hk].
  rewrite List.Forall_forall in Hf. exact (Hf (k, input) Hk).
Qed.

(** X20.  No call that the extractor returns makes the search tool
    search.  The input of such a call is never a dict, so it reaches the
    logic of the tool as it is; the logic reads its [query] while it
    builds the request and raises; the dispatcher records the failure,
    whose text names the type of the input, and no request is sent. *)
Theorem extracted_search_call_fails
    (World : Type) (client_get : string -> M World Search.response)
    (validate : dict -> exn + Search.SearchInput) (ZhihuHotTool : BaseTool World)
    (output : string) (call : dict) (acc : list tool_result) (w : World) :
  In call (_parse_tool_calls output) ->
  call_name call = Some "search" ->
  exists input : json,
    Dict.get "input" call = Some input
    /\ process_call (Search.tool client_get validate) ZhihuHotTool acc call w
       = (inr (acc ++ [ToolError "search"
                         ("'" +:+ Py.type_name input
                          +:+ "' object has no attribute 'query'")])%list, w).
Proof.
  intros Hin Hn.
  destruct (extracted_call_input output call Hin) as (input & Hget & Hflat).
  exists input. split; [exact Hget|].
  rewrite (process_call_found (Search.tool client_get validate) ZhihuHotTool
             acc call "search" (Search.tool client_get validate) w Hn eq_refl).
  rewrite Hget. cbn [default from_option id].
  destruct input; try discriminate Hflat; reflexivity.
Qed.

Lemma extracted_search_call_fails_witness :
  exists input : json,
    Dict.get "input" Script.search_call = Some input
    /\ process_call Script.SearchTool Script.ZhihuHotTool [] Script.search_call []
       = (inr ([] ++ [ToolError "search"
                        ("'" +:+ Py.type_name input
                         +:+ "' object has no attribute 'query'")])%list, []).
Proof.
  apply (extracted_search_call_fails Script.World Script.empty_page Script.SearchInput
           Script.ZhihuHotTool (Script.flat_reply "search" (Script.quoted "x"))
           Script.search_call [] []).
  - vm_compute. left. reflexivity.
  - reflexivity.
Defined.

(** X21.  No call that the extractor returns brings a hot-list item.
    Its input is no input model, so after the one request to the first
    site the tool fails at the first reading of [limit], in the loop or
    in the call of the fallback; the dispatcher records that failure.
    Only when the first site answers with status 200 and nothing to
    iterate over does the call return, with an empty list.  The two
    fallback sites are never asked. *)
Theorem extracted_zhihu_call_gives_no_item
    (World : Type) (client_get : string -> M World Zhihu.response)
    (repr : json -> string) (validate : dict -> exn + Zhihu.ZhihuHotInput)
    (SearchTool : BaseTool World)
    (output : string) (call : dict) (acc : list tool_result) (w : World) :
  In call (_parse_tool_calls output) ->
  call_name call = Some "zhihu_hot" ->
  exists (input : json) (result : tool_result),
    Dict.get "input" call = Some input
    /\ process_call SearchTool (Zhihu.tool client_get repr validate) acc call w
       = (inr (acc ++ [result])%list, snd (client_get Zhihu.primary_url w))
    /\ (result = ToolOutput "zhihu_hot" (JObj [("items", JArr [])])
        \/ result = ToolError "zhihu_hot"
                      ("'" +:+ Py.type_name input
                       +:+ "' object has no attribute 'limit'")).
Proof.
  intros Hin Hn.
  destruct (extracted_call_input output call Hin) as (input & Hget & Hflat).
  exists input.
  rewrite (process_call_found SearchTool (Zhihu.tool client_get repr validate)
             acc call "zhihu_hot" (Zhihu.tool client_get repr validate) w Hn eq_refl).
  rewrite Hget. cbn [default from_option id].
  assert (Hrun : run (Zhihu.tool client_get repr validate) input w
                 = bind (Zhihu._run_raw client_get input)
                     (fun output => ret (Zhihu.model_dump output)) w).
  { destruct input; try discriminate Hflat; reflexivity. }
  rewrite Hrun. unfold bind, ret, Zhihu._run_raw.
  destruct (client_get Zhihu.primary_url w) as [[e|response] w1]; cbn [snd].
  - eexists. split; [reflexivity|]. split; [reflexivity|]. right. reflexivity.
  - destruct (Zhihu.status_code response =? 200)%Z.
    + destruct (Py.and_then (Zhihu.primary_hot_items response) Py.iter) as [e|[|entry rest]];
        eexists; (split; [reflexivity|]); (split; [reflexivity|]);
        [right | left | right]; reflexivity.
    + eexists. split; [reflexivity|]. split; [reflexivity|]. right. reflexivity.
Qed.

Lemma extracted_zhihu_call_gives_no_item_witness :
  exists (input : json) (result : tool_result),
    Dict.get "input" Script.zhihu_call = Some input
    /\ process_call Script.SearchTool Script.ZhihuHotTool [] Script.zhihu_call []
       = (inr ([] ++ [result])%list,
          snd (Script.offline (R := Zhihu.response) Zhihu.primary_url []))
    /\ (result = ToolOutput "zhihu_hot" (JObj [("items", JArr [])])
        \/ result = ToolError "zhihu_hot"
                      ("'" +:+ Py.type_name input
                       +:+ "' object has no attribute 'limit'")).
Proof.
  apply (extracted_zhihu_call_gives_no_item Script.World Script.offline Script.repr
           Script.ZhihuHotInput Script.SearchTool
           (Script.flat_reply "zhihu_hot" "1") Script.zhihu_call [] []).
  - vm_compute. left. reflexivity.
  - reflexivity.
Defined.
